(** * Storage-inventory lookups of [inventory.py], embedded and verified

    Each lookup of the module takes a boto3 session, an account identifier,
    a region and a resource identifier, calls the provider and returns size
    records [[account_id, region_name, key, size]].

    The provider is outside the module.  A lookup is embedded as a program
    in a small state-and-exception monad: the state carries the wall clock
    and the trace of provider calls issued so far, the session is an oracle
    that answers each call with a response or with a fault, which the
    client raises.  Within one lookup the oracle is a function of the call:
    the same call gets the same answer. *)

From Stdlib Require Import ZArith List String Bool Lia.
From Stdlib Require Import Permutation Sorted SpecFloat.
Import ListNotations.

Local Open Scope string_scope.
Local Open Scope Z_scope.
Local Open Scope list_scope.

(** ** Python values *)

(** A Python number as the provider hands it out: an [int] of arbitrary
    precision or a [float], an IEEE 754 binary64 value. *)
Inductive pynum : Type :=
| PyInt (z : Z)
| PyFloat (f : spec_float).

Definition prec64 : Z := 53.
Definition emax64 : Z := 1024.

(** [float(k)] for an int [k], correctly rounded. *)
Definition float_of_int (k : Z) : spec_float :=
  binary_normalize prec64 emax64 k 0 false.

(** [x * k] where [k] is an int literal: int times int is exact, a float
    operand makes the product a binary64 product. *)
Definition py_mul (x : pynum) (k : Z) : pynum :=
  match x with
  | PyInt z => PyInt (z * k)
  | PyFloat f => PyFloat (SFmul prec64 emax64 f (float_of_int k))
  end.

(** The exceptions a lookup can end with.  [Exception] is the bare class the
    module raises itself; [ClientError] stands for whatever the provider's
    client raises. *)
Inductive exn : Type :=
| Exception (msg : string)
| IndexError (msg : string)
| KeyError (key : string)
| ValueError (msg : string)
| OverflowError (msg : string)
| ClientError (msg : string).

(** [str(exc)], as interpolated by an f-string. *)
Definition exn_str (e : exn) : string :=
  match e with
  | Exception msg => msg
  | IndexError msg => msg
  | KeyError key => "'" ++ key ++ "'"
  | ValueError msg => msg
  | OverflowError msg => msg
  | ClientError msg => msg
  end.

Inductive outcome (A : Type) : Type :=
| Returned (a : A)
| Raised (e : exn).
Arguments Returned {A} a.
Arguments Raised {A} e.

(** ** Provider data *)

(** Keys the code subscripts are fields; keys it reads with [.get] are
    optional; the statistics of a datapoint are present only when they were
    requested, so they are optional too and subscripting them can raise. *)

(** Instants are microseconds since the epoch, durations microseconds. *)
Definition datetime := Z.
Definition timedelta := Z.

Definition timedelta_minutes (m : Z) : timedelta := m * 60 * 1000000.
Definition timedelta_days (d : Z) : timedelta := d * 86400 * 1000000.
(** [int(td.total_seconds())] *)
Definition total_seconds_int (td : timedelta) : Z := Z.quot td 1000000.

Module EC2.
Record EbsInstanceBlockDevice := { EbsVolumeId : string }.
Record InstanceBlockDeviceMapping := { Ebs : EbsInstanceBlockDevice }.
Record Instance :=
  { BlockDeviceMappings : option (list InstanceBlockDeviceMapping) }.
Record Reservation := { Instances : option (list Instance) }.
Record DescribeInstancesResult :=
  { Reservations : option (list Reservation) }.
Record Volume := { VolumeId : string; Size : Z }.
Record DescribeVolumesResult := { Volumes : option (list Volume) }.
End EC2.

Module RDS.
Record DBCluster := { Engine : string; AllocatedStorage : Z }.
Record DescribeDBClustersResult := { DBClusters : list DBCluster }.
Record DBInstance := { InstanceAllocatedStorage : Z }.
Record DescribeDBInstancesResult := { DBInstances : list DBInstance }.
End RDS.

Module EFS.
Record FileSystemSize := { Value : Z }.
Record FileSystemDescription := { SizeInBytes : FileSystemSize }.
Record DescribeFileSystemsResult :=
  { FileSystems : list FileSystemDescription }.
End EFS.

Module DynamoDB.
Record TableDescription := { TableSizeBytes : Z }.
Record DescribeTableResult := { Table : TableDescription }.
End DynamoDB.

Module Redshift.
Record SnapshotSortingEntity := { Attribute : string; SortOrder : string }.
Record DescribeClusterSnapshotsRequest :=
  { ClusterIdentifier : string;
    StartTime : datetime;
    SortingEntities : list SnapshotSortingEntity }.
Record Snapshot :=
  { SnapshotCreateTime : datetime; TotalBackupSizeInMegaBytes : pynum }.
Record DescribeClusterSnapshotsResult := { Snapshots : list Snapshot }.
End Redshift.

Module S3.
Record GetBucketLocationResult := { LocationConstraint : option string }.
End S3.

Module CloudWatch.
Record Dimension := { Name : string; Value : string }.
Record GetMetricStatisticsRequest :=
  { Namespace : string;
    MetricName : string;
    Dimensions : list Dimension;
    StartTime : datetime;
    EndTime : datetime;
    Statistics : list string;
    Period : Z;
    Unit : string }.
Record Datapoint :=
  { Timestamp : datetime;
    Maximum : option pynum;
    Average : option pynum }.
Record GetMetricStatisticsResult := { Datapoints : list Datapoint }.
Record ListMetricsRequest :=
  { ListNamespace : string;
    ListMetricName : string;
    ListDimensions : list Dimension }.
Record Metric := { MetricDimensions : list Dimension }.
Record ListMetricsPage := { Metrics : list Metric }.
End CloudWatch.

(** ** The session and the effects of a lookup *)

(** A provider call, as recorded in the trace: the service operation, the
    region of the client it was issued on, and its arguments. *)
Inductive Call : Type :=
| DescribeInstances (region : string) (InstanceIds : list string)
| DescribeVolumes (region : string) (VolumeIds : list string)
| DescribeDBClusters (region : string) (DBClusterIdentifier : string)
| DescribeDBInstances (region : string) (DBInstanceIdentifier : string)
| DescribeFileSystems (region : string) (FileSystemId : string)
| DescribeTable (region : string) (TableName : string)
| DescribeClusterSnapshots
    (region : string) (req : Redshift.DescribeClusterSnapshotsRequest)
| GetBucketLocation (region : string) (Bucket : string)
| ListMetricsPaginate (region : string) (req : CloudWatch.ListMetricsRequest)
| GetMetricStatistics
    (region : string) (req : CloudWatch.GetMetricStatisticsRequest).

(** What the provider answers to a call: a response, or a fault that its
    client raises as an exception of its own class. *)
Inductive reply (A : Type) : Type :=
| Reply (response : A)
| Fault (message : string).
Arguments Reply {A} response.
Arguments Fault {A} message.

(** The operations of a session's clients, by region.  The paginator is
    taken as one operation that yields all its pages or raises. *)
Record Session : Type :=
  { describe_instances :
      string -> list string -> reply EC2.DescribeInstancesResult;
    describe_volumes :
      string -> list string -> reply EC2.DescribeVolumesResult;
    describe_db_clusters :
      string -> string -> reply RDS.DescribeDBClustersResult;
    describe_db_instances :
      string -> string -> reply RDS.DescribeDBInstancesResult;
    describe_file_systems :
      string -> string -> reply EFS.DescribeFileSystemsResult;
    describe_table :
      string -> string -> reply DynamoDB.DescribeTableResult;
    describe_cluster_snapshots :
      string -> Redshift.DescribeClusterSnapshotsRequest ->
      reply Redshift.DescribeClusterSnapshotsResult;
    get_bucket_location :
      string -> string -> reply S3.GetBucketLocationResult;
    list_metrics_paginate :
      string -> CloudWatch.ListMetricsRequest ->
      reply (list CloudWatch.ListMetricsPage);
    get_metric_statistics :
      string -> CloudWatch.GetMetricStatisticsRequest ->
      reply CloudWatch.GetMetricStatisticsResult }.

Record World : Type :=
  { wall_clock : datetime;
    trace : list Call }.

Definition M (A : Type) : Type := World -> outcome A * World.

Definition ret {A} (a : A) : M A := fun w => (Returned a, w).

Definition raise {A} (e : exn) : M A := fun w => (Raised e, w).

Definition bind {A B} (m : M A) (k : A -> M B) : M B :=
  fun w =>
    match m w with
    | (Returned a, w') => k a w'
    | (Raised e, w') => (Raised e, w')
    end.

(** [try: body except Exception as exc: handler] *)
Definition try_except {A} (body : M A) (handler : exn -> M A) : M A :=
  fun w =>
    match body w with
    | (Returned a, w') => (Returned a, w')
    | (Raised e, w') => handler e w'
    end.

Declare Scope py_scope.
Delimit Scope py_scope with py.
Notation "x <- m ;; k" := (bind m (fun x => k))
  (at level 100, m at next level, right associativity) : py_scope.
Notation "m ;;; k" := (bind m (fun _ => k))
  (at level 100, right associativity) : py_scope.
Local Open Scope py_scope.

(** Issue a provider call: append it to the trace, then return the
    response or raise the fault. *)
Definition invoke {A} (c : Call) (answer : reply A) : M A :=
  fun w =>
    (match answer with
     | Reply response => Returned response
     | Fault message => Raised (ClientError message)
     end,
     {| wall_clock := wall_clock w; trace := trace w ++ [c] |}).

(** [datetime.datetime.now(tzutc())] *)
Definition datetime_now : M datetime :=
  fun w => (Returned (wall_clock w), w).

(** [for x in l: body], the body updating the loop's local state. *)
Fixpoint for_each {A S} (l : list A) (body : A -> S -> M S) (s : S) : M S :=
  match l with
  | [] => ret s
  | x :: rest => s' <- body x s ;; for_each rest body s'
  end.

(** [l[0]] *)
Definition index0 {A} (l : list A) : M A :=
  match l with
  | x :: _ => ret x
  | [] => raise (IndexError "list index out of range")
  end.

(** [d[key]] on an optional member. *)
Definition subscript {A} (key : string) (member : option A) : M A :=
  match member with
  | Some v => ret v
  | None => raise (KeyError key)
  end.

(** [d.get(key, [])] *)
Definition get_or_empty {A} (member : option (list A)) : list A :=
  match member with
  | Some l => l
  | None => []
  end.

(** ** The size record *)

Record SizeRecord : Type :=
  { account_id : string;
    region_name : string;
    resource_key : string;
    size_bytes : pynum }.

(** ** get_ec2_instance_size *)

Definition instance_volume_ids (response : EC2.DescribeInstancesResult)
  : list string :=
  flat_map (fun reservation =>
    flat_map (fun instance =>
      map (fun block_device_mapping =>
             EC2.EbsVolumeId (EC2.Ebs block_device_mapping))
          (get_or_empty (EC2.BlockDeviceMappings instance)))
      (get_or_empty (EC2.Instances reservation)))
    (get_or_empty (EC2.Reservations response)).

Definition ec2_volume_record (account_id region_name instance_id : string)
  (volume : EC2.Volume) : SizeRecord :=
  {| account_id := account_id;
     region_name := region_name;
     resource_key := instance_id ++ "::" ++ EC2.VolumeId volume;
     size_bytes := PyInt (EC2.Size volume * 1024 * 1024 * 1024) |}.

Definition get_ec2_instance_size (session : Session)
  (account_id region_name instance_id : string) : M (list SizeRecord) :=
  response <- invoke (DescribeInstances region_name [instance_id])
                (describe_instances session region_name [instance_id]) ;;
  let volume_ids := instance_volume_ids response in
  response <- invoke (DescribeVolumes region_name volume_ids)
                (describe_volumes session region_name volume_ids) ;;
  for_each (get_or_empty (EC2.Volumes response))
    (fun volume volumes =>
       ret (volumes ++
            [ec2_volume_record account_id region_name instance_id volume]))
    [].

(** ** get_rds_cluster_size *)

(** [sorted(l, key=key, reverse=True)]: the sort is stable, so elements
    with equal keys keep the order they had in [l]. *)
Fixpoint insert_reverse {A} (key : A -> Z) (x : A) (l : list A) : list A :=
  match l with
  | [] => [x]
  | y :: rest =>
      if key x <? key y then y :: insert_reverse key x rest else x :: l
  end.

Definition sorted_reverse {A} (key : A -> Z) (l : list A) : list A :=
  fold_right (insert_reverse key) [] l.

(** [int(x)]: an int is returned as it is, a float is truncated toward
    zero, and infinities and NaN raise. *)
Definition py_int (x : pynum) : M Z :=
  match x with
  | PyInt z => ret z
  | PyFloat (S754_zero _) => ret 0
  | PyFloat (S754_finite s m e) =>
      let magnitude := Z.shiftl (Zpos m) e in
      ret (if s then - magnitude else magnitude)
  | PyFloat (S754_infinity _) =>
      raise (OverflowError "cannot convert float infinity to integer")
  | PyFloat S754_nan =>
      raise (ValueError "cannot convert float NaN to integer")
  end.

Definition rds_cluster_not_found (db_cluster_identifier : string) : string :=
  "DB Cluster " ++ db_cluster_identifier ++ " was not found".

Definition rds_metric_not_found (db_cluster_identifier : string) : string :=
  "The VolumeBytesUsed metric was not found for DB cluster "
  ++ db_cluster_identifier.

Definition volume_bytes_used_request (db_cluster_identifier : string)
  (start_time end_time : datetime) (period : timedelta)
  : CloudWatch.GetMetricStatisticsRequest :=
  {| CloudWatch.Namespace := "AWS/RDS";
     CloudWatch.MetricName := "VolumeBytesUsed";
     CloudWatch.Dimensions :=
       [{| CloudWatch.Name := "DBClusterIdentifier";
           CloudWatch.Value := db_cluster_identifier |}];
     CloudWatch.StartTime := start_time;
     CloudWatch.EndTime := end_time;
     CloudWatch.Statistics := ["Maximum"];
     CloudWatch.Period := total_seconds_int period;
     CloudWatch.Unit := "Bytes" |}.

Definition get_rds_cluster_size (session : Session)
  (account_id region_name db_cluster_identifier : string) : M SizeRecord :=
  response <- invoke (DescribeDBClusters region_name db_cluster_identifier)
                (describe_db_clusters session region_name
                   db_cluster_identifier) ;;
  match RDS.DBClusters response with
  | [] => raise (Exception (rds_cluster_not_found db_cluster_identifier))
  | cluster :: _ =>
      let engine := RDS.Engine cluster in
      if negb (String.prefix "aurora-" engine) then
        ret {| account_id := account_id;
               region_name := region_name;
               resource_key := db_cluster_identifier;
               size_bytes :=
                 PyInt (RDS.AllocatedStorage cluster * 1024 * 1024 * 1024) |}
      else
        let period := timedelta_minutes 30 in
        end_time <- datetime_now ;;
        let start_time := end_time - period in
        let request :=
          volume_bytes_used_request db_cluster_identifier
            start_time end_time period in
        response <- invoke (GetMetricStatistics region_name request)
                      (get_metric_statistics session region_name request) ;;
        match CloudWatch.Datapoints response with
        | [] =>
            raise (Exception (rds_metric_not_found db_cluster_identifier))
        | _ :: _ =>
            let datapoints :=
              sorted_reverse CloudWatch.Timestamp
                (CloudWatch.Datapoints response) in
            datapoint <- index0 datapoints ;;
            maximum <- subscript "Maximum" (CloudWatch.Maximum datapoint) ;;
            size <- py_int maximum ;;
            ret {| account_id := account_id;
                   region_name := region_name;
                   resource_key := db_cluster_identifier;
                   size_bytes := PyInt size |}
        end
  end.

(** ** get_rds_instance_size *)

Definition get_rds_instance_size (session : Session)
  (account_id region_name db_instance_identifier : string) : M SizeRecord :=
  response <- invoke (DescribeDBInstances region_name db_instance_identifier)
                (describe_db_instances session region_name
                   db_instance_identifier) ;;
  match RDS.DBInstances response with
  | [] =>
      raise (Exception
               ("DB Instance " ++ db_instance_identifier ++ " was not found"))
  | instance :: _ =>
      ret {| account_id := account_id;
             region_name := region_name;
             resource_key := db_instance_identifier;
             size_bytes :=
               PyInt (RDS.InstanceAllocatedStorage instance
                      * 1024 * 1024 * 1024) |}
  end.

(** ** get_efs_file_system_size *)

Definition get_efs_file_system_size (session : Session)
  (account_id region_name file_system_id : string) : M SizeRecord :=
  response <- invoke (DescribeFileSystems region_name file_system_id)
                (describe_file_systems session region_name file_system_id) ;;
  match EFS.FileSystems response with
  | [] =>
      raise (Exception
               ("File system " ++ file_system_id ++ " in region "
                ++ region_name ++ " could not be found"))
  | file_system :: _ =>
      let file_system_size := EFS.Value (EFS.SizeInBytes file_system) in
      ret {| account_id := account_id;
             region_name := region_name;
             resource_key := file_system_id;
             size_bytes := PyInt file_system_size |}
  end.

(** ** get_dynamodb_table_size *)

Definition get_dynamodb_table_size (session : Session)
  (account_id region_name table_name : string) : M SizeRecord :=
  response <- invoke (DescribeTable region_name table_name)
                (describe_table session region_name table_name) ;;
  let table := DynamoDB.Table response in
  ret {| account_id := account_id;
         region_name := region_name;
         resource_key := table_name;
         size_bytes := PyInt (DynamoDB.TableSizeBytes table) |}.

(** ** get_redshift_cluster_size *)

Definition redshift_no_snapshots (cluster_identifier : string) : string :=
  "Cluster " ++ cluster_identifier
  ++ " does not have any snapshots in the last seven days".

Definition cluster_snapshots_request (cluster_identifier : string)
  (start_time : datetime) : Redshift.DescribeClusterSnapshotsRequest :=
  {| Redshift.ClusterIdentifier := cluster_identifier;
     Redshift.StartTime := start_time;
     Redshift.SortingEntities :=
       [{| Redshift.Attribute := "CREATE_TIME";
           Redshift.SortOrder := "DESC" |}] |}.

Definition get_redshift_cluster_size (session : Session)
  (account_id region_name cluster_identifier : string) : M SizeRecord :=
  now <- datetime_now ;;
  let start_time := now - timedelta_days 7 in
  let request := cluster_snapshots_request cluster_identifier start_time in
  response <- invoke (DescribeClusterSnapshots region_name request)
                (describe_cluster_snapshots session region_name request) ;;
  let snapshots :=
    sorted_reverse Redshift.SnapshotCreateTime
      (Redshift.Snapshots response) in
  match snapshots with
  | [] => raise (Exception (redshift_no_snapshots cluster_identifier))
  | last_snapshot :: _ =>
      ret {| account_id := account_id;
             region_name := region_name;
             resource_key := cluster_identifier;
             size_bytes :=
               py_mul
                 (py_mul (Redshift.TotalBackupSizeInMegaBytes last_snapshot)
                    1024)
                 1024 |}
  end.

(** ** get_bucket_size *)

(** [member or default] on an optional string: [None] and the empty
    string are falsy. *)
Definition get_or (member : option string) (default : string) : string :=
  match member with
  | None => default
  | Some EmptyString => default
  | Some s => s
  end.

Definition backup_storage_types : list string :=
  [ "StandardStorage";
    "StandardIAStorage";
    "OneZoneIAStorage";
    "GlacierInstantRetrievalStorage";
    "IntelligentTieringFAStorage";
    "IntelligentTieringIAStorage";
    "IntelligentTieringAAStorage";
    "IntelligentTieringAIAStorage";
    "IntelligentTieringDAAStorage" ].

Definition other_storage_types : list string :=
  [ "StandardIASizeOverhead";
    "StandardIAObjectOverhead";
    "OneZoneIASizeOverhead";
    "ReducedRedundancyStorage";
    "GlacierInstantRetrievalSizeOverhead";
    "GlacierInstantRetrievalStorage";
    "GlacierStorage";
    "GlacierStagingStorage";
    "GlacierObjectOverhead";
    "GlacierS3ObjectOverhead";
    "DeepArchiveStorage";
    "DeepArchiveObjectOverhead";
    "DeepArchiveS3ObjectOverhead";
    "DeepArchiveStagingStorage" ].

(** [x in l] on strings. *)
Definition str_in (x : string) (l : list string) : bool :=
  existsb (String.eqb x) l.

Definition bucket_wrong_region (bucket_name region_name : string) : string :=
  "Bucket " ++ bucket_name ++ " is not in Region " ++ region_name.

Definition bucket_not_found (bucket_name region_name : string) (exc : exn)
  : string :=
  "Bucket " ++ bucket_name ++ " was not found in Region " ++ region_name
  ++ " or credentials are invalid. Inner exception " ++ exn_str exc.

(** The body of the [try] block. *)
Definition check_bucket_location (session : Session)
  (region_name bucket_name : string) : M unit :=
  response <- invoke (GetBucketLocation region_name bucket_name)
                (get_bucket_location session region_name bucket_name) ;;
  let location_constraint :=
    get_or (S3.LocationConstraint response) "us-east-1" in
  if negb (location_constraint =? region_name)%string then
    raise (Exception (bucket_wrong_region bucket_name region_name))
  else ret tt.

(** The [try] statement: the validation phase of the lookup. *)
Definition validate_bucket (session : Session)
  (region_name bucket_name : string) : M unit :=
  try_except (check_bucket_location session region_name bucket_name)
    (fun exc =>
       raise (Exception (bucket_not_found bucket_name region_name exc))).

Definition bucket_size_metrics_request (bucket_name : string)
  : CloudWatch.ListMetricsRequest :=
  {| CloudWatch.ListNamespace := "AWS/S3";
     CloudWatch.ListMetricName := "BucketSizeBytes";
     CloudWatch.ListDimensions :=
       [{| CloudWatch.Name := "BucketName";
           CloudWatch.Value := bucket_name |}] |}.

Definition bucket_size_bytes_request
  (dimensions : list CloudWatch.Dimension)
  (start_time end_time : datetime) (period : timedelta)
  : CloudWatch.GetMetricStatisticsRequest :=
  {| CloudWatch.Namespace := "AWS/S3";
     CloudWatch.MetricName := "BucketSizeBytes";
     CloudWatch.Dimensions := dimensions;
     CloudWatch.StartTime := start_time;
     CloudWatch.EndTime := end_time;
     CloudWatch.Statistics := ["Average"];
     CloudWatch.Period := total_seconds_int period;
     CloudWatch.Unit := "Bytes" |}.

(** [[d['Value'] for d in dimensions if d['Name'] == 'StorageType']] *)
Definition storage_type_values (dimensions : list CloudWatch.Dimension)
  : list string :=
  map CloudWatch.Value
    (filter (fun d => (CloudWatch.Name d =? "StorageType")%string)
       dimensions).

(** The first pair of loops: one [(storage_type, dimensions)] entry per
    listed metric, in listing order. *)
Definition collect_metric_dimensions
  (response_iterator : list CloudWatch.ListMetricsPage)
  : M (list (string * list CloudWatch.Dimension)) :=
  for_each response_iterator
    (fun page metric_dimensions =>
       for_each (CloudWatch.Metrics page)
         (fun metric metric_dimensions =>
            storage_type <-
              index0 (storage_type_values
                        (CloudWatch.MetricDimensions metric)) ;;
            ret (metric_dimensions ++
                 [(storage_type, CloudWatch.MetricDimensions metric)]))
         metric_dimensions)
    [].

Definition bucket_record (account_id region_name bucket_name : string)
  (storage_type : string) (average : pynum) : SizeRecord :=
  {| account_id := account_id;
     region_name := region_name;
     resource_key := bucket_name ++ "::" ++ storage_type;
     size_bytes := average |}.

(** The body of the last loop, for one [(storage_type, dimensions)]. *)
Definition collect_metric (session : Session)
  (account_id region_name bucket_name : string)
  (start_time end_time : datetime) (period : timedelta)
  (entry : string * list CloudWatch.Dimension)
  (metric_data : list SizeRecord) : M (list SizeRecord) :=
  let '(storage_type, dimensions) := entry in
  let request :=
    bucket_size_bytes_request dimensions start_time end_time period in
  response <- invoke (GetMetricStatistics region_name request)
                (get_metric_statistics session region_name request) ;;
  if str_in storage_type backup_storage_types then
    datapoint <- index0 (CloudWatch.Datapoints response) ;;
    average <- subscript "Average" (CloudWatch.Average datapoint) ;;
    ret (metric_data ++
         [bucket_record account_id region_name bucket_name
            storage_type average])
  else ret metric_data.

Definition get_bucket_size (session : Session)
  (account_id region_name bucket_name : string) : M (list SizeRecord) :=
  validate_bucket session region_name bucket_name ;;;
  let request := bucket_size_metrics_request bucket_name in
  response_iterator <-
    invoke (ListMetricsPaginate region_name request)
      (list_metrics_paginate session region_name request) ;;
  metric_dimensions <- collect_metric_dimensions response_iterator ;;
  let period := timedelta_days 2 in
  end_time <- datetime_now ;;
  let start_time := end_time - period in
  for_each metric_dimensions
    (collect_metric session account_id region_name bucket_name
       start_time end_time period)
    [].

(** Run a lookup from a clock reading, with an empty trace. *)
Definition run {A} (m : M A) (clock : datetime) : outcome A * list Call :=
  let '(r, w) := m {| wall_clock := clock; trace := [] |} in (r, trace w).

Definition result {A} (m : M A) (clock : datetime) : outcome A :=
  fst (run m clock).

Definition calls {A} (m : M A) (clock : datetime) : list Call :=
  snd (run m clock).

(** * Vocabulary of the statements *)

(** ** Numbers *)

(** The bytes in a GiB and in a MiB. *)
Definition GiB : Z := 1024 ^ 3.
Definition MiB : Z := 1024 ^ 2.

(** A number other than a float infinity or NaN. *)
Definition py_finite (x : pynum) : bool :=
  match x with
  | PyFloat (S754_infinity _) | PyFloat S754_nan => false
  | _ => true
  end.

(** [z] is the number [x] truncated toward zero: the magnitude of a float
    [m * 2^e] lies in [[q, q + 1)] for the magnitude [q] of [z]. *)
Definition truncation (x : pynum) (z : Z) : Prop :=
  match x with
  | PyInt n => z = n
  | PyFloat (S754_zero _) => z = 0
  | PyFloat (S754_finite s m e) =>
      exists q,
        z = (if s then - q else q) /\ 0 <= q
        /\ q * 2 ^ Z.max 0 (- e) <= Zpos m * 2 ^ Z.max 0 e
           < (q + 1) * 2 ^ Z.max 0 (- e)
  | PyFloat _ => False
  end.

(** [m * 2^n] on mantissas. *)
Definition shift_pos (m : positive) (n : nat) : positive := Nat.iter n xO m.

(** [r] is the float [f] times [2^k] exactly, or the infinity of its sign
    when that product reaches [2^emax64]. *)
Definition float_scaled (k : Z) (f r : spec_float) : Prop :=
  match f with
  | S754_finite s m e =>
      match r with
      | S754_finite s' m' e' =>
          s' = s /\ e <= e' /\ Zpos m' * 2 ^ (e' - e) = Zpos m * 2 ^ k
      | S754_infinity s' =>
          s' = s /\ emax64 < Zpos (digits2_pos m) + e + k
      | _ => False
      end
  | _ => r = f
  end.

(** [r] is the number [x] times [2^k]: exactly on ints, as
    [float_scaled] on floats. *)
Definition scaled (k : Z) (x r : pynum) : Prop :=
  match x, r with
  | PyInt z, PyInt z' => z' = z * 2 ^ k
  | PyFloat f, PyFloat f' => float_scaled k f f'
  | _, _ => False
  end.

(** A float is a binary64 value: its mantissa and exponent are in
    range and canonical. *)
Definition py_valid (x : pynum) : bool :=
  match x with
  | PyInt _ => true
  | PyFloat f => valid_binary prec64 emax64 f
  end.

(** ** Buckets and their metrics *)

(** The region a bucket declares, after normalization. *)
Definition declared_region (response : S3.GetBucketLocationResult) : string :=
  get_or (S3.LocationConstraint response) "us-east-1".

(** The metrics of a listing, page after page. *)
Definition listed_metrics (pages : list CloudWatch.ListMetricsPage)
  : list CloudWatch.Metric :=
  flat_map CloudWatch.Metrics pages.

(** The storage class of a listed metric: the value of its first
    "StorageType" dimension, if it has one. *)
Definition metric_storage_type (metric : CloudWatch.Metric) : option string :=
  hd_error (storage_type_values (CloudWatch.MetricDimensions metric)).

(** The list comprehension of the first loops finds a storage class. *)
Definition has_storage_type (metric : CloudWatch.Metric) : bool :=
  match metric_storage_type metric with
  | Some _ => true
  | None => false
  end.

(** A listed metric is retained when its storage class is allow-listed. *)
Definition retained (metric : CloudWatch.Metric) : bool :=
  match metric_storage_type metric with
  | Some storage_type => str_in storage_type backup_storage_types
  | None => false
  end.

(** The [(storage_type, dimensions)] entry the first loops append for a
    metric that has a storage class. *)
Definition metric_entry (metric : CloudWatch.Metric)
  : string * list CloudWatch.Dimension :=
  (match metric_storage_type metric with
   | Some storage_type => storage_type
   | None => ""
   end,
   CloudWatch.MetricDimensions metric).

(** The statistics query of the last loop for a set of dimensions, on a
    lookup whose clock reads [clock]. *)
Definition statistics_request (clock : datetime)
  (dimensions : list CloudWatch.Dimension)
  : CloudWatch.GetMetricStatisticsRequest :=
  bucket_size_bytes_request dimensions
    (clock - timedelta_days 2) clock (timedelta_days 2).

(** What [l[0]] raises on an empty list. *)
Definition index_error : exn := IndexError "list index out of range".

(** The provider answers the statistics query for [metric] with
    [statistics]. *)
Definition answered (session : Session) (region : string) (clock : datetime)
  (metric : CloudWatch.Metric)
  (statistics : CloudWatch.GetMetricStatisticsResult) : Prop :=
  get_metric_statistics session region
    (statistics_request clock (CloudWatch.MetricDimensions metric))
  = Reply statistics.

(** The statistics query for [metric], as it shows in the trace. *)
Definition statistics_call (region : string) (clock : datetime)
  (metric : CloudWatch.Metric) : Call :=
  GetMetricStatistics region
    (statistics_request clock (CloudWatch.MetricDimensions metric)).

(** [record] is the size record of a retained [metric]: keyed by the
    bucket and the metric's allow-listed storage class, sized at the
    Average of datapoint 0 of the answer, as the provider gave it. *)
Definition record_of (session : Session) (account region bucket : string)
  (clock : datetime) (metric : CloudWatch.Metric) (record : SizeRecord)
  : Prop :=
  exists storage_type statistics datapoint others average,
    metric_storage_type metric = Some storage_type
    /\ In storage_type backup_storage_types
    /\ answered session region clock metric statistics
    /\ CloudWatch.Datapoints statistics = datapoint :: others
    /\ CloudWatch.Average datapoint = Some average
    /\ record = {| account_id := account;
                   region_name := region;
                   resource_key := bucket ++ "::" ++ storage_type;
                   size_bytes := average |}.

(** Every listed metric is answered, and the answer for a retained metric
    has a datapoint 0 with an Average. *)
Definition well_answered (session : Session) (region : string)
  (clock : datetime) (metric : CloudWatch.Metric) : Prop :=
  exists statistics,
    answered session region clock metric statistics
    /\ (retained metric = true ->
        exists datapoint others average,
          CloudWatch.Datapoints statistics = datapoint :: others
          /\ CloudWatch.Average datapoint = Some average).

(** The reading under which the statistics query is issued only for
    retained metrics: a listed metric whose query appears in the trace of
    the lookup is a retained one. *)
Definition statistics_only_for_retained (session : Session)
  (account_id region_name bucket_name : string) (clock : datetime)
  (pages : list CloudWatch.ListMetricsPage) : Prop :=
  forall metric,
    In metric (listed_metrics pages) ->
    In (statistics_call region_name clock metric)
      (calls (get_bucket_size session account_id region_name bucket_name)
         clock) ->
    retained metric = true.

(** ** Records and errors of the lookups *)

(** A record carries the account and the region the lookup was given. *)
Definition tagged (account region : string) (record : SizeRecord) : Prop :=
  account_id record = account /\ region_name record = region.

(** [int(x)] as an outcome: it neither reads nor changes the state. *)
Definition int_of (x : pynum) : outcome Z :=
  fst (py_int x {| wall_clock := 0; trace := [] |}).

(** What the iteration of the collection loop for [metric] raises, if it
    raises: the fault of the statistics query, or for a retained metric
    the error of reading datapoint 0 and its Average. *)
Definition metric_failure (session : Session) (region : string)
  (clock : datetime) (metric : CloudWatch.Metric) : option exn :=
  match get_metric_statistics session region
          (statistics_request clock (CloudWatch.MetricDimensions metric))
  with
  | Fault message => Some (ClientError message)
  | Reply statistics =>
      if retained metric then
        match CloudWatch.Datapoints statistics with
        | [] => Some index_error
        | datapoint :: _ =>
            match CloudWatch.Average datapoint with
            | None => Some (KeyError "Average")
            | Some _ => None
            end
        end
      else None
  end.

(** A record of [get_bucket_size]: tagged, and keyed by the bucket and an
    allow-listed storage class. *)
Definition bucket_record_shape (account region bucket : string)
  (record : SizeRecord) : Prop :=
  tagged account region record
  /\ exists storage_type,
       In storage_type backup_storage_types
       /\ resource_key record = (bucket ++ "::" ++ storage_type)%string.

(** ** The validation phase, seen from the lookup *)

(** The lookup passes the validation phase: the [try] statement returns,
    the lookup goes on to list the metrics, and it does not end with an
    [Exception] of the validation phase. *)
Definition passes_validation (session : Session)
  (account region bucket : string) (clock : datetime) : Prop :=
  result (validate_bucket session region bucket) clock = Returned tt
  /\ (exists later,
        calls (get_bucket_size session account region bucket) clock
        = GetBucketLocation region bucket
          :: ListMetricsPaginate region (bucket_size_metrics_request bucket)
          :: later)
  /\ forall message,
       result (get_bucket_size session account region bucket) clock
       <> Raised (Exception message).

(** The lookup fails the validation phase on a region mismatch: it ends
    with the wrapped mismatch error, the location query its only call. *)
Definition fails_validation (session : Session)
  (account region bucket : string) (clock : datetime) : Prop :=
  run (get_bucket_size session account region bucket) clock
  = (Raised
       (Exception
          ("Bucket " ++ bucket ++ " was not found in Region " ++ region
           ++ " or credentials are invalid. Inner exception "
           ++ "Bucket " ++ bucket ++ " is not in Region " ++ region)),
     [GetBucketLocation region bucket]).

(** The listed metrics whose statistics the collection loop queries: each
    one in listing order, up to and including the first whose iteration
    raises. *)
Fixpoint queried_metrics (session : Session) (region : string)
  (clock : datetime) (metrics : list CloudWatch.Metric)
  : list CloudWatch.Metric :=
  match metrics with
  | [] => []
  | metric :: later =>
      metric ::
      match metric_failure session region clock metric with
      | None => queried_metrics session region clock later
      | Some _ => []
      end
  end.

(** * Scenarios *)

(** Sessions with canned answers, on which the lookups are run. *)

(** A session on which every call raises; scenarios override what they
    need. *)
Definition offline {A} (operation : string) : reply A :=
  Fault ("EndpointConnectionError: " ++ operation).

Definition ec2_session
  (instances : string -> list string -> reply EC2.DescribeInstancesResult)
  (volumes : string -> list string -> reply EC2.DescribeVolumesResult)
  : Session :=
  {| describe_instances := instances;
     describe_volumes := volumes;
     describe_db_clusters := fun _ _ => offline "DescribeDBClusters";
     describe_db_instances := fun _ _ => offline "DescribeDBInstances";
     describe_file_systems := fun _ _ => offline "DescribeFileSystems";
     describe_table := fun _ _ => offline "DescribeTable";
     describe_cluster_snapshots :=
       fun _ _ => offline "DescribeClusterSnapshots";
     get_bucket_location := fun _ _ => offline "GetBucketLocation";
     list_metrics_paginate := fun _ _ => offline "ListMetrics";
     get_metric_statistics := fun _ _ => offline "GetMetricStatistics" |}.

(** Instance "i-1" with two block devices mapped to "vol-a" (20 GiB) and
    "vol-b" (100 GiB). *)
Definition i1_instances : EC2.DescribeInstancesResult :=
  {| EC2.Reservations := Some
       [{| EC2.Instances := Some
             [{| EC2.BlockDeviceMappings := Some
                   [{| EC2.Ebs := {| EC2.EbsVolumeId := "vol-a" |} |};
                    {| EC2.Ebs := {| EC2.EbsVolumeId := "vol-b" |} |}] |}]
        |}] |}.

Definition i1_volumes : list EC2.Volume :=
  [{| EC2.VolumeId := "vol-a"; EC2.Size := 20 |};
   {| EC2.VolumeId := "vol-b"; EC2.Size := 100 |}].

Definition i1_session : Session :=
  ec2_session
    (fun _ _ => Reply i1_instances)
    (fun _ _ => Reply {| EC2.Volumes := Some i1_volumes |}).

Definition rds_session
  (clusters : string -> string -> reply RDS.DescribeDBClustersResult)
  (statistics :
     string -> CloudWatch.GetMetricStatisticsRequest ->
     reply CloudWatch.GetMetricStatisticsResult)
  : Session :=
  {| describe_instances := fun _ _ => offline "DescribeInstances";
     describe_volumes := fun _ _ => offline "DescribeVolumes";
     describe_db_clusters := clusters;
     describe_db_instances := fun _ _ => offline "DescribeDBInstances";
     describe_file_systems := fun _ _ => offline "DescribeFileSystems";
     describe_table := fun _ _ => offline "DescribeTable";
     describe_cluster_snapshots :=
       fun _ _ => offline "DescribeClusterSnapshots";
     get_bucket_location := fun _ _ => offline "GetBucketLocation";
     list_metrics_paginate := fun _ _ => offline "ListMetrics";
     get_metric_statistics := statistics |}.

(** 1536.75 as a binary64 float: 6147 * 2^-2 with a 53-bit mantissa. *)
Definition float_1536_75 : spec_float :=
  S754_finite false (6147 * 2 ^ 40) (-42).

(** An aurora cluster whose metric has three datapoints, the latest in the
    middle of the response. *)
Definition aurora_datapoints : list CloudWatch.Datapoint :=
  [ {| CloudWatch.Timestamp := 100;
       CloudWatch.Maximum := Some (PyInt 5); CloudWatch.Average := None |};
    {| CloudWatch.Timestamp := 300;
       CloudWatch.Maximum := Some (PyFloat float_1536_75);
       CloudWatch.Average := None |};
    {| CloudWatch.Timestamp := 200;
       CloudWatch.Maximum := Some (PyInt 7); CloudWatch.Average := None |} ].

Definition aurora_session : Session :=
  rds_session
    (fun _ _ =>
       Reply {| RDS.DBClusters :=
                  [{| RDS.Engine := "aurora-mysql";
                      RDS.AllocatedStorage := 1 |}] |})
    (fun _ _ => Reply {| CloudWatch.Datapoints := aurora_datapoints |}).

(** An aurora cluster whose metric has no datapoints in the window. *)
Definition silent_aurora_session : Session :=
  rds_session
    (fun _ _ =>
       Reply {| RDS.DBClusters :=
                  [{| RDS.Engine := "aurora-postgresql";
                      RDS.AllocatedStorage := 1 |}] |})
    (fun _ _ => Reply {| CloudWatch.Datapoints := [] |}).

Definition s3_session
  (location : string -> string -> reply S3.GetBucketLocationResult)
  (metrics :
     string -> CloudWatch.ListMetricsRequest ->
     reply (list CloudWatch.ListMetricsPage))
  (statistics :
     string -> CloudWatch.GetMetricStatisticsRequest ->
     reply CloudWatch.GetMetricStatisticsResult)
  : Session :=
  {| describe_instances := fun _ _ => offline "DescribeInstances";
     describe_volumes := fun _ _ => offline "DescribeVolumes";
     describe_db_clusters := fun _ _ => offline "DescribeDBClusters";
     describe_db_instances := fun _ _ => offline "DescribeDBInstances";
     describe_file_systems := fun _ _ => offline "DescribeFileSystems";
     describe_table := fun _ _ => offline "DescribeTable";
     describe_cluster_snapshots :=
       fun _ _ => offline "DescribeClusterSnapshots";
     get_bucket_location := location;
     list_metrics_paginate := metrics;
     get_metric_statistics := statistics |}.

(** A bucket in the default region: the provider reports no location
    constraint. *)
Definition default_region_bucket : Session :=
  s3_session
    (fun _ _ => Reply {| S3.LocationConstraint := None |})
    (fun _ _ => Reply [])
    (fun _ _ => offline "GetMetricStatistics").

(** A bucket that does not exist: the location query faults. *)
Definition missing_bucket : Session :=
  s3_session
    (fun _ _ => Fault "NoSuchBucket")
    (fun _ _ => Reply [])
    (fun _ _ => offline "GetMetricStatistics").

(** A bucket with three listed metrics on two pages, one of them of the
    archival class "GlacierStorage".  The provider answers the
    "StandardStorage" query with two datapoints, the later one second. *)
Definition dimension (name value : string) : CloudWatch.Dimension :=
  {| CloudWatch.Name := name; CloudWatch.Value := value |}.

Definition bucket_metric (bucket storage_type : string)
  : CloudWatch.Metric :=
  {| CloudWatch.MetricDimensions :=
       [dimension "StorageType" storage_type;
        dimension "BucketName" bucket] |}.

Definition average_datapoint (timestamp : datetime) (average : pynum)
  : CloudWatch.Datapoint :=
  {| CloudWatch.Timestamp := timestamp;
     CloudWatch.Maximum := None;
     CloudWatch.Average := Some average |}.

Definition photos_pages : list CloudWatch.ListMetricsPage :=
  [ {| CloudWatch.Metrics :=
         [bucket_metric "photos" "StandardStorage";
          bucket_metric "photos" "GlacierStorage"] |};
    {| CloudWatch.Metrics := [bucket_metric "photos" "StandardIAStorage"] |} ].

Definition photos_statistics (region : string)
  (request : CloudWatch.GetMetricStatisticsRequest)
  : reply CloudWatch.GetMetricStatisticsResult :=
  match storage_type_values (CloudWatch.Dimensions request) with
  | [storage_type] =>
      if (storage_type =? "StandardStorage")%string then
        Reply {| CloudWatch.Datapoints :=
                   [average_datapoint 100 (PyFloat float_1536_75);
                    average_datapoint 200 (PyInt 2048)] |}
      else if (storage_type =? "GlacierStorage")%string then
        Reply {| CloudWatch.Datapoints := [average_datapoint 100 (PyInt 999)]
              |}
      else if (storage_type =? "StandardIAStorage")%string then
        Reply {| CloudWatch.Datapoints :=
                   [average_datapoint 100 (PyInt 4096)] |}
      else Reply {| CloudWatch.Datapoints := [] |}
  | _ => Fault "InvalidParameterCombination"
  end.

Definition photos_bucket : Session :=
  s3_session
    (fun _ _ => Reply {| S3.LocationConstraint := Some "eu-west-1" |})
    (fun _ _ => Reply photos_pages)
    photos_statistics.

Definition two_days_in : datetime := timedelta_days 2.

(** The same bucket, but the provider has no datapoints for the
    "StandardIAStorage" metric. *)
Definition empty_tier_statistics (region : string)
  (request : CloudWatch.GetMetricStatisticsRequest)
  : reply CloudWatch.GetMetricStatisticsResult :=
  match storage_type_values (CloudWatch.Dimensions request) with
  | ["StandardIAStorage"] => Reply {| CloudWatch.Datapoints := [] |}
  | _ => photos_statistics region request
  end.

Definition empty_tier_bucket : Session :=
  s3_session
    (fun _ _ => Reply {| S3.LocationConstraint := Some "eu-west-1" |})
    (fun _ _ => Reply photos_pages)
    empty_tier_statistics.

Definition redshift_session
  (snapshots :
     string -> Redshift.DescribeClusterSnapshotsRequest ->
     reply Redshift.DescribeClusterSnapshotsResult)
  : Session :=
  {| describe_instances := fun _ _ => offline "DescribeInstances";
     describe_volumes := fun _ _ => offline "DescribeVolumes";
     describe_db_clusters := fun _ _ => offline "DescribeDBClusters";
     describe_db_instances := fun _ _ => offline "DescribeDBInstances";
     describe_file_systems := fun _ _ => offline "DescribeFileSystems";
     describe_table := fun _ _ => offline "DescribeTable";
     describe_cluster_snapshots := snapshots;
     get_bucket_location := fun _ _ => offline "GetBucketLocation";
     list_metrics_paginate := fun _ _ => offline "ListMetrics";
     get_metric_statistics := fun _ _ => offline "GetMetricStatistics" |}.

(** Three snapshots, returned out of order: the latest is the second. *)
Definition warehouse_snapshots : list Redshift.Snapshot :=
  [ {| Redshift.SnapshotCreateTime := 100;
       Redshift.TotalBackupSizeInMegaBytes := PyInt 10 |};
    {| Redshift.SnapshotCreateTime := 300;
       Redshift.TotalBackupSizeInMegaBytes := PyFloat float_1536_75 |};
    {| Redshift.SnapshotCreateTime := 200;
       Redshift.TotalBackupSizeInMegaBytes := PyInt 30 |} ].

Definition warehouse_session : Session :=
  redshift_session
    (fun _ _ => Reply {| Redshift.Snapshots := warehouse_snapshots |}).

Definition seven_days_in : datetime := timedelta_days 7.

(** A session that answers every lookup. *)
Definition inventory_session : Session :=
  {| describe_instances := fun _ _ => Reply i1_instances;
     describe_volumes :=
       fun _ _ => Reply {| EC2.Volumes := Some i1_volumes |};
     describe_db_clusters :=
       fun _ _ =>
         Reply {| RDS.DBClusters :=
                    [{| RDS.Engine := "postgres";
                        RDS.AllocatedStorage := 50 |}] |};
     describe_db_instances :=
       fun _ _ =>
         Reply {| RDS.DBInstances :=
                    [{| RDS.InstanceAllocatedStorage := 200 |}] |};
     describe_file_systems :=
       fun _ _ =>
         Reply {| EFS.FileSystems :=
                    [{| EFS.SizeInBytes := {| EFS.Value := 6144 |} |}] |};
     describe_table :=
       fun _ _ =>
         Reply {| DynamoDB.Table := {| DynamoDB.TableSizeBytes := 12345 |} |};
     describe_cluster_snapshots :=
       fun _ _ => Reply {| Redshift.Snapshots := warehouse_snapshots |};
     get_bucket_location :=
       fun _ _ => Reply {| S3.LocationConstraint := Some "eu-west-1" |};
     list_metrics_paginate := fun _ _ => Reply photos_pages;
     get_metric_statistics := photos_statistics |}.

(** A cluster list whose first cluster runs the engine named "aurora",
    without a dash, followed by an "aurora-mysql" cluster.  The metrics
    backend is offline. *)
Definition legacy_aurora_session : Session :=
  rds_session
    (fun _ _ =>
       Reply {| RDS.DBClusters :=
                  [{| RDS.Engine := "aurora"; RDS.AllocatedStorage := 1 |};
                   {| RDS.Engine := "aurora-mysql";
                      RDS.AllocatedStorage := 7 |}] |})
    (fun _ _ => offline "GetMetricStatistics").

(** A region without the file system asked for. *)
Definition empty_efs_session : Session :=
  {| describe_instances := fun _ _ => offline "DescribeInstances";
     describe_volumes := fun _ _ => offline "DescribeVolumes";
     describe_db_clusters := fun _ _ => offline "DescribeDBClusters";
     describe_db_instances := fun _ _ => offline "DescribeDBInstances";
     describe_file_systems :=
       fun _ _ => Reply {| EFS.FileSystems := [] |};
     describe_table := fun _ _ => offline "DescribeTable";
     describe_cluster_snapshots :=
       fun _ _ => offline "DescribeClusterSnapshots";
     get_bucket_location := fun _ _ => offline "GetBucketLocation";
     list_metrics_paginate := fun _ _ => offline "ListMetrics";
     get_metric_statistics := fun _ _ => offline "GetMetricStatistics" |}.

(** An aurora cluster whose latest datapoint is sound while the older ones
    are not: one has no Maximum, one has a NaN. *)
Definition ragged_datapoints : list CloudWatch.Datapoint :=
  [ {| CloudWatch.Timestamp := 100;
       CloudWatch.Maximum := None; CloudWatch.Average := None |};
    {| CloudWatch.Timestamp := 300;
       CloudWatch.Maximum := Some (PyFloat float_1536_75);
       CloudWatch.Average := None |};
    {| CloudWatch.Timestamp := 200;
       CloudWatch.Maximum := Some (PyFloat S754_nan);
       CloudWatch.Average := None |} ].

Definition aurora_cluster : RDS.DBCluster :=
  {| RDS.Engine := "aurora-mysql"; RDS.AllocatedStorage := 1 |}.

Definition ragged_aurora_session : Session :=
  rds_session
    (fun _ _ => Reply {| RDS.DBClusters := [aurora_cluster] |})
    (fun _ _ => Reply {| CloudWatch.Datapoints := ragged_datapoints |}).

(** The same cluster, the datapoints of [aurora_datapoints] in another
    order. *)
Definition shuffled_aurora_session : Session :=
  rds_session
    (fun _ _ => Reply {| RDS.DBClusters := [aurora_cluster] |})
    (fun _ _ => Reply {| CloudWatch.Datapoints := rev aurora_datapoints |}).

(** The snapshots of [warehouse_snapshots] in another order. *)
Definition shuffled_warehouse_session : Session :=
  redshift_session
    (fun _ _ => Reply {| Redshift.Snapshots := rev warehouse_snapshots |}).

(** An instance the provider reports no reservation for; the volume query,
    asked with no volume id, answers with two volumes all the same. *)
Definition unknown_instance_session : Session :=
  ec2_session
    (fun _ _ => Reply {| EC2.Reservations := None |})
    (fun _ _ => Reply {| EC2.Volumes := Some i1_volumes |}).

(** A listing whose second page holds a metric without a "StorageType"
    dimension. *)
Definition unclassed_pages : list CloudWatch.ListMetricsPage :=
  [ {| CloudWatch.Metrics := [bucket_metric "photos" "StandardStorage"] |};
    {| CloudWatch.Metrics :=
         [ {| CloudWatch.MetricDimensions :=
                [dimension "BucketName" "photos"] |} ] |} ].

Definition unclassed_bucket : Session :=
  s3_session
    (fun _ _ => Reply {| S3.LocationConstraint := Some "eu-west-1" |})
    (fun _ _ => Reply unclassed_pages)
    photos_statistics.

(** The bucket of [photos_bucket], but the statistics query for the
    "GlacierStorage" metric is throttled. *)
Definition throttled_statistics (region : string)
  (request : CloudWatch.GetMetricStatisticsRequest)
  : reply CloudWatch.GetMetricStatisticsResult :=
  match storage_type_values (CloudWatch.Dimensions request) with
  | ["GlacierStorage"] => Fault "Throttling"
  | _ => photos_statistics region request
  end.

Definition throttled_bucket : Session :=
  s3_session
    (fun _ _ => Reply {| S3.LocationConstraint := Some "eu-west-1" |})
    (fun _ _ => Reply photos_pages)
    throttled_statistics.

(** A bucket whose only listed metric is of the archival class
    "GlacierStorage". *)
Definition archive_pages : list CloudWatch.ListMetricsPage :=
  [ {| CloudWatch.Metrics := [bucket_metric "archive" "GlacierStorage"] |} ].

Definition archive_bucket : Session :=
  s3_session
    (fun _ _ => Reply {| S3.LocationConstraint := None |})
    (fun _ _ => Reply archive_pages)
    photos_statistics.

(** * Facts *)

(** ** Facts about the monad *)

Lemma for_each_append {A B} (g : A -> B) (l : list A) (acc : list B) w :
  for_each l (fun x acc => ret (acc ++ [g x])) acc w =
  (Returned (acc ++ map g l), w).
Proof.
  revert acc. induction l as [|x l IH]; intros acc; simpl.
  - now rewrite app_nil_r.
  - unfold bind, ret at 1. rewrite IH, <- app_assoc. reflexivity.
Qed.

Lemma run_invoke_reply {A B} (c : Call) (a : A) (answer : reply A)
  (k : A -> M B) w :
  answer = Reply a ->
  bind (invoke c answer) k w =
  k a {| wall_clock := wall_clock w; trace := trace w ++ [c] |}.
Proof. intros ->. reflexivity. Qed.

Lemma run_invoke_fault {A B} (c : Call) (message : string)
  (answer : reply A) (k : A -> M B) w :
  answer = Fault message ->
  bind (invoke c answer) k w =
  (Raised (ClientError message),
   {| wall_clock := wall_clock w; trace := trace w ++ [c] |}).
Proof. intros ->. reflexivity. Qed.

(** ** Facts about [sorted(..., reverse=True)] *)

Section SortedReverse.
Context {A : Type} (key : A -> Z).

Lemma insert_reverse_perm (x : A) (l : list A) :
  Permutation (x :: l) (insert_reverse key x l).
Proof.
  induction l as [|y l IH]; simpl.
  - apply Permutation_refl.
  - destruct (key x <? key y).
    + apply perm_trans with (y :: x :: l).
      * apply perm_swap.
      * now apply perm_skip.
    + apply Permutation_refl.
Qed.

Lemma sorted_reverse_perm (l : list A) :
  Permutation l (sorted_reverse key l).
Proof.
  induction l as [|x l IH]; simpl.
  - apply perm_nil.
  - eapply perm_trans; [apply perm_skip, IH | apply insert_reverse_perm].
Qed.

Lemma sorted_reverse_nil (l : list A) :
  sorted_reverse key l = [] -> l = [].
Proof.
  intros H. apply Permutation_nil.
  rewrite <- H. apply Permutation_sym, sorted_reverse_perm.
Qed.

Lemma insert_reverse_sorted (x : A) (l : list A) :
  StronglySorted (fun a b => key b <= key a) l ->
  StronglySorted (fun a b => key b <= key a) (insert_reverse key x l).
Proof.
  induction 1 as [|y l Hs IH Hall]; simpl.
  - constructor; constructor.
  - destruct (Z.ltb_spec (key x) (key y)) as [Hlt | Hge].
    + constructor; [exact IH|].
      apply Forall_forall. intros z Hz.
      apply (Permutation_in _ (Permutation_sym (insert_reverse_perm x l)))
        in Hz.
      destruct Hz as [<- | Hz]; [lia|].
      rewrite Forall_forall in Hall. now apply Hall.
    + constructor; [now constructor|].
      constructor; [exact Hge|].
      rewrite Forall_forall in Hall |- *. intros z Hz.
      specialize (Hall z Hz). lia.
Qed.

Lemma sorted_reverse_sorted (l : list A) :
  StronglySorted (fun a b => key b <= key a) (sorted_reverse key l).
Proof.
  induction l as [|x l IH]; simpl.
  - constructor.
  - now apply insert_reverse_sorted.
Qed.

(** Index 0 of the sorted list is the first element of the input that
    carries the greatest key. *)
Lemma sorted_reverse_head (l : list A) (x : A) (rest : list A) :
  sorted_reverse key l = x :: rest ->
  exists before after,
    l = before ++ x :: after
    /\ (forall y, In y before -> key y < key x)
    /\ (forall y, In y after -> key y <= key x).
Proof.
  revert x rest. induction l as [|a l IH]; intros x rest H.
  - discriminate.
  - simpl in H. destruct (sorted_reverse key l) as [|y r] eqn:Hs.
    + apply sorted_reverse_nil in Hs. subst l. simpl in H.
      injection H as <- <-. exists [], []. repeat split.
      * intros y [].
      * intros y [].
    + destruct (IH y r eq_refl) as (before & after & Hl & Hb & Ha).
      simpl in H. destruct (Z.ltb_spec (key a) (key y)) as [Hlt | Hge];
        injection H as <- <-.
      * exists (a :: before), after. subst l. repeat split.
        -- intros z [<- | Hz]; [exact Hlt | now apply Hb].
        -- exact Ha.
      * exists [], l. repeat split.
        -- intros z [].
        -- intros z Hz. subst l. apply in_app_or in Hz.
           destruct Hz as [Hz | [<- | Hz]].
           ++ specialize (Hb z Hz). lia.
           ++ exact Hge.
           ++ specialize (Ha z Hz). lia.
Qed.

Lemma sorted_reverse_head_latest (l : list A) (x : A) (rest : list A) :
  sorted_reverse key l = x :: rest ->
  In x l /\ forall y, In y l -> key y <= key x.
Proof.
  intros H.
  destruct (sorted_reverse_head l x rest H)
    as (before & after & -> & Hb & Ha).
  split.
  - apply in_or_app. right. now left.
  - intros y Hy. apply in_app_or in Hy.
    destruct Hy as [Hy | [<- | Hy]].
    + specialize (Hb y Hy). lia.
    + lia.
    + now apply Ha.
Qed.

Lemma sorted_reverse_cons (l : list A) :
  l <> [] -> exists x rest, sorted_reverse key l = x :: rest.
Proof.
  intros Hne. destruct (sorted_reverse key l) as [|x rest] eqn:Hs.
  - now apply sorted_reverse_nil in Hs.
  - now exists x, rest.
Qed.
End SortedReverse.

(** ** Facts about [int(x)] *)

Lemma py_int_truncation (x : pynum) :
  py_finite x = true ->
  exists z, truncation x z /\ forall w, py_int x w = (Returned z, w).
Proof.
  destruct x as [n | [s | s | | s m e]];
    cbn [py_int py_finite truncation]; try discriminate; intros _.
  - now exists n.
  - now exists 0.
  - eexists. split; [|reflexivity].
    exists (Z.shiftl (Zpos m) e). split; [reflexivity|].
    destruct (Z.le_gt_cases 0 e) as [Hpos | Hneg].
    + rewrite Z.shiftl_mul_pow2 by exact Hpos.
      rewrite (Z.max_r 0 e), (Z.max_l 0 (- e)) by lia.
      assert (0 < 2 ^ e) by (apply Z.pow_pos_nonneg; lia).
      change (2 ^ 0) with 1. rewrite !Z.mul_1_r. lia.
    + assert (E : Z.shiftl (Zpos m) e = Zpos m / 2 ^ (- e)).
      { rewrite <- (Z.opp_involutive e) at 1.
        rewrite Z.shiftl_opp_r, Z.shiftr_div_pow2 by lia. reflexivity. }
      rewrite E, (Z.max_l 0 e), (Z.max_r 0 (- e)) by lia.
      assert (Hp : 0 < 2 ^ (- e)) by (apply Z.pow_pos_nonneg; lia).
      change (2 ^ 0) with 1.
      pose proof (Z.mul_div_le (Zpos m) _ Hp) as Hle.
      pose proof (Z.mul_succ_div_gt (Zpos m) _ Hp) as Hgt.
      split; [apply Z.div_pos; lia|].
      rewrite Z.mul_1_r. unfold Z.succ in Hgt. lia.
Qed.

Example py_int_truncates_up : 
  result (py_int (PyFloat (S754_finite true 7 (-1)))) 0 = Returned (-3).
Proof. reflexivity. Qed.

Lemma run_eq {A} (m : M A) (clock : datetime) (r : outcome A) (w : World) :
  m {| wall_clock := clock; trace := [] |} = (r, w) ->
  result m clock = r /\ calls m clock = trace w.
Proof. unfold result, calls, run. intros ->. now split. Qed.

Lemma run_datetime_now {B} (k : datetime -> M B) w :
  bind datetime_now k w = k (wall_clock w) w.
Proof. reflexivity. Qed.

(** ** Facts about [x * 1024] *)

Lemma shift_pos_add m a b : shift_pos (shift_pos m a) b = shift_pos m (b + a).
Proof. unfold shift_pos. now rewrite Nat.iter_add. Qed.

Lemma shift_pos_Z m n : Zpos (shift_pos m n) = Zpos m * 2 ^ Z.of_nat n.
Proof.
  induction n as [|n IH].
  - cbn. lia.
  - rewrite Nat2Z.inj_succ, Z.pow_succ_r by lia.
    change (shift_pos m (S n)) with (xO (shift_pos m n)).
    rewrite Pos2Z.inj_xO, IH. lia.
Qed.

Lemma shift_pos_digits m n :
  Zpos (digits2_pos (shift_pos m n)) = Zpos (digits2_pos m) + Z.of_nat n.
Proof.
  induction n as [|n IH].
  - cbn. lia.
  - change (shift_pos m (S n)) with (xO (shift_pos m n)).
    cbn [digits2_pos]. rewrite Pos2Z.inj_succ, IH. lia.
Qed.

Lemma mul_shift_pos m c n : (m * shift_pos c n)%positive = shift_pos (m * c) n.
Proof.
  induction n as [|n IH].
  - reflexivity.
  - change (shift_pos c (S n)) with (xO (shift_pos c n)).
    change (shift_pos (m * c) (S n)) with (xO (shift_pos (m * c) n)).
    now rewrite Pos.mul_xO_r, IH.
Qed.

Lemma iter_pos_shr_1 (p : positive) (k : positive) :
  iter_pos shr_1 p
    {| shr_m := Zpos (shift_pos k (Pos.to_nat p)); shr_r := false; shr_s := false |}
  = {| shr_m := Zpos k; shr_r := false; shr_s := false |}.
Proof.
  revert k. induction p as [p IH | p IH |]; intros k.
  - rewrite Pos2Nat.inj_xI. cbn [iter_pos].
    replace (S (2 * Pos.to_nat p)) with (S (Pos.to_nat p + Pos.to_nat p))%nat by lia.
    change (shift_pos k (S (Pos.to_nat p + Pos.to_nat p)))
      with (xO (shift_pos k (Pos.to_nat p + Pos.to_nat p))).
    cbn [shr_1 orb]. rewrite <- shift_pos_add. now rewrite !IH.
  - rewrite Pos2Nat.inj_xO. cbn [iter_pos].
    replace (2 * Pos.to_nat p)%nat with (Pos.to_nat p + Pos.to_nat p)%nat by lia.
    rewrite <- shift_pos_add. now rewrite !IH.
  - reflexivity.
Qed.

Lemma float_of_int_1024 :
  float_of_int 1024 = S754_finite false (shift_pos 1 52) (-42).
Proof. reflexivity. Qed.

Lemma mul_1024_finite (s : bool) (m : positive) (e : Z) :
  bounded prec64 emax64 m e = true ->
  let t := fexp prec64 emax64 (Zpos (digits2_pos m) + e + 10) in
  e <= t <= e + 10
  /\ SFmul prec64 emax64 (S754_finite s m e) (float_of_int 1024)
     = if t <=? emax64 - prec64
       then S754_finite s (shift_pos m (Z.to_nat (e + 10 - t))) t
       else S754_infinity s.
Proof.
  intros Hb t. unfold bounded, canonical_mantissa in Hb.
  apply andb_prop in Hb. destruct Hb as [Hcanon Hmax].
  apply Z.eqb_eq in Hcanon. apply Z.leb_le in Hmax.
  assert (Ht : e <= t <= e + 10).
  { subst t. unfold fexp, emin, prec64, emax64 in *. lia. }
  split; [exact Ht|].
  rewrite float_of_int_1024. cbn [SFmul]. rewrite xorb_false_r.
  rewrite Pos.mul_1_r || idtac.
  rewrite mul_shift_pos, Pos.mul_1_r.
  unfold binary_round_aux, shr_fexp.
  cbn [Zdigits2 shr_record_of_loc].
  rewrite shift_pos_digits.
  replace (Z.pos (digits2_pos m) + Z.of_nat 52 + (e + -42))
    with (Z.pos (digits2_pos m) + e + 10) by lia.
  fold t.
  destruct (t - (e + -42)) as [|p|p] eqn:Hn; try lia.
  cbn [shr].
  replace 52%nat with (Pos.to_nat p + Z.to_nat (e + 10 - t))%nat by lia.
  rewrite <- shift_pos_add, iter_pos_shr_1.
  cbn [shr_m loc_of_shr_record round_nearest_even Zdigits2 shr_record_of_loc].
  rewrite shift_pos_digits.
  replace (Z.pos (digits2_pos m) + Z.of_nat (Z.to_nat (e + 10 - t)) + (e + -42 + Z.pos p))
    with (Z.pos (digits2_pos m) + e + 10) by lia.
  fold t.
  replace (e + -42 + Z.pos p) with t by lia.
  rewrite Z.sub_diag. cbn [shr shr_m]. reflexivity.
Qed.

Lemma digits_of_scaled (m m' : positive) (j j' : Z) :
  0 <= j -> 0 <= j' ->
  Zpos m' * 2 ^ j' = Zpos m * 2 ^ j ->
  Zpos (digits2_pos m') + j' = Zpos (digits2_pos m) + j.
Proof.
  intros Hj Hj' Heq.
  rewrite <- (Z2Nat.id j), <- (Z2Nat.id j') in Heq by assumption.
  rewrite <- !shift_pos_Z in Heq. injection Heq as Heq.
  apply (f_equal (fun p => Zpos (digits2_pos p))) in Heq.
  rewrite !shift_pos_digits in Heq. lia.
Qed.

Lemma mul_1024_scaled (f : spec_float) :
  valid_binary prec64 emax64 f = true ->
  valid_binary prec64 emax64 (SFmul prec64 emax64 f (float_of_int 1024))
  = true
  /\ float_scaled 10 f (SFmul prec64 emax64 f (float_of_int 1024)).
Proof.
  destruct f as [s | s | | s m e]; intros Hv.
  - rewrite float_of_int_1024. cbn. now rewrite xorb_false_r.
  - rewrite float_of_int_1024. cbn. now rewrite xorb_false_r.
  - now split.
  - cbn [valid_binary] in Hv.
    destruct (mul_1024_finite s m e Hv) as [Ht ->].
    set (t := fexp prec64 emax64 (Zpos (digits2_pos m) + e + 10)) in *.
    destruct (Z.leb_spec t (emax64 - prec64)) as [Hle | Hgt].
    + cbn [valid_binary float_scaled]. split.
      * unfold bounded, canonical_mantissa.
        rewrite shift_pos_digits, Z2Nat.id by lia.
        replace (Zpos (digits2_pos m) + (e + 10 - t) + t)
          with (Zpos (digits2_pos m) + e + 10) by lia.
        fold t. rewrite Z.eqb_refl. now apply Z.leb_le.
      * repeat split; [lia|].
        rewrite shift_pos_Z, Z2Nat.id, <- Z.mul_assoc, <- Z.pow_add_r by lia.
        f_equal. f_equal. lia.
    + cbn [valid_binary float_scaled]. repeat split.
      subst t. unfold fexp, emin, prec64, emax64 in *. lia.
Qed.

Lemma float_scaled_trans (a b : Z) (f r r' : spec_float) :
  0 <= a -> 0 <= b ->
  float_scaled a f r -> float_scaled b r r' -> float_scaled (a + b) f r'.
Proof.
  intros Ha Hb H1 H2.
  destruct f as [s | s | | s m e]; cbn [float_scaled] in H1; subst;
    try exact H2.
  destruct r as [s1 | s1 | | s1 m1 e1]; try contradiction.
  - cbn [float_scaled] in H2. subst r'. cbn [float_scaled].
    destruct H1 as [-> H1]. split; [reflexivity|lia].
  - destruct H1 as (-> & He & Hm).
    destruct r' as [s2 | s2 | | s2 m2 e2]; try contradiction;
      cbn [float_scaled] in H2 |- *.
    + destruct H2 as [-> H2]. split; [reflexivity|].
      pose proof (digits_of_scaled m m1 a (e1 - e) Ha ltac:(lia) Hm). lia.
    + destruct H2 as (-> & He2 & Hm2). repeat split; [lia|].
      replace (e2 - e) with ((e2 - e1) + (e1 - e)) by lia.
      rewrite !Z.pow_add_r by lia.
      rewrite Z.mul_assoc, Hm2, <- Z.mul_assoc, (Z.mul_comm (2 ^ b)),
        Z.mul_assoc, Hm.
      lia.
Qed.

Lemma py_mul_1024_twice (x : pynum) :
  py_valid x = true ->
  scaled 20 x (py_mul (py_mul x 1024) 1024).
Proof.
  destruct x as [z | f]; cbn [py_valid py_mul scaled]; intros Hv.
  - change (2 ^ 20) with (1024 * 1024). lia.
  - destruct (mul_1024_scaled f Hv) as [Hv1 H1].
    destruct (mul_1024_scaled _ Hv1) as [_ H2].
    exact (float_scaled_trans 10 10 _ _ _ ltac:(lia) ltac:(lia) H1 H2).
Qed.

Example float_1536_75_MiB :
  py_mul (py_mul (PyFloat float_1536_75) 1024) 1024
  = PyFloat (S754_finite false (6147 * 2 ^ 40) (-22)).
Proof. reflexivity. Qed.

(** ** Compute volumes *)

Lemma get_ec2_instance_size_run
  (session : Session) (account_id region_name instance_id : string)
  (clock : datetime)
  (instances : EC2.DescribeInstancesResult)
  (response : EC2.DescribeVolumesResult) :
  describe_instances session region_name [instance_id] = Reply instances ->
  describe_volumes session region_name (instance_volume_ids instances)
    = Reply response ->
  run (get_ec2_instance_size session account_id region_name instance_id)
    clock
  = (Returned
       (map (ec2_volume_record account_id region_name instance_id)
          (get_or_empty (EC2.Volumes response))),
     [ DescribeInstances region_name [instance_id];
       DescribeVolumes region_name (instance_volume_ids instances) ]).
Proof.
  intros Hinst Hvol. unfold run, get_ec2_instance_size.
  rewrite (run_invoke_reply _ _ _ _ _ Hinst).
  rewrite (run_invoke_reply _ _ _ _ _ Hvol).
  rewrite for_each_append. reflexivity.
Qed.

(** C2. When the instance metadata lists N attached volumes and the volume
    query returns those N volumes, [get_ec2_instance_size] returns exactly
    N records, in the order of the volumes, each keyed
    "{instance_id}::{volume_id}" and sized at the volume's GiB size times
    1024^3. *)
Theorem ec2_one_record_per_volume
  (session : Session) (account_id region_name instance_id : string)
  (clock : datetime)
  (instances : EC2.DescribeInstancesResult)
  (response : EC2.DescribeVolumesResult) (volumes : list EC2.Volume) :
  describe_instances session region_name [instance_id] = Reply instances ->
  describe_volumes session region_name (instance_volume_ids instances)
    = Reply response ->
  EC2.Volumes response = Some volumes ->
  map EC2.VolumeId volumes = instance_volume_ids instances ->
  exists records,
    result (get_ec2_instance_size session account_id region_name instance_id)
      clock = Returned records
    /\ List.length records = List.length (instance_volume_ids instances)
    /\ records =
       map (fun volume =>
              {| account_id := account_id;
                 region_name := region_name;
                 resource_key := instance_id ++ "::" ++ EC2.VolumeId volume;
                 size_bytes := PyInt (EC2.Size volume * GiB) |})
         volumes.
Proof.
  intros Hinst Hvol Hsome Hids.
  pose proof (get_ec2_instance_size_run session account_id region_name
                instance_id clock instances response Hinst Hvol) as Hrun.
  rewrite Hsome in Hrun. cbn [get_or_empty] in Hrun.
  eexists. split; [|split].
  - unfold result. rewrite Hrun. reflexivity.
  - rewrite length_map, <- Hids, length_map. reflexivity.
  - apply map_ext. intros v. unfold ec2_volume_record, GiB.
    f_equal. f_equal. lia.
Qed.

Lemma ec2_one_record_per_volume_witness :
  exists records,
    result (get_ec2_instance_size i1_session "acct" "region" "i-1") 0
      = Returned records
    /\ List.length records = List.length (instance_volume_ids i1_instances)
    /\ records =
       [ {| account_id := "acct"; region_name := "region";
            resource_key := "i-1::vol-a";
            size_bytes := PyInt (20 * 1024 ^ 3) |};
         {| account_id := "acct"; region_name := "region";
            resource_key := "i-1::vol-b";
            size_bytes := PyInt (100 * 1024 ^ 3) |} ].
Proof.
  apply (ec2_one_record_per_volume i1_session "acct" "region" "i-1" 0
           i1_instances {| EC2.Volumes := Some i1_volumes |} i1_volumes);
    reflexivity.
Defined.

(** ** Relational clusters *)

Example aurora_example :
  run (get_rds_cluster_size aurora_session "acct" "eu-west-1" "db-1")
    1800000000 =
  (Returned {| account_id := "acct"; region_name := "eu-west-1";
               resource_key := "db-1"; size_bytes := PyInt 1536 |},
   [ DescribeDBClusters "eu-west-1" "db-1";
     GetMetricStatistics "eu-west-1"
       {| CloudWatch.Namespace := "AWS/RDS";
          CloudWatch.MetricName := "VolumeBytesUsed";
          CloudWatch.Dimensions :=
            [{| CloudWatch.Name := "DBClusterIdentifier";
                CloudWatch.Value := "db-1" |}];
          CloudWatch.StartTime := 0;
          CloudWatch.EndTime := 1800000000;
          CloudWatch.Statistics := ["Maximum"];
          CloudWatch.Period := 1800;
          CloudWatch.Unit := "Bytes" |} ]).
Proof. reflexivity. Qed.

(** The aurora path of [get_rds_cluster_size] when the metric query is
    answered with datapoints that carry a finite Maximum. *)
Lemma get_rds_cluster_size_aurora
  (session : Session) (account_id region_name db_cluster_identifier : string)
  (clock : datetime)
  (response : RDS.DescribeDBClustersResult)
  (cluster : RDS.DBCluster) (others : list RDS.DBCluster)
  (statistics : CloudWatch.GetMetricStatisticsResult) :
  describe_db_clusters session region_name db_cluster_identifier
    = Reply response ->
  RDS.DBClusters response = cluster :: others ->
  String.prefix "aurora-" (RDS.Engine cluster) = true ->
  get_metric_statistics session region_name
    (volume_bytes_used_request db_cluster_identifier
       (clock - timedelta_minutes 30) clock (timedelta_minutes 30))
    = Reply statistics ->
  CloudWatch.Datapoints statistics <> [] ->
  Forall (fun d => exists maximum,
            CloudWatch.Maximum d = Some maximum /\ py_finite maximum = true)
    (CloudWatch.Datapoints statistics) ->
  exists datapoint rest maximum size,
    sorted_reverse CloudWatch.Timestamp (CloudWatch.Datapoints statistics)
    = datapoint :: rest
    /\ CloudWatch.Maximum datapoint = Some maximum
    /\ truncation maximum size
    /\ run (get_rds_cluster_size session account_id region_name
              db_cluster_identifier) clock
       = (Returned {| account_id := account_id;
                      region_name := region_name;
                      resource_key := db_cluster_identifier;
                      size_bytes := PyInt size |},
          [ DescribeDBClusters region_name db_cluster_identifier;
            GetMetricStatistics region_name
              (volume_bytes_used_request db_cluster_identifier
                 (clock - timedelta_minutes 30) clock
                 (timedelta_minutes 30)) ]).
Proof.
  intros Hclusters Hcons Haurora Hstats Hne Hall.
  destruct (sorted_reverse_cons CloudWatch.Timestamp _ Hne)
    as (datapoint & rest & Hsorted).
  destruct (sorted_reverse_head_latest _ _ _ _ Hsorted) as [Hin _].
  rewrite Forall_forall in Hall.
  destruct (Hall _ Hin) as (maximum & Hmax & Hfin).
  destruct (py_int_truncation maximum Hfin) as (size & Htrunc & Hint).
  exists datapoint, rest, maximum, size.
  repeat (split; [assumption|]).
  unfold run, get_rds_cluster_size.
  rewrite (run_invoke_reply _ _ _ _ _ Hclusters).
  rewrite Hcons, Haurora. cbn [negb].
  rewrite run_datetime_now. cbn [wall_clock].
  rewrite (run_invoke_reply _ _ _ _ _ Hstats).
  destruct (CloudWatch.Datapoints statistics) as [|d0 ds] eqn:Hd;
    [contradiction|].
  rewrite Hsorted. cbn [index0]. unfold bind at 1. cbn [ret].
  rewrite Hmax. cbn [subscript]. unfold bind at 1. cbn [ret].
  unfold bind. rewrite Hint. reflexivity.
Qed.

(** C3. On a cluster whose engine name starts with "aurora-" and whose
    metric query over the trailing 30 minutes returns datapoints, each
    carrying a finite Maximum, [get_rds_cluster_size] returns one record
    whose size is the Maximum, truncated to an integer, of the datapoint at
    index 0 of the datapoints sorted by timestamp descending: the first
    datapoint of the response that carries the greatest timestamp.  Its
    calls are the cluster query and that one metric query. *)
Theorem rds_aurora_latest_maximum
  (session : Session) (account_id region_name db_cluster_identifier : string)
  (clock : datetime)
  (response : RDS.DescribeDBClustersResult)
  (cluster : RDS.DBCluster) (others : list RDS.DBCluster)
  (statistics : CloudWatch.GetMetricStatisticsResult) :
  describe_db_clusters session region_name db_cluster_identifier
    = Reply response ->
  RDS.DBClusters response = cluster :: others ->
  String.prefix "aurora-" (RDS.Engine cluster) = true ->
  get_metric_statistics session region_name
    (volume_bytes_used_request db_cluster_identifier
       (clock - timedelta_minutes 30) clock (timedelta_minutes 30))
    = Reply statistics ->
  CloudWatch.Datapoints statistics <> [] ->
  Forall (fun d => exists maximum,
            CloudWatch.Maximum d = Some maximum /\ py_finite maximum = true)
    (CloudWatch.Datapoints statistics) ->
  exists datapoint before after maximum size,
    CloudWatch.Datapoints statistics = before ++ datapoint :: after
    /\ (forall d, In d before ->
          CloudWatch.Timestamp d < CloudWatch.Timestamp datapoint)
    /\ (forall d, In d after ->
          CloudWatch.Timestamp d <= CloudWatch.Timestamp datapoint)
    /\ nth_error
         (sorted_reverse CloudWatch.Timestamp
            (CloudWatch.Datapoints statistics)) 0 = Some datapoint
    /\ CloudWatch.Maximum datapoint = Some maximum
    /\ truncation maximum size
    /\ result
         (get_rds_cluster_size session account_id region_name
            db_cluster_identifier) clock
       = Returned {| account_id := account_id;
                     region_name := region_name;
                     resource_key := db_cluster_identifier;
                     size_bytes := PyInt size |}
    /\ calls
         (get_rds_cluster_size session account_id region_name
            db_cluster_identifier) clock
       = [ DescribeDBClusters region_name db_cluster_identifier;
           GetMetricStatistics region_name
             (volume_bytes_used_request db_cluster_identifier
                (clock - timedelta_minutes 30) clock
                (timedelta_minutes 30)) ].
Proof.
  intros Hclusters Hcons Haurora Hstats Hne Hall.
  destruct (get_rds_cluster_size_aurora session account_id region_name
              db_cluster_identifier clock response cluster others statistics
              Hclusters Hcons Haurora Hstats Hne Hall)
    as (datapoint & rest & maximum & size & Hsorted & Hmax & Htrunc & Hrun).
  destruct (sorted_reverse_head _ _ _ _ Hsorted)
    as (before & after & Hsplit & Hbefore & Hafter).
  exists datapoint, before, after, maximum, size.
  repeat (split; [first [assumption | now rewrite Hsorted] |]).
  unfold result, calls. rewrite Hrun. split; reflexivity.
Qed.

Lemma rds_aurora_latest_maximum_witness :
  exists datapoint before after maximum size,
    aurora_datapoints = before ++ datapoint :: after
    /\ (forall d, In d before ->
          CloudWatch.Timestamp d < CloudWatch.Timestamp datapoint)
    /\ (forall d, In d after ->
          CloudWatch.Timestamp d <= CloudWatch.Timestamp datapoint)
    /\ nth_error
         (sorted_reverse CloudWatch.Timestamp aurora_datapoints) 0
       = Some datapoint
    /\ CloudWatch.Maximum datapoint = Some maximum
    /\ truncation maximum size
    /\ result
         (get_rds_cluster_size aurora_session "acct" "eu-west-1" "db-1")
         1800000000
       = Returned {| account_id := "acct";
                     region_name := "eu-west-1";
                     resource_key := "db-1";
                     size_bytes := PyInt size |}
    /\ calls
         (get_rds_cluster_size aurora_session "acct" "eu-west-1" "db-1")
         1800000000
       = [ DescribeDBClusters "eu-west-1" "db-1";
           GetMetricStatistics "eu-west-1"
             (volume_bytes_used_request "db-1"
                (1800000000 - timedelta_minutes 30) 1800000000
                (timedelta_minutes 30)) ].
Proof.
  apply (rds_aurora_latest_maximum aurora_session "acct" "eu-west-1" "db-1"
           1800000000
           {| RDS.DBClusters :=
                [{| RDS.Engine := "aurora-mysql";
                    RDS.AllocatedStorage := 1 |}] |}
           {| RDS.Engine := "aurora-mysql"; RDS.AllocatedStorage := 1 |} []
           {| CloudWatch.Datapoints := aurora_datapoints |}).
  - reflexivity.
  - reflexivity.
  - reflexivity.
  - reflexivity.
  - discriminate.
  - repeat constructor; eexists; split; reflexivity.
Defined.

Lemma rds_messages_differ (db_cluster_identifier : string) :
  rds_cluster_not_found db_cluster_identifier
  <> rds_metric_not_found db_cluster_identifier.
Proof. discriminate. Qed.

(** What [get_rds_cluster_size] does once the cluster list is known to
    hold an aurora cluster at index 0, by the answer to the metric query. *)
Lemma rds_aurora_cases
  (session : Session) (account_id region_name db_cluster_identifier : string)
  (clock : datetime)
  (response : RDS.DescribeDBClustersResult)
  (cluster : RDS.DBCluster) (others : list RDS.DBCluster) :
  describe_db_clusters session region_name db_cluster_identifier
    = Reply response ->
  RDS.DBClusters response = cluster :: others ->
  String.prefix "aurora-" (RDS.Engine cluster) = true ->
  let outcome :=
    result (get_rds_cluster_size session account_id region_name
              db_cluster_identifier) clock in
  match get_metric_statistics session region_name
          (volume_bytes_used_request db_cluster_identifier
             (clock - timedelta_minutes 30) clock (timedelta_minutes 30))
  with
  | Fault message => outcome = Raised (ClientError message)
  | Reply statistics =>
      match CloudWatch.Datapoints statistics with
      | [] =>
          outcome
          = Raised (Exception (rds_metric_not_found db_cluster_identifier))
      | _ :: _ =>
          (exists record, outcome = Returned record)
          \/ (exists key, outcome = Raised (KeyError key))
          \/ (exists msg, outcome = Raised (ValueError msg))
          \/ (exists msg, outcome = Raised (OverflowError msg))
      end
  end.
Proof.
  intros Hclusters Hcons Haurora outcome.
  assert (Ho : outcome =
               result (get_rds_cluster_size session account_id region_name
                         db_cluster_identifier) clock) by reflexivity.
  clearbody outcome.
  unfold result, run, get_rds_cluster_size in Ho.
  rewrite (run_invoke_reply _ _ _ _ _ Hclusters) in Ho.
  rewrite Hcons, Haurora in Ho. cbn [negb] in Ho.
  rewrite run_datetime_now in Ho. cbn [wall_clock] in Ho.
  destruct (get_metric_statistics _ _ _) as [statistics | message] eqn:Hs.
  - rewrite (run_invoke_reply _ _ _ _ _ eq_refl) in Ho.
    destruct (CloudWatch.Datapoints statistics) as [|d0 ds] eqn:Hd.
    + exact Ho.
    + destruct (sorted_reverse_cons CloudWatch.Timestamp (d0 :: ds))
        as (datapoint & rest & Hsorted); [discriminate|].
      rewrite Hsorted in Ho.
      cbn [index0] in Ho. unfold bind at 1 in Ho. cbn [ret] in Ho.
      destruct (CloudWatch.Maximum datapoint) as [maximum|].
      * cbn [subscript] in Ho. unfold bind at 1 in Ho. cbn [ret] in Ho.
        destruct maximum as [z | [s | s | | s m e]]; cbn in Ho.
        -- left. eexists; exact Ho.
        -- left. eexists; exact Ho.
        -- right. right. right. eexists; exact Ho.
        -- right. right. left. eexists; exact Ho.
        -- left. eexists; exact Ho.
      * cbn in Ho. right. left. eexists; exact Ho.
  - rewrite (run_invoke_fault _ _ _ _ _ eq_refl) in Ho. exact Ho.
Qed.

(** C4. [get_rds_cluster_size] raises the not-found error exactly when the
    provider answers with an empty cluster list, and on the aurora path it
    raises the metric-not-found error exactly when the metric query answers
    with no datapoints; in both cases the outcome is the raised error and
    no record. *)
Theorem rds_cluster_errors
  (session : Session) (account_id region_name db_cluster_identifier : string)
  (clock : datetime) :
  let outcome :=
    result (get_rds_cluster_size session account_id region_name
              db_cluster_identifier) clock in
  (outcome = Raised (Exception (rds_cluster_not_found db_cluster_identifier))
   <-> exists response,
         describe_db_clusters session region_name db_cluster_identifier
           = Reply response
         /\ RDS.DBClusters response = [])
  /\ (forall response cluster others,
        describe_db_clusters session region_name db_cluster_identifier
          = Reply response ->
        RDS.DBClusters response = cluster :: others ->
        String.prefix "aurora-" (RDS.Engine cluster) = true ->
        (outcome
         = Raised (Exception (rds_metric_not_found db_cluster_identifier))
         <-> exists statistics,
               get_metric_statistics session region_name
                 (volume_bytes_used_request db_cluster_identifier
                    (clock - timedelta_minutes 30) clock
                    (timedelta_minutes 30))
                 = Reply statistics
               /\ CloudWatch.Datapoints statistics = []))
  /\ (forall e, outcome = Raised e -> forall record,
        outcome <> Returned record).
Proof.
  intros outcome. split; [|split].
  - split.
    + intros Hout.
      destruct (describe_db_clusters session region_name
                  db_cluster_identifier) as [response | message] eqn:Hc.
      * exists response. split; [reflexivity|].
        destruct (RDS.DBClusters response) as [|cluster others] eqn:Hl;
          [reflexivity | exfalso].
        destruct (String.prefix "aurora-" (RDS.Engine cluster)) eqn:Hp.
        -- pose proof (rds_aurora_cases session account_id region_name
                         db_cluster_identifier clock response cluster others
                         Hc Hl Hp) as Hcases.
           cbv zeta in Hcases. fold outcome in Hcases.
           destruct (get_metric_statistics _ _ _) as [statistics | message].
           ++ destruct (CloudWatch.Datapoints statistics).
              ** rewrite Hcases in Hout. injection Hout as Hout.
                 now apply (rds_messages_differ db_cluster_identifier).
              ** destruct Hcases as [[r H] | [[k H] | [[m H] | [m H]]]];
                   rewrite H in Hout; discriminate.
           ++ rewrite Hcases in Hout. discriminate.
        -- subst outcome. unfold result, run, get_rds_cluster_size in Hout.
           rewrite (run_invoke_reply _ _ _ _ _ Hc) in Hout.
           rewrite Hl, Hp in Hout. discriminate.
      * subst outcome. unfold result, run, get_rds_cluster_size in Hout.
        rewrite (run_invoke_fault _ _ _ _ _ Hc) in Hout. discriminate.
    + intros (response & Hc & Hl). subst outcome.
      unfold result, run, get_rds_cluster_size.
      rewrite (run_invoke_reply _ _ _ _ _ Hc), Hl. reflexivity.
  - intros response cluster others Hc Hl Hp.
    pose proof (rds_aurora_cases session account_id region_name
                  db_cluster_identifier clock response cluster others
                  Hc Hl Hp) as Hcases.
    cbv zeta in Hcases. fold outcome in Hcases.
    destruct (get_metric_statistics _ _ _) as [statistics | message].
    + destruct (CloudWatch.Datapoints statistics) eqn:Hd.
      * split; [intros _ | intros _; exact Hcases].
        exists statistics. now split.
      * split.
        -- intros Hout.
           destruct Hcases as [[r H] | [[k H] | [[m H] | [m H]]]];
             rewrite H in Hout; discriminate.
        -- intros (statistics' & Heq & Hnil). injection Heq as <-.
           rewrite Hnil in Hd. discriminate.
    + split.
      * intros Hout. rewrite Hcases in Hout. discriminate.
      * intros (statistics & Heq & _). discriminate.
  - intros e He record Hr. rewrite He in Hr. discriminate.
Qed.

Lemma rds_cluster_errors_witness :
  result (get_rds_cluster_size silent_aurora_session "acct" "eu-west-1"
            "db-1") 0
  = Raised
      (Exception "The VolumeBytesUsed metric was not found for DB cluster db-1")
  /\ result (get_rds_cluster_size (rds_session
                                     (fun _ _ => Reply {| RDS.DBClusters := [] |})
                                     (fun _ _ => offline "GetMetricStatistics"))
               "acct" "eu-west-1" "db-1") 0
     = Raised (Exception "DB Cluster db-1 was not found").
Proof.
  split.
  - destruct (rds_cluster_errors silent_aurora_session "acct" "eu-west-1"
                "db-1" 0) as (_ & Hmetric & _).
    apply (Hmetric
             {| RDS.DBClusters :=
                  [{| RDS.Engine := "aurora-postgresql";
                      RDS.AllocatedStorage := 1 |}] |}
             {| RDS.Engine := "aurora-postgresql";
                RDS.AllocatedStorage := 1 |} []);
      try reflexivity.
    exists {| CloudWatch.Datapoints := [] |}. split; reflexivity.
  - destruct (rds_cluster_errors
                (rds_session
                   (fun _ _ => Reply {| RDS.DBClusters := [] |})
                   (fun _ _ => offline "GetMetricStatistics"))
                "acct" "eu-west-1" "db-1" 0) as (Hfound & _).
    apply Hfound. exists {| RDS.DBClusters := [] |}. split; reflexivity.
Defined.

(** ** Data-warehouse clusters *)

Example warehouse_example :
  run (get_redshift_cluster_size warehouse_session "acct" "eu-west-1" "dw")
    seven_days_in
  = (Returned {| account_id := "acct"; region_name := "eu-west-1";
                 resource_key := "dw";
                 size_bytes :=
                   PyFloat (S754_finite false (6147 * 2 ^ 40) (-22)) |},
     [ DescribeClusterSnapshots "eu-west-1"
         {| Redshift.ClusterIdentifier := "dw";
            Redshift.StartTime := 0;
            Redshift.SortingEntities :=
              [{| Redshift.Attribute := "CREATE_TIME";
                  Redshift.SortOrder := "DESC" |}] |} ]).
Proof. reflexivity. Qed.

Lemma get_redshift_cluster_size_run
  (session : Session) (account_id region_name cluster_identifier : string)
  (clock : datetime) (response : Redshift.DescribeClusterSnapshotsResult) :
  describe_cluster_snapshots session region_name
    (cluster_snapshots_request cluster_identifier
       (clock - timedelta_days 7)) = Reply response ->
  result (get_redshift_cluster_size session account_id region_name
            cluster_identifier) clock
  = match sorted_reverse Redshift.SnapshotCreateTime
            (Redshift.Snapshots response) with
    | [] => Raised (Exception (redshift_no_snapshots cluster_identifier))
    | last_snapshot :: _ =>
        Returned
          {| account_id := account_id;
             region_name := region_name;
             resource_key := cluster_identifier;
             size_bytes :=
               py_mul
                 (py_mul (Redshift.TotalBackupSizeInMegaBytes last_snapshot)
                    1024)
                 1024 |}
    end.
Proof.
  intros Hsnap. unfold result, run, get_redshift_cluster_size.
  rewrite run_datetime_now. cbn [wall_clock].
  rewrite (run_invoke_reply _ _ _ _ _ Hsnap).
  destruct (sorted_reverse _ _); reflexivity.
Qed.

(** C5. Whatever the order of the snapshots in the provider's answer,
    [get_redshift_cluster_size] takes the snapshot with the latest
    SnapshotCreateTime (the first such of the answer) and returns its
    TotalBackupSizeInMegaBytes times 1024^2; on an empty answer it raises
    the no-snapshots error. *)
Theorem redshift_latest_snapshot
  (session : Session) (account_id region_name cluster_identifier : string)
  (clock : datetime) (response : Redshift.DescribeClusterSnapshotsResult) :
  describe_cluster_snapshots session region_name
    (cluster_snapshots_request cluster_identifier
       (clock - timedelta_days 7)) = Reply response ->
  Forall (fun snapshot =>
            py_valid (Redshift.TotalBackupSizeInMegaBytes snapshot) = true)
    (Redshift.Snapshots response) ->
  (Redshift.Snapshots response = [] ->
   result (get_redshift_cluster_size session account_id region_name
             cluster_identifier) clock
   = Raised
       (Exception
          ("Cluster " ++ cluster_identifier
           ++ " does not have any snapshots in the last seven days")))
  /\ (Redshift.Snapshots response <> [] ->
      exists last_snapshot before after size,
        Redshift.Snapshots response = before ++ last_snapshot :: after
        /\ (forall snapshot, In snapshot before ->
              Redshift.SnapshotCreateTime snapshot
              < Redshift.SnapshotCreateTime last_snapshot)
        /\ (forall snapshot, In snapshot after ->
              Redshift.SnapshotCreateTime snapshot
              <= Redshift.SnapshotCreateTime last_snapshot)
        /\ result (get_redshift_cluster_size session account_id region_name
                     cluster_identifier) clock
           = Returned {| account_id := account_id;
                         region_name := region_name;
                         resource_key := cluster_identifier;
                         size_bytes := size |}
        /\ scaled 20 (Redshift.TotalBackupSizeInMegaBytes last_snapshot) size
        /\ 2 ^ 20 = MiB).
Proof.
  intros Hsnap Hvalid.
  rewrite (get_redshift_cluster_size_run _ _ _ _ _ _ Hsnap).
  split.
  - intros ->. reflexivity.
  - intros Hne.
    destruct (sorted_reverse_cons Redshift.SnapshotCreateTime _ Hne)
      as (last_snapshot & rest & Hsorted).
    destruct (sorted_reverse_head _ _ _ _ Hsorted)
      as (before & after & Hsplit & Hbefore & Hafter).
    rewrite Hsorted.
    exists last_snapshot, before, after. eexists.
    repeat (split; [first [eassumption | reflexivity] |]).
    split; [|reflexivity].
    apply py_mul_1024_twice.
    rewrite Forall_forall in Hvalid. apply Hvalid.
    rewrite Hsplit. apply in_or_app. right. now left.
Qed.

Lemma redshift_latest_snapshot_witness :
  exists size,
    result (get_redshift_cluster_size warehouse_session "acct" "eu-west-1"
              "dw") seven_days_in
    = Returned {| account_id := "acct"; region_name := "eu-west-1";
                  resource_key := "dw"; size_bytes := size |}
    /\ scaled 20 (PyFloat float_1536_75) size.
Proof.
  destruct (redshift_latest_snapshot warehouse_session "acct" "eu-west-1"
              "dw" seven_days_in
              {| Redshift.Snapshots := warehouse_snapshots |})
    as [_ Hlatest].
  - reflexivity.
  - repeat constructor.
  - destruct Hlatest as (last & before & after & size & _ & _ & _ & Hrun
                         & _ & _); [discriminate|].
    exists size. split; [exact Hrun|].
    injection Hrun as <-. cbn. repeat split. lia.
Defined.

(** ** Object-storage buckets: validation *)

Lemma validate_bucket_run (session : Session)
  (region_name bucket_name : string) w :
  validate_bucket session region_name bucket_name w =
  (match get_bucket_location session region_name bucket_name with
   | Reply response =>
       if (declared_region response =? region_name)%string
       then Returned tt
       else Raised (Exception
                      (bucket_not_found bucket_name region_name
                         (Exception
                            (bucket_wrong_region bucket_name region_name))))
   | Fault message =>
       Raised (Exception
                 (bucket_not_found bucket_name region_name
                    (ClientError message)))
   end,
   {| wall_clock := wall_clock w;
      trace := trace w ++ [GetBucketLocation region_name bucket_name] |}).
Proof.
  unfold validate_bucket, try_except, check_bucket_location, declared_region.
  destruct (get_bucket_location session region_name bucket_name)
    as [response | message] eqn:Hloc.
  - unfold bind, invoke.
    destruct (get_or _ _ =? region_name)%string; reflexivity.
  - reflexivity.
Qed.

Example bucket_other_region_fails :
  result (validate_bucket default_region_bucket "eu-west-1" "logs") 0 =
  Raised (Exception
            ("Bucket logs was not found in Region eu-west-1 or credentials "
             ++ "are invalid. Inner exception "
             ++ "Bucket logs is not in Region eu-west-1")).
Proof. reflexivity. Qed.

(** C7. Whatever the body of the validation phase raises, be it the
    provider's fault for a missing bucket or for invalid credentials or the
    region mismatch raised by the body itself, [get_bucket_size] raises one
    [Exception] whose message is the fixed not-found-or-unauthorized text
    followed by the text of the original exception, and it issues no call
    after the location query. *)
Theorem bucket_validation_failures_wrapped
  (session : Session) (account_id region_name bucket_name : string)
  (clock : datetime) (exc : exn) :
  result (check_bucket_location session region_name bucket_name) clock
    = Raised exc ->
  run (get_bucket_size session account_id region_name bucket_name) clock
  = (Raised
       (Exception
          ("Bucket " ++ bucket_name ++ " was not found in Region "
           ++ region_name
           ++ " or credentials are invalid. Inner exception "
           ++ exn_str exc)),
     [GetBucketLocation region_name bucket_name])
  /\ ((exists message,
         get_bucket_location session region_name bucket_name = Fault message
         /\ exc = ClientError message)
      \/ (exists response,
            get_bucket_location session region_name bucket_name
              = Reply response
            /\ declared_region response <> region_name
            /\ exc = Exception
                       ("Bucket " ++ bucket_name ++ " is not in Region "
                        ++ region_name))).
Proof.
  unfold result, run, get_bucket_size, validate_bucket, try_except,
    check_bucket_location, declared_region.
  destruct (get_bucket_location session region_name bucket_name)
    as [response | message] eqn:Hloc.
  - unfold bind, invoke.
    destruct (String.eqb_spec
                (get_or (S3.LocationConstraint response) "us-east-1")
                region_name) as [Heq | Hneq]; cbn [negb].
    + discriminate.
    + cbn. intros [= <-]. split; [reflexivity|].
      right. exists response. repeat split. exact Hneq.
  - cbn. intros [= <-]. split; [reflexivity|].
    left. exists message. now split.
Qed.

Lemma bucket_validation_failures_wrapped_witness :
  run (get_bucket_size missing_bucket "acct" "eu-west-1" "logs") 0
  = (Raised
       (Exception
          ("Bucket logs was not found in Region eu-west-1"
           ++ " or credentials are invalid. Inner exception NoSuchBucket")),
     [GetBucketLocation "eu-west-1" "logs"])
  /\ ((exists message,
         get_bucket_location missing_bucket "eu-west-1" "logs" = Fault message
         /\ ClientError "NoSuchBucket" = ClientError message)
      \/ (exists response,
            get_bucket_location missing_bucket "eu-west-1" "logs"
              = Reply response
            /\ declared_region response <> "eu-west-1"
            /\ ClientError "NoSuchBucket"
               = Exception "Bucket logs is not in Region eu-west-1")).
Proof.
  apply (bucket_validation_failures_wrapped missing_bucket "acct"
           "eu-west-1" "logs" 0 (ClientError "NoSuchBucket")).
  reflexivity.
Defined.

Example bucket_region_mismatch_wrapped :
  run (get_bucket_size default_region_bucket "acct" "eu-west-1" "logs") 0
  = (Raised
       (Exception
          ("Bucket logs was not found in Region eu-west-1"
           ++ " or credentials are invalid. Inner exception "
           ++ "Bucket logs is not in Region eu-west-1")),
     [GetBucketLocation "eu-west-1" "logs"]).
Proof. reflexivity. Qed.

(** ** Object-storage buckets: metric enumeration and collection *)

Lemma collect_page_metrics (metrics : list CloudWatch.Metric)
  (acc : list (string * list CloudWatch.Dimension)) w :
  for_each metrics
    (fun metric metric_dimensions =>
       storage_type <-
         index0 (storage_type_values (CloudWatch.MetricDimensions metric)) ;;
       ret (metric_dimensions ++
            [(storage_type, CloudWatch.MetricDimensions metric)]))
    acc w =
  if forallb has_storage_type metrics
  then (Returned (acc ++ map metric_entry metrics), w)
  else (Raised index_error, w).
Proof.
  revert acc. induction metrics as [|metric metrics IH]; intros acc.
  - cbn. now rewrite app_nil_r.
  - cbn [for_each forallb map]. unfold bind at 1.
    unfold has_storage_type at 1, metric_entry at 1, metric_storage_type.
    destruct (storage_type_values (CloudWatch.MetricDimensions metric))
      as [|storage_type more].
    + reflexivity.
    + cbn [index0 hd_error andb]. unfold bind at 1, ret at 1 2.
      rewrite IH. rewrite <- app_assoc. reflexivity.
Qed.

Lemma collect_pages_metrics (pages : list CloudWatch.ListMetricsPage)
  (acc : list (string * list CloudWatch.Dimension)) w :
  for_each pages
    (fun page metric_dimensions =>
       for_each (CloudWatch.Metrics page)
         (fun metric metric_dimensions =>
            storage_type <-
              index0 (storage_type_values
                        (CloudWatch.MetricDimensions metric)) ;;
            ret (metric_dimensions ++
                 [(storage_type, CloudWatch.MetricDimensions metric)]))
         metric_dimensions)
    acc w =
  if forallb has_storage_type (listed_metrics pages)
  then (Returned (acc ++ map metric_entry (listed_metrics pages)), w)
  else (Raised index_error, w).
Proof.
  revert acc. induction pages as [|page pages IH]; intros acc.
  - cbn. now rewrite app_nil_r.
  - cbn [for_each listed_metrics flat_map]. unfold bind at 1.
    rewrite collect_page_metrics, forallb_app, map_app.
    destruct (forallb has_storage_type (CloudWatch.Metrics page)).
    + cbn [andb]. fold (listed_metrics pages). rewrite IH.
      now rewrite app_assoc.
    + reflexivity.
Qed.

Lemma collect_metric_dimensions_run
  (pages : list CloudWatch.ListMetricsPage) w :
  collect_metric_dimensions pages w =
  if forallb has_storage_type (listed_metrics pages)
  then (Returned (map metric_entry (listed_metrics pages)), w)
  else (Raised index_error, w).
Proof. apply (collect_pages_metrics pages []). Qed.

Lemma str_in_In (x : string) (l : list string) :
  str_in x l = true <-> In x l.
Proof.
  unfold str_in. rewrite existsb_exists. split.
  - intros (y & Hin & Heq). apply String.eqb_eq in Heq. now subst y.
  - intros Hin. exists x. split; [exact Hin | apply String.eqb_refl].
Qed.

Lemma str_in_metric_entry (metric : CloudWatch.Metric) :
  str_in (fst (metric_entry metric)) backup_storage_types = retained metric.
Proof.
  unfold metric_entry, retained.
  now destruct (metric_storage_type metric).
Qed.

Section BucketMetrics.
Variable session : Session.
Variables account region bucket : string.
Variable clock : datetime.

Lemma collect_metrics_returned (metrics : list CloudWatch.Metric)
  (acc : list SizeRecord) w :
  Forall (well_answered session region clock) metrics ->
  exists records,
    for_each (map metric_entry metrics)
      (collect_metric session account region bucket
         (clock - timedelta_days 2) clock (timedelta_days 2))
      acc w
    = (Returned (acc ++ records),
       {| wall_clock := wall_clock w;
          trace := trace w ++ map (statistics_call region clock) metrics |})
    /\ Forall2 (record_of session account region bucket clock) (filter retained metrics) records.
Proof.
  intros Hall. revert acc w.
  induction Hall as [|metric metrics Hmetric _ IH]; intros acc w.
  - exists []. cbn. rewrite !app_nil_r. destruct w. split; constructor.
  - destruct Hmetric as (statistics & Hans & Hdata).
    cbn [map for_each filter]. unfold bind at 1.
    unfold collect_metric at 1.
    rewrite (surjective_pairing (metric_entry metric)).
    rewrite str_in_metric_entry. cbn [snd metric_entry].
    change (bucket_size_bytes_request (CloudWatch.MetricDimensions metric)
              (clock - timedelta_days 2) clock (timedelta_days 2))
      with (statistics_request clock (CloudWatch.MetricDimensions metric)).
    rewrite (run_invoke_reply _ _ _ _ _ Hans).
    destruct (retained metric) eqn:Hret.
    + destruct (Hdata eq_refl) as (datapoint & others & average & Hd & Ha).
      rewrite Hd. cbn [index0]. unfold bind at 1, ret at 1.
      rewrite Ha. cbn [subscript]. unfold bind at 1, ret at 1 2.
      match goal with |- context [for_each _ _ ?acc' ?w'] =>
        destruct (IH acc' w') as (records & Hrun & Hrec) end.
      eexists (_ :: records). split.
      * rewrite Hrun. cbn [wall_clock trace].
        rewrite <- !app_assoc. reflexivity.
      * constructor; [|exact Hrec].
        unfold retained in Hret.
        destruct (metric_storage_type metric) as [storage_type|] eqn:Hst;
          [|discriminate].
        exists storage_type, statistics, datapoint, others, average.
        repeat split; try assumption.
        -- now apply str_in_In.
        -- unfold metric_entry. rewrite Hst. reflexivity.
    + unfold ret at 1.
      match goal with |- context [for_each _ _ ?acc' ?w'] =>
        destruct (IH acc' w') as (records & Hrun & Hrec) end.
      exists records. split; [|exact Hrec].
      rewrite Hrun. cbn [wall_clock trace].
      rewrite <- !app_assoc. reflexivity.
Qed.

Lemma collect_metrics_index_error (metrics : list CloudWatch.Metric)
  (acc : list SizeRecord) w :
  Forall (fun metric =>
            exists statistics,
              answered session region clock metric statistics
              /\ forall datapoint others,
                   CloudWatch.Datapoints statistics = datapoint :: others ->
                   CloudWatch.Average datapoint <> None)
    metrics ->
  Exists (fun metric =>
            retained metric = true
            /\ exists statistics,
                 answered session region clock metric statistics
                 /\ CloudWatch.Datapoints statistics = [])
    metrics ->
  fst (for_each (map metric_entry metrics)
         (collect_metric session account region bucket
            (clock - timedelta_days 2) clock (timedelta_days 2))
         acc w)
  = Raised index_error.
Proof.
  intros Hall. revert acc w.
  induction Hall as [|metric metrics Hmetric _ IH]; intros acc w Hex.
  - inversion Hex.
  - destruct Hmetric as (statistics & Hans & Havg).
    cbn [map for_each]. unfold bind at 1. unfold collect_metric at 1.
    rewrite (surjective_pairing (metric_entry metric)).
    rewrite str_in_metric_entry. cbn [snd metric_entry].
    change (bucket_size_bytes_request (CloudWatch.MetricDimensions metric)
              (clock - timedelta_days 2) clock (timedelta_days 2))
      with (statistics_request clock (CloudWatch.MetricDimensions metric)).
    rewrite (run_invoke_reply _ _ _ _ _ Hans).
    destruct (retained metric) eqn:Hret.
    + destruct (CloudWatch.Datapoints statistics)
        as [|datapoint others] eqn:Hd.
      * reflexivity.
      * cbn [index0]. unfold bind at 1, ret at 1.
        destruct (CloudWatch.Average datapoint) as [average|] eqn:Ha;
          [|now destruct (Havg datapoint others eq_refl)].
        cbn [subscript]. unfold bind at 1, ret at 1 2.
        apply IH. inversion Hex as [? ? Hhead | ? ? Htail]; subst.
        -- destruct Hhead as (_ & statistics' & Hans' & Hnil).
           unfold answered in Hans, Hans'. rewrite Hans in Hans'.
           injection Hans' as <-. rewrite Hnil in Hd. discriminate.
        -- exact Htail.
    + unfold ret at 1. apply IH.
      inversion Hex as [? ? Hhead | ? ? Htail]; subst.
      * destruct Hhead as (Hret' & _). rewrite Hret in Hret'. discriminate.
      * exact Htail.
Qed.
End BucketMetrics.

(** [get_bucket_size] once the validation has passed and the listing has
    been answered: the first loops, then the collection loop. *)
Lemma get_bucket_size_listed
  (session : Session) (account_id region_name bucket_name : string)
  (clock : datetime)
  (location : S3.GetBucketLocationResult)
  (pages : list CloudWatch.ListMetricsPage) :
  get_bucket_location session region_name bucket_name = Reply location ->
  declared_region location = region_name ->
  list_metrics_paginate session region_name
    (bucket_size_metrics_request bucket_name) = Reply pages ->
  let listed :=
    {| wall_clock := clock;
       trace := [ GetBucketLocation region_name bucket_name;
                  ListMetricsPaginate region_name
                    (bucket_size_metrics_request bucket_name) ] |} in
  get_bucket_size session account_id region_name bucket_name
    {| wall_clock := clock; trace := [] |}
  = if forallb has_storage_type (listed_metrics pages)
    then for_each (map metric_entry (listed_metrics pages))
           (collect_metric session account_id region_name bucket_name
              (clock - timedelta_days 2) clock (timedelta_days 2))
           [] listed
    else (Raised index_error, listed).
Proof.
  intros Hloc Hregion Hpages listed.
  unfold get_bucket_size. unfold bind at 1.
  rewrite validate_bucket_run, Hloc, Hregion, String.eqb_refl.
  rewrite (run_invoke_reply _ _ _ _ _ Hpages).
  unfold bind at 1. rewrite collect_metric_dimensions_run.
  destruct (forallb has_storage_type (listed_metrics pages)); reflexivity.
Qed.

(** Appending to a string is injective in the appended part. *)
Lemma append_inj_r (prefix s1 s2 : string) :
  (prefix ++ s1 = prefix ++ s2)%string -> s1 = s2.
Proof.
  induction prefix as [|c prefix IH]; cbn; intros H.
  - exact H.
  - injection H as H. now apply IH.
Qed.

Lemma Forall2_in_right {A B} (P : A -> B -> Prop) (l : list A)
  (l' : list B) (y : B) :
  Forall2 P l l' -> In y l' -> exists x, In x l /\ P x y.
Proof.
  induction 1 as [|x0 y0 l l' Hxy _ IH]; intros Hin.
  - destruct Hin.
  - destruct Hin as [<- | Hin].
    + exists x0. split; [now left | exact Hxy].
    + destruct (IH Hin) as (x & Hx & HP). exists x. split; [now right|].
      exact HP.
Qed.

(** Dropping the metrics that are not retained keeps the storage classes
    pairwise distinct. *)
Lemma retained_classes_distinct (metrics : list CloudWatch.Metric) :
  NoDup (map metric_storage_type metrics) ->
  NoDup (map metric_storage_type (filter retained metrics)).
Proof.
  induction metrics as [|metric metrics IH]; cbn [map filter].
  - intros _. constructor.
  - rewrite NoDup_cons_iff. intros [Hfresh Hrest].
    destruct (retained metric); [|now apply IH].
    cbn [map]. apply NoDup_cons; [|now apply IH].
    contradict Hfresh.
    apply in_map_iff in Hfresh. destruct Hfresh as (other & Hclass & Hin).
    apply filter_In in Hin. destruct Hin as [Hin _].
    rewrite <- Hclass. now apply in_map.
Qed.

(** Records of metrics with pairwise distinct storage classes have
    pairwise distinct keys. *)
Lemma record_keys_nodup
  (session : Session) (account_id region_name bucket_name : string)
  (clock : datetime)
  (metrics : list CloudWatch.Metric) (records : list SizeRecord) :
  Forall2 (record_of session account_id region_name bucket_name clock)
    metrics records ->
  NoDup (map metric_storage_type metrics) ->
  NoDup (map resource_key records).
Proof.
  induction 1 as [|metric record metrics records Hone Hrest IH];
    cbn [map]; intros Hnd.
  - constructor.
  - inversion Hnd as [|? ? Hnotin Hnd']; subst.
    constructor; [|now apply IH].
    intros Hin. apply Hnotin. apply in_map_iff in Hin.
    destruct Hin as (record' & Hkey & Hin).
    destruct (Forall2_in_right _ _ _ _ Hrest Hin) as (metric' & Hin' & Hone').
    apply in_map_iff. exists metric'. split; [|exact Hin'].
    destruct Hone as (st & ? & ? & ? & ? & Hst & _ & _ & _ & _ & ->).
    destruct Hone' as (st' & ? & ? & ? & ? & Hst' & _ & _ & _ & _ & ->).
    cbn [resource_key] in Hkey.
    apply append_inj_r in Hkey. apply (append_inj_r "::") in Hkey.
    rewrite Hst, Hst'. now f_equal.
Qed.

(** C8. When the validation passes, the listing is answered, every listed
    metric has a storage class and a statistics answer, and the answer for
    an allow-listed class has a datapoint 0 with an Average,
    [get_bucket_size] returns exactly one record per listed metric whose
    storage class is in the allow-list of nine, in listing order, keyed
    "{bucket_name}::{storage_type}" and sized at that Average unconverted,
    so that distinct listed classes give distinct keys; a class outside the
    allow-list, such as "GlacierStorage", keys no record. *)
Theorem bucket_one_record_per_retained_metric
  (session : Session) (account_id region_name bucket_name : string)
  (clock : datetime)
  (location : S3.GetBucketLocationResult)
  (pages : list CloudWatch.ListMetricsPage) :
  get_bucket_location session region_name bucket_name = Reply location ->
  declared_region location = region_name ->
  list_metrics_paginate session region_name
    (bucket_size_metrics_request bucket_name) = Reply pages ->
  Forall (fun metric => has_storage_type metric = true)
    (listed_metrics pages) ->
  Forall (well_answered session region_name clock) (listed_metrics pages) ->
  exists records,
    result (get_bucket_size session account_id region_name bucket_name) clock
      = Returned records
    /\ Forall2
         (record_of session account_id region_name bucket_name clock)
         (filter retained (listed_metrics pages)) records
    /\ List.length records
       = List.length (filter retained (listed_metrics pages))
    /\ (forall storage_type,
          In (bucket_name ++ "::" ++ storage_type)%string
            (map resource_key records) ->
          In storage_type backup_storage_types)
    /\ (NoDup (map metric_storage_type (listed_metrics pages)) ->
        NoDup (map resource_key records))
    /\ List.length backup_storage_types = 9%nat
    /\ ~ In (bucket_name ++ "::GlacierStorage")%string
         (map resource_key records).
Proof.
  intros Hloc Hregion Hpages Hclass Hans.
  destruct (collect_metrics_returned session account_id region_name
              bucket_name clock (listed_metrics pages) []
              {| wall_clock := clock;
                 trace := [ GetBucketLocation region_name bucket_name;
                            ListMetricsPaginate region_name
                              (bucket_size_metrics_request bucket_name) ] |}
              Hans) as (records & Hrun & Hrec).
  assert (Hkeys : forall storage_type,
            In (bucket_name ++ "::" ++ storage_type)%string
              (map resource_key records) ->
            In storage_type backup_storage_types).
  { clear Hrun. intros storage_type.
    induction Hrec as [|metric record metrics records Hone _ IH].
    - intros [].
    - intros [Hkey | Hin]; [|now apply IH].
      destruct Hone as (st & statistics & dp & others & average
                        & _ & Hallow & _ & _ & _ & ->).
      cbn [resource_key] in Hkey.
      apply append_inj_r in Hkey. apply (append_inj_r "::") in Hkey.
      now subst st. }
  assert (Hfor : forallb has_storage_type (listed_metrics pages) = true).
  { apply forallb_forall. now apply Forall_forall. }
  pose proof (get_bucket_size_listed session account_id region_name
                bucket_name clock location pages Hloc Hregion Hpages) as Hg.
  cbv zeta in Hg. rewrite Hfor, Hrun in Hg.
  exists records.
  split; [|split; [exact Hrec | split; [|split; [|split; [|split]]]]].
  - apply (run_eq _ _ _ _ Hg).
  - symmetry. exact (Forall2_length Hrec).
  - exact Hkeys.
  - intros Hnd. apply (record_keys_nodup _ _ _ _ _ _ _ Hrec).
    now apply retained_classes_distinct.
  - reflexivity.
  - intros Hin. apply Hkeys in Hin. revert Hin. clear.
    cbn. intuition discriminate.
Qed.

Example photos_example :
  run (get_bucket_size photos_bucket "acct" "eu-west-1" "photos") two_days_in
  = (Returned
       [ {| account_id := "acct"; region_name := "eu-west-1";
            resource_key := "photos::StandardStorage";
            size_bytes := PyFloat float_1536_75 |};
         {| account_id := "acct"; region_name := "eu-west-1";
            resource_key := "photos::StandardIAStorage";
            size_bytes := PyInt 4096 |} ],
     [ GetBucketLocation "eu-west-1" "photos";
       ListMetricsPaginate "eu-west-1" (bucket_size_metrics_request "photos");
       GetMetricStatistics "eu-west-1"
         (statistics_request two_days_in
            (CloudWatch.MetricDimensions
               (bucket_metric "photos" "StandardStorage")));
       GetMetricStatistics "eu-west-1"
         (statistics_request two_days_in
            (CloudWatch.MetricDimensions
               (bucket_metric "photos" "GlacierStorage")));
       GetMetricStatistics "eu-west-1"
         (statistics_request two_days_in
            (CloudWatch.MetricDimensions
               (bucket_metric "photos" "StandardIAStorage"))) ]).
Proof. reflexivity. Qed.

Lemma bucket_one_record_per_retained_metric_witness :
  exists records,
    result (get_bucket_size photos_bucket "acct" "eu-west-1" "photos")
      two_days_in = Returned records
    /\ List.length records = 2%nat
    /\ ~ In "photos::GlacierStorage" (map resource_key records).
Proof.
  destruct (bucket_one_record_per_retained_metric photos_bucket "acct"
              "eu-west-1" "photos" two_days_in
              {| S3.LocationConstraint := Some "eu-west-1" |} photos_pages)
    as (records & Hrun & _ & Hlen & _ & _ & _ & Hglacier).
  - reflexivity.
  - reflexivity.
  - reflexivity.
  - repeat constructor.
  - repeat constructor;
      (eexists; split;
       [reflexivity | intros _; do 3 eexists; split; reflexivity]).
  - exists records. repeat split; assumption.
Defined.

Lemma Forall2_in_left {A B} (P : A -> B -> Prop) (l : list A)
  (l' : list B) (x : A) :
  Forall2 P l l' -> In x l -> exists y, In y l' /\ P x y.
Proof.
  induction 1 as [|x0 y0 l l' Hxy _ IH]; intros Hin.
  - destruct Hin.
  - destruct Hin as [<- | Hin].
    + exists y0. split; [now left | exact Hxy].
    + destruct (IH Hin) as (y & Hy & HP). exists y. split; [now right|].
      exact HP.
Qed.

(** C9. Datapoint 0 of the statistics answer is read as it comes, neither
    sorted nor checked to exist.  When the validation passes and the
    listing and the statistics queries are answered with datapoints that
    carry an Average: if the answer for some listed metric of an
    allow-listed storage class has no datapoints, [get_bucket_size] fails
    with an [IndexError]; and if every listed metric has a storage class
    and every such answer has datapoints, the record of such a metric
    carries the Average of the head of its answer, whatever the
    timestamps. *)
Theorem bucket_empty_datapoints_index_error
  (session : Session) (account_id region_name bucket_name : string)
  (clock : datetime)
  (location : S3.GetBucketLocationResult)
  (pages : list CloudWatch.ListMetricsPage) :
  get_bucket_location session region_name bucket_name = Reply location ->
  declared_region location = region_name ->
  list_metrics_paginate session region_name
    (bucket_size_metrics_request bucket_name) = Reply pages ->
  Forall (fun listed =>
            exists answer,
              answered session region_name clock listed answer
              /\ forall datapoint others,
                   CloudWatch.Datapoints answer = datapoint :: others ->
                   CloudWatch.Average datapoint <> None)
    (listed_metrics pages) ->
  (forall metric statistics,
     In metric (listed_metrics pages) ->
     retained metric = true ->
     answered session region_name clock metric statistics ->
     CloudWatch.Datapoints statistics = [] ->
     result (get_bucket_size session account_id region_name bucket_name)
       clock
     = Raised (IndexError "list index out of range"))
  /\ (Forall (fun metric => has_storage_type metric = true)
        (listed_metrics pages) ->
      Forall (fun metric =>
                retained metric = true ->
                forall statistics,
                  answered session region_name clock metric statistics ->
                  CloudWatch.Datapoints statistics <> [])
        (listed_metrics pages) ->
      exists records,
        result (get_bucket_size session account_id region_name bucket_name)
          clock = Returned records
        /\ forall metric storage_type statistics datapoint later average,
             In metric (listed_metrics pages) ->
             metric_storage_type metric = Some storage_type ->
             In storage_type backup_storage_types ->
             answered session region_name clock metric statistics ->
             CloudWatch.Datapoints statistics = datapoint :: later ->
             CloudWatch.Average datapoint = Some average ->
             In {| account_id := account_id;
                   region_name := region_name;
                   resource_key := bucket_name ++ "::" ++ storage_type;
                   size_bytes := average |} records).
Proof.
  intros Hloc Hregion Hpages Hall.
  pose proof (get_bucket_size_listed session account_id region_name
                bucket_name clock location pages Hloc Hregion Hpages) as Hg.
  cbv zeta in Hg. split.
  - intros metric statistics Hin Hret Hans Hnil.
    unfold result, run. rewrite Hg.
    destruct (forallb has_storage_type (listed_metrics pages)).
    + match goal with |- fst (let '(r, w) := ?m in _) = _ =>
        assert (Hfst : fst m = Raised index_error) end.
      { apply collect_metrics_index_error; [exact Hall|].
        apply Exists_exists. exists metric.
        split; [exact Hin|]. split; [exact Hret|]. now exists statistics. }
      match goal with |- fst (let '(r, w) := ?m in _) = _ =>
        destruct m as [r w] end.
      cbn in Hfst |- *. exact Hfst.
    + reflexivity.
  - intros Hclass Hdata.
    assert (Hwell : Forall (well_answered session region_name clock)
                      (listed_metrics pages)).
    { rewrite Forall_forall in Hall, Hdata |- *. intros metric Hin.
      destruct (Hall metric Hin) as (answer & Hans & Havg).
      exists answer. split; [exact Hans|]. intros Hret.
      destruct (CloudWatch.Datapoints answer) as [|datapoint others] eqn:Hd.
      - now destruct (Hdata metric Hin Hret answer Hans).
      - destruct (CloudWatch.Average datapoint) as [average|] eqn:Ha.
        + now exists datapoint, others, average.
        + now destruct (Havg datapoint others eq_refl). }
    destruct (collect_metrics_returned session account_id region_name
                bucket_name clock (listed_metrics pages) []
                {| wall_clock := clock;
                   trace := [ GetBucketLocation region_name bucket_name;
                              ListMetricsPaginate region_name
                                (bucket_size_metrics_request bucket_name) ]
                |} Hwell) as (records & Hrun & Hrec).
    assert (Hfor : forallb has_storage_type (listed_metrics pages) = true).
    { apply forallb_forall. now apply Forall_forall. }
    rewrite Hfor, Hrun in Hg.
    exists records. split; [apply (run_eq _ _ _ _ Hg)|].
    intros metric storage_type statistics datapoint later average
      Hin Hclass' Hallow Hans Hd Ha.
    assert (Hkept : In metric (filter retained (listed_metrics pages))).
    { apply filter_In. split; [exact Hin|]. unfold retained.
      rewrite Hclass'. now apply str_in_In. }
    destruct (Forall2_in_left _ _ _ _ Hrec Hkept) as (record & Hinr & Hone).
    destruct Hone as (st & statistics' & dp & more & avg
                      & Hst & _ & Hans' & Hd' & Ha' & ->).
    unfold answered in Hans, Hans'. rewrite Hans in Hans'.
    injection Hans' as <-. rewrite Hd in Hd'. injection Hd' as <- <-.
    rewrite Ha in Ha'. injection Ha' as <-.
    rewrite Hclass' in Hst. injection Hst as <-. exact Hinr.
Qed.

Lemma bucket_empty_datapoints_index_error_witness :
  result (get_bucket_size empty_tier_bucket "acct" "eu-west-1" "photos")
    two_days_in
  = Raised (IndexError "list index out of range").
Proof.
  destruct (bucket_empty_datapoints_index_error empty_tier_bucket "acct"
              "eu-west-1" "photos" two_days_in
              {| S3.LocationConstraint := Some "eu-west-1" |} photos_pages)
    as [Hempty _].
  - reflexivity.
  - reflexivity.
  - reflexivity.
  - repeat constructor;
      (eexists; split;
       [reflexivity
       | intros datapoint others [= <- <-] + intros datapoint others [=];
         discriminate]).
  - apply (Hempty (bucket_metric "photos" "StandardIAStorage")
             {| CloudWatch.Datapoints := [] |}).
    + cbn. right. right. left. reflexivity.
    + reflexivity.
    + reflexivity.
    + reflexivity.
Defined.

(** ** Object-storage buckets: which statistics queries are issued *)

(** C10, as stated, fails: on the bucket with a "GlacierStorage" metric
    the lookup queries the statistics of that metric too, although the
    allow-list does not retain it. *)
Lemma statistics_issued_for_glacier :
  ~ statistics_only_for_retained photos_bucket "acct" "eu-west-1" "photos"
      two_days_in photos_pages.
Proof.
  intros Honly.
  specialize (Honly (bucket_metric "photos" "GlacierStorage")).
  assert (Hret : retained (bucket_metric "photos" "GlacierStorage") = true).
  { apply Honly.
    - cbn. right. left. reflexivity.
    - cbn. right. right. right. left. reflexivity. }
  discriminate Hret.
Qed.

(** The collection loop queries the listed metrics one after the other,
    whatever their storage class, and stops only where an iteration
    raises. *)
Lemma collect_metrics_trace
  (session : Session) (account_id region_name bucket_name : string)
  (clock : datetime)
  (metrics : list CloudWatch.Metric) (acc : list SizeRecord) w r w' :
  for_each (map metric_entry metrics)
    (collect_metric session account_id region_name bucket_name
       (clock - timedelta_days 2) clock (timedelta_days 2))
    acc w = (r, w') ->
  exists n,
    trace w'
    = trace w ++ map (statistics_call region_name clock) (firstn n metrics)
    /\ (forall records, r = Returned records -> firstn n metrics = metrics).
Proof.
  revert acc w. induction metrics as [|metric metrics IH]; intros acc w Hrun.
  - exists 0%nat. cbn in Hrun |- *. injection Hrun as <- <-.
    rewrite app_nil_r. now split.
  - cbn [map for_each] in Hrun. unfold bind at 1 in Hrun.
    unfold collect_metric at 1 in Hrun.
    rewrite (surjective_pairing (metric_entry metric)) in Hrun.
    cbn [snd metric_entry] in Hrun.
    change (bucket_size_bytes_request (CloudWatch.MetricDimensions metric)
              (clock - timedelta_days 2) clock (timedelta_days 2))
      with (statistics_request clock (CloudWatch.MetricDimensions metric))
      in Hrun.
    fold (statistics_call region_name clock metric) in Hrun.
    assert (Hstop : forall e : exn,
              (@Raised (list SizeRecord) e,
               {| wall_clock := wall_clock w;
                  trace := trace w
                           ++ [statistics_call region_name clock metric] |})
              = (r, w') ->
              exists n,
                trace w'
                = trace w
                  ++ map (statistics_call region_name clock)
                       (firstn n (metric :: metrics))
                /\ (forall records,
                      r = Returned records ->
                      firstn n (metric :: metrics) = metric :: metrics)).
    { intros e [= <- <-]. exists 1%nat. cbn.
      split; [reflexivity | discriminate]. }
    assert (Hnext : forall acc',
              for_each (map metric_entry metrics)
                (collect_metric session account_id region_name
                   bucket_name (clock - timedelta_days 2) clock
                   (timedelta_days 2)) acc'
                {| wall_clock := wall_clock w;
                   trace := trace w
                            ++ [statistics_call region_name clock metric] |}
              = (r, w') ->
              exists n,
                trace w'
                = trace w
                  ++ map (statistics_call region_name clock)
                       (firstn n (metric :: metrics))
                /\ (forall records,
                      r = Returned records ->
                      firstn n (metric :: metrics) = metric :: metrics)).
    { intros acc' Hrest. destruct (IH _ _ Hrest) as (n & Htrace & Hall).
      exists (S n). cbn [firstn map]. split.
      - rewrite Htrace. cbn [trace]. rewrite <- app_assoc. reflexivity.
      - intros records Hr. f_equal. now apply (Hall records). }
    destruct (get_metric_statistics session region_name
                (statistics_request clock
                   (CloudWatch.MetricDimensions metric)))
      as [statistics | message] eqn:Hans.
    + rewrite (run_invoke_reply _ _ _ _ _ eq_refl) in Hrun.
      destruct (str_in (fst (metric_entry metric)) backup_storage_types).
      * destruct (CloudWatch.Datapoints statistics) as [|datapoint others].
        -- now apply (Hstop index_error).
        -- cbn [index0] in Hrun. unfold bind at 1, ret at 1 in Hrun.
           destruct (CloudWatch.Average datapoint) as [average|].
           ++ cbn [subscript] in Hrun.
              unfold bind at 1, ret at 1 2 in Hrun.
              now apply (Hnext _ Hrun).
           ++ now apply (Hstop (KeyError "Average")).
      * unfold ret at 1 in Hrun. now apply (Hnext _ Hrun).
    + rewrite (run_invoke_fault _ _ _ _ _ eq_refl) in Hrun.
      now apply (Hstop (ClientError message)).
Qed.

Example statistics_request_window :
  statistics_request two_days_in [dimension "BucketName" "photos"] =
  {| CloudWatch.Namespace := "AWS/S3";
     CloudWatch.MetricName := "BucketSizeBytes";
     CloudWatch.Dimensions := [dimension "BucketName" "photos"];
     CloudWatch.StartTime := 0;
     CloudWatch.EndTime := 172800000000;
     CloudWatch.Statistics := ["Average"];
     CloudWatch.Period := 172800;
     CloudWatch.Unit := "Bytes" |}.
Proof. reflexivity. Qed.

(** ** Unit conversions across the lookups *)

(** C1. Where a lookup converts units, the factor is exact: the GiB sizes
    of compute volumes, relational clusters and relational instances are
    multiplied by 1024^3, the MiB size of the latest data-warehouse
    snapshot by 1024^2; the sizes the provider gives in bytes (file-system
    SizeInBytes, table TableSizeBytes, the bucket metric Averages, the
    aurora metric Maximum, once made an integer) are returned with no
    factor applied. *)
Theorem unit_conversions
  (session : Session) (account_id region_name identifier : string)
  (clock : datetime) :
  (forall instances response,
     describe_instances session region_name [identifier] = Reply instances ->
     describe_volumes session region_name (instance_volume_ids instances)
       = Reply response ->
     exists records,
       result (get_ec2_instance_size session account_id region_name
                 identifier) clock = Returned records
       /\ map size_bytes records
          = map (fun volume => PyInt (EC2.Size volume * 1024 ^ 3))
              (get_or_empty (EC2.Volumes response)))
  /\ (forall response cluster others,
        describe_db_clusters session region_name identifier
          = Reply response ->
        RDS.DBClusters response = cluster :: others ->
        String.prefix "aurora-" (RDS.Engine cluster) = false ->
        result (get_rds_cluster_size session account_id region_name
                  identifier) clock
        = Returned
            {| account_id := account_id;
               region_name := region_name;
               resource_key := identifier;
               size_bytes := PyInt (RDS.AllocatedStorage cluster * 1024 ^ 3)
            |})
  /\ (forall response instance others,
        describe_db_instances session region_name identifier
          = Reply response ->
        RDS.DBInstances response = instance :: others ->
        result (get_rds_instance_size session account_id region_name
                  identifier) clock
        = Returned
            {| account_id := account_id;
               region_name := region_name;
               resource_key := identifier;
               size_bytes :=
                 PyInt (RDS.InstanceAllocatedStorage instance * 1024 ^ 3) |})
  /\ (forall response,
        describe_cluster_snapshots session region_name
          (cluster_snapshots_request identifier (clock - timedelta_days 7))
          = Reply response ->
        Redshift.Snapshots response <> [] ->
        Forall (fun snapshot =>
                  py_valid (Redshift.TotalBackupSizeInMegaBytes snapshot)
                  = true)
          (Redshift.Snapshots response) ->
        exists last_snapshot size,
          In last_snapshot (Redshift.Snapshots response)
          /\ result (get_redshift_cluster_size session account_id
                       region_name identifier) clock
             = Returned {| account_id := account_id;
                           region_name := region_name;
                           resource_key := identifier;
                           size_bytes := size |}
          /\ scaled 20 (Redshift.TotalBackupSizeInMegaBytes last_snapshot)
               size
          /\ 2 ^ 20 = MiB)
  /\ (forall response file_system others,
        describe_file_systems session region_name identifier
          = Reply response ->
        EFS.FileSystems response = file_system :: others ->
        result (get_efs_file_system_size session account_id region_name
                  identifier) clock
        = Returned
            {| account_id := account_id;
               region_name := region_name;
               resource_key := identifier;
               size_bytes := PyInt (EFS.Value (EFS.SizeInBytes file_system))
            |})
  /\ (forall response,
        describe_table session region_name identifier = Reply response ->
        result (get_dynamodb_table_size session account_id region_name
                  identifier) clock
        = Returned
            {| account_id := account_id;
               region_name := region_name;
               resource_key := identifier;
               size_bytes :=
                 PyInt (DynamoDB.TableSizeBytes (DynamoDB.Table response))
            |})
  /\ (forall location pages,
        get_bucket_location session region_name identifier
          = Reply location ->
        declared_region location = region_name ->
        list_metrics_paginate session region_name
          (bucket_size_metrics_request identifier) = Reply pages ->
        Forall (fun metric => has_storage_type metric = true)
          (listed_metrics pages) ->
        Forall (well_answered session region_name clock)
          (listed_metrics pages) ->
        exists records,
          result (get_bucket_size session account_id region_name identifier)
            clock = Returned records
          /\ Forall2
               (fun metric record =>
                  exists statistics datapoint others,
                    answered session region_name clock metric statistics
                    /\ CloudWatch.Datapoints statistics = datapoint :: others
                    /\ CloudWatch.Average datapoint
                       = Some (size_bytes record))
               (filter retained (listed_metrics pages)) records)
  /\ (forall response cluster others statistics,
        describe_db_clusters session region_name identifier
          = Reply response ->
        RDS.DBClusters response = cluster :: others ->
        String.prefix "aurora-" (RDS.Engine cluster) = true ->
        get_metric_statistics session region_name
          (volume_bytes_used_request identifier
             (clock - timedelta_minutes 30) clock (timedelta_minutes 30))
          = Reply statistics ->
        CloudWatch.Datapoints statistics <> [] ->
        Forall (fun d => exists maximum,
                  CloudWatch.Maximum d = Some maximum
                  /\ py_finite maximum = true)
          (CloudWatch.Datapoints statistics) ->
        exists datapoint maximum size,
          In datapoint (CloudWatch.Datapoints statistics)
          /\ CloudWatch.Maximum datapoint = Some maximum
          /\ truncation maximum size
          /\ (forall bytes, maximum = PyInt bytes -> size = bytes)
          /\ result (get_rds_cluster_size session account_id region_name
                       identifier) clock
             = Returned {| account_id := account_id;
                           region_name := region_name;
                           resource_key := identifier;
                           size_bytes := PyInt size |}).
Proof.
  repeat apply conj.
  - intros instances response Hinst Hvol.
    eexists. split.
    + unfold result.
      rewrite (get_ec2_instance_size_run _ _ _ _ _ _ _ Hinst Hvol).
      reflexivity.
    + rewrite map_map. apply map_ext. intros volume.
      cbn [ec2_volume_record size_bytes]. f_equal. lia.
  - intros response cluster others Hc Hl Hp.
    unfold result, run, get_rds_cluster_size.
    rewrite (run_invoke_reply _ _ _ _ _ Hc), Hl, Hp. cbn -[Z.mul Z.pow].
    do 3 f_equal. lia.
  - intros response instance others Hi Hl.
    unfold result, run, get_rds_instance_size.
    rewrite (run_invoke_reply _ _ _ _ _ Hi), Hl. cbn -[Z.mul Z.pow].
    do 3 f_equal. lia.
  - intros response Hsnap Hne Hvalid.
    rewrite (get_redshift_cluster_size_run _ _ _ _ _ _ Hsnap).
    destruct (sorted_reverse_cons Redshift.SnapshotCreateTime _ Hne)
      as (last_snapshot & rest & Hsorted).
    destruct (sorted_reverse_head_latest _ _ _ _ Hsorted) as [Hin _].
    rewrite Hsorted. exists last_snapshot. eexists.
    split; [exact Hin|]. split; [reflexivity|]. split; [|reflexivity].
    apply py_mul_1024_twice.
    rewrite Forall_forall in Hvalid. now apply Hvalid.
  - intros response file_system others Hf Hl.
    unfold result, run, get_efs_file_system_size.
    rewrite (run_invoke_reply _ _ _ _ _ Hf), Hl. reflexivity.
  - intros response Ht.
    unfold result, run, get_dynamodb_table_size.
    rewrite (run_invoke_reply _ _ _ _ _ Ht). reflexivity.
  - intros location pages Hloc Hregion Hpages Hclass Hans.
    destruct (collect_metrics_returned session account_id region_name
                identifier clock (listed_metrics pages) []
                {| wall_clock := clock;
                   trace := [ GetBucketLocation region_name identifier;
                              ListMetricsPaginate region_name
                                (bucket_size_metrics_request identifier) ] |}
                Hans) as (records & Hrun & Hrec).
    assert (Hfor : forallb has_storage_type (listed_metrics pages) = true).
    { apply forallb_forall. now apply Forall_forall. }
    pose proof (get_bucket_size_listed session account_id region_name
                  identifier clock location pages Hloc Hregion Hpages) as Hg.
    cbv zeta in Hg. rewrite Hfor, Hrun in Hg.
    exists records. split; [apply (run_eq _ _ _ _ Hg)|].
    clear Hrun Hg. induction Hrec as [|metric record ms rs Hone _ IH];
      constructor; [|exact IH].
    destruct Hone as (st & statistics & datapoint & more & average
                      & _ & _ & Hanswer & Hd & Ha & ->).
    now exists statistics, datapoint, more.
  - intros response cluster others statistics Hc Hl Hp Hs Hne Hall.
    destruct (get_rds_cluster_size_aurora session account_id region_name
                identifier clock response cluster others statistics
                Hc Hl Hp Hs Hne Hall)
      as (datapoint & rest & maximum & size & Hsorted & Hmax & Htrunc
          & Hrun).
    destruct (sorted_reverse_head_latest _ _ _ _ Hsorted) as [Hin _].
    exists datapoint, maximum, size.
    repeat (split; [assumption|]). split.
    + intros bytes ->. exact Htrunc.
    + unfold result. rewrite Hrun. reflexivity.
Qed.

Lemma unit_conversions_witness :
  result (get_efs_file_system_size inventory_session "acct" "eu-west-1"
            "resource") 0
  = Returned {| account_id := "acct"; region_name := "eu-west-1";
                resource_key := "resource"; size_bytes := PyInt 6144 |}
  /\ result (get_rds_instance_size inventory_session "acct" "eu-west-1"
               "resource") 0
     = Returned {| account_id := "acct"; region_name := "eu-west-1";
                   resource_key := "resource";
                   size_bytes := PyInt (200 * 1024 ^ 3) |}
  /\ exists size,
       result (get_redshift_cluster_size inventory_session "acct"
                 "eu-west-1" "resource") 0
       = Returned {| account_id := "acct"; region_name := "eu-west-1";
                     resource_key := "resource"; size_bytes := size |}
       /\ scaled 20 (PyFloat float_1536_75) size.
Proof.
  destruct (unit_conversions inventory_session "acct" "eu-west-1" "resource"
              0)
    as (_ & _ & Hinstance & Hwarehouse & Hefs & _).
  split; [|split].
  - apply (Hefs {| EFS.FileSystems :=
                     [{| EFS.SizeInBytes := {| EFS.Value := 6144 |} |}] |}
             {| EFS.SizeInBytes := {| EFS.Value := 6144 |} |} []);
      reflexivity.
  - apply (Hinstance
             {| RDS.DBInstances :=
                  [{| RDS.InstanceAllocatedStorage := 200 |}] |}
             {| RDS.InstanceAllocatedStorage := 200 |} []);
      reflexivity.
  - destruct (Hwarehouse {| Redshift.Snapshots := warehouse_snapshots |})
      as (last_snapshot & size & _ & Hrun & _ & _).
    + reflexivity.
    + discriminate.
    + repeat constructor.
    + exists size. split; [exact Hrun|].
      injection Hrun as <-. cbn. repeat split. lia.
Defined.

(** * Further properties of the lookups *)

(** ** Single-record lookups *)

(** X1. On a cluster whose engine name does not start with "aurora-",
    [get_rds_cluster_size] returns the AllocatedStorage of the cluster at
    index 0 times 1024^3 and issues the cluster query alone: the monitoring
    backend is not called, and the other clusters of the answer are not
    read. *)
Theorem rds_provisioned_without_metrics
  (session : Session) (account_id region_name db_cluster_identifier : string)
  (clock : datetime)
  (response : RDS.DescribeDBClustersResult)
  (cluster : RDS.DBCluster) (others : list RDS.DBCluster) :
  describe_db_clusters session region_name db_cluster_identifier
    = Reply response ->
  RDS.DBClusters response = cluster :: others ->
  String.prefix "aurora-" (RDS.Engine cluster) = false ->
  run (get_rds_cluster_size session account_id region_name
         db_cluster_identifier) clock
  = (Returned {| account_id := account_id;
                 region_name := region_name;
                 resource_key := db_cluster_identifier;
                 size_bytes := PyInt (RDS.AllocatedStorage cluster * GiB) |},
     [DescribeDBClusters region_name db_cluster_identifier]).
Proof.
  intros Hc Hl Hp. unfold run, get_rds_cluster_size.
  rewrite (run_invoke_reply _ _ _ _ _ Hc), Hl, Hp.
  cbn -[Z.mul Z.pow GiB]. do 4 f_equal. unfold GiB. lia.
Qed.

Lemma rds_provisioned_without_metrics_witness :
  run (get_rds_cluster_size legacy_aurora_session "acct" "eu-west-1" "db-1")
    0
  = (Returned {| account_id := "acct"; region_name := "eu-west-1";
                 resource_key := "db-1"; size_bytes := PyInt (1 * GiB) |},
     [DescribeDBClusters "eu-west-1" "db-1"]).
Proof.
  apply (rds_provisioned_without_metrics legacy_aurora_session "acct"
           "eu-west-1" "db-1" 0
           {| RDS.DBClusters :=
                [{| RDS.Engine := "aurora"; RDS.AllocatedStorage := 1 |};
                 {| RDS.Engine := "aurora-mysql";
                    RDS.AllocatedStorage := 7 |}] |}
           {| RDS.Engine := "aurora"; RDS.AllocatedStorage := 1 |}
           [{| RDS.Engine := "aurora-mysql"; RDS.AllocatedStorage := 7 |}]);
    reflexivity.
Defined.

(** X2. [get_rds_instance_size] issues the one instance query whatever
    happens.  It raises its not-found error exactly when the provider
    answers with an empty instance list, raises the provider's fault when
    the query faults, and otherwise returns the AllocatedStorage of the
    instance at index 0 times 1024^3. *)
Theorem rds_instance_lookup
  (session : Session) (account_id region_name db_instance_identifier : string)
  (clock : datetime) :
  let outcome :=
    result (get_rds_instance_size session account_id region_name
              db_instance_identifier) clock in
  calls (get_rds_instance_size session account_id region_name
           db_instance_identifier) clock
  = [DescribeDBInstances region_name db_instance_identifier]
  /\ (outcome
      = Raised (Exception
                  ("DB Instance " ++ db_instance_identifier
                   ++ " was not found"))
      <-> exists response,
            describe_db_instances session region_name db_instance_identifier
              = Reply response
            /\ RDS.DBInstances response = [])
  /\ (forall message,
        describe_db_instances session region_name db_instance_identifier
          = Fault message ->
        outcome = Raised (ClientError message))
  /\ (forall response instance others,
        describe_db_instances session region_name db_instance_identifier
          = Reply response ->
        RDS.DBInstances response = instance :: others ->
        outcome
        = Returned
            {| account_id := account_id;
               region_name := region_name;
               resource_key := db_instance_identifier;
               size_bytes :=
                 PyInt (RDS.InstanceAllocatedStorage instance * GiB) |}).
Proof.
  intros outcome. subst outcome.
  unfold calls, result, run, get_rds_instance_size.
  destruct (describe_db_instances session region_name db_instance_identifier)
    as [response | message] eqn:Hi.
  - rewrite (run_invoke_reply _ _ _ _ _ eq_refl).
    destruct (RDS.DBInstances response) as [|instance others] eqn:Hl.
    + cbn. repeat split; try discriminate.
      * intros _. exists response. now split.
      * intros ? ? ? [= <-]. rewrite Hl. discriminate.
    + cbn -[Z.mul Z.pow GiB]. repeat split; try discriminate.
      * intros (response' & [= <-] & Hnil). rewrite Hl in Hnil.
        discriminate.
      * intros ? ? ? [= <-]. rewrite Hl. intros [= <- <-].
        do 3 f_equal. unfold GiB. lia.
  - rewrite (run_invoke_fault _ _ _ _ _ eq_refl). cbn.
    repeat split; try discriminate.
    + intros (response & Hr & _). discriminate.
    + now intros ? [= <-].
Qed.

Lemma rds_instance_lookup_witness :
  result (get_rds_instance_size inventory_session "acct" "eu-west-1" "db-2")
    0
  = Returned {| account_id := "acct"; region_name := "eu-west-1";
                resource_key := "db-2"; size_bytes := PyInt (200 * GiB) |}
  /\ result (get_rds_instance_size missing_bucket "acct" "eu-west-1" "db-2")
       0
     = Raised (ClientError "EndpointConnectionError: DescribeDBInstances").
Proof.
  split.
  - destruct (rds_instance_lookup inventory_session "acct" "eu-west-1"
                "db-2" 0) as (_ & _ & _ & Hfound).
    apply (Hfound {| RDS.DBInstances :=
                       [{| RDS.InstanceAllocatedStorage := 200 |}] |}
             {| RDS.InstanceAllocatedStorage := 200 |} []); reflexivity.
  - destruct (rds_instance_lookup missing_bucket "acct" "eu-west-1" "db-2" 0)
      as (_ & _ & Hfault & _).
    apply Hfault. reflexivity.
Defined.

(** X3. [get_efs_file_system_size] issues the one file-system query whatever
    happens.  It raises its could-not-be-found error, which names the file
    system and the region, exactly when the provider answers with an empty
    list, raises the provider's fault when the query faults, and otherwise
    returns the SizeInBytes value of the file system at index 0 as it is. *)
Theorem efs_file_system_lookup
  (session : Session) (account_id region_name file_system_id : string)
  (clock : datetime) :
  let outcome :=
    result (get_efs_file_system_size session account_id region_name
              file_system_id) clock in
  calls (get_efs_file_system_size session account_id region_name
           file_system_id) clock
  = [DescribeFileSystems region_name file_system_id]
  /\ (outcome
      = Raised (Exception
                  ("File system " ++ file_system_id ++ " in region "
                   ++ region_name ++ " could not be found"))
      <-> exists response,
            describe_file_systems session region_name file_system_id
              = Reply response
            /\ EFS.FileSystems response = [])
  /\ (forall message,
        describe_file_systems session region_name file_system_id
          = Fault message ->
        outcome = Raised (ClientError message))
  /\ (forall response file_system others,
        describe_file_systems session region_name file_system_id
          = Reply response ->
        EFS.FileSystems response = file_system :: others ->
        outcome
        = Returned
            {| account_id := account_id;
               region_name := region_name;
               resource_key := file_system_id;
               size_bytes := PyInt (EFS.Value (EFS.SizeInBytes file_system))
            |}).
Proof.
  intros outcome. subst outcome.
  unfold calls, result, run, get_efs_file_system_size.
  destruct (describe_file_systems session region_name file_system_id)
    as [response | message] eqn:Hf.
  - rewrite (run_invoke_reply _ _ _ _ _ eq_refl).
    destruct (EFS.FileSystems response) as [|file_system others] eqn:Hl.
    + cbn. repeat split; try discriminate.
      * intros _. exists response. now split.
      * intros ? ? ? [= <-]. rewrite Hl. discriminate.
    + cbn. repeat split; try discriminate.
      * intros (response' & [= <-] & Hnil). rewrite Hl in Hnil.
        discriminate.
      * intros ? ? ? [= <-]. rewrite Hl. now intros [= <- <-].
  - rewrite (run_invoke_fault _ _ _ _ _ eq_refl). cbn.
    repeat split; try discriminate.
    + intros (response & Hr & _). discriminate.
    + now intros ? [= <-].
Qed.

Lemma efs_file_system_lookup_witness :
  result (get_efs_file_system_size empty_efs_session "acct" "eu-west-1"
            "fs-1") 0
  = Raised (Exception
              "File system fs-1 in region eu-west-1 could not be found").
Proof.
  destruct (efs_file_system_lookup empty_efs_session "acct" "eu-west-1"
              "fs-1" 0) as (_ & Hmissing & _).
  apply Hmissing. exists {| EFS.FileSystems := [] |}. split; reflexivity.
Defined.

(** X4. [get_dynamodb_table_size] makes no not-found check: it issues the
    one table query whatever happens, returns the TableSizeBytes of the
    table in the answer as it is when the provider answers, and raises the
    provider's fault when the query faults. *)
Theorem dynamodb_table_lookup
  (session : Session) (account_id region_name table_name : string)
  (clock : datetime) :
  let outcome :=
    result (get_dynamodb_table_size session account_id region_name
              table_name) clock in
  calls (get_dynamodb_table_size session account_id region_name table_name)
    clock
  = [DescribeTable region_name table_name]
  /\ (forall response,
        describe_table session region_name table_name = Reply response ->
        outcome
        = Returned
            {| account_id := account_id;
               region_name := region_name;
               resource_key := table_name;
               size_bytes :=
                 PyInt (DynamoDB.TableSizeBytes (DynamoDB.Table response))
            |})
  /\ (forall message,
        describe_table session region_name table_name = Fault message ->
        outcome = Raised (ClientError message)).
Proof.
  intros outcome. subst outcome.
  unfold calls, result, run, get_dynamodb_table_size.
  destruct (describe_table session region_name table_name)
    as [response | message] eqn:Ht.
  - rewrite (run_invoke_reply _ _ _ _ _ eq_refl). cbn.
    repeat split; try discriminate. now intros ? [= <-].
  - rewrite (run_invoke_fault _ _ _ _ _ eq_refl). cbn.
    repeat split; try discriminate. now intros ? [= <-].
Qed.

Lemma dynamodb_table_lookup_witness :
  result (get_dynamodb_table_size inventory_session "acct" "eu-west-1"
            "orders") 0
  = Returned {| account_id := "acct"; region_name := "eu-west-1";
                resource_key := "orders"; size_bytes := PyInt 12345 |}
  /\ result (get_dynamodb_table_size missing_bucket "acct" "eu-west-1"
               "orders") 0
     = Raised (ClientError "EndpointConnectionError: DescribeTable").
Proof.
  split.
  - destruct (dynamodb_table_lookup inventory_session "acct" "eu-west-1"
                "orders" 0) as (_ & Hfound & _).
    apply (Hfound
             {| DynamoDB.Table := {| DynamoDB.TableSizeBytes := 12345 |} |}).
    reflexivity.
  - destruct (dynamodb_table_lookup missing_bucket "acct" "eu-west-1"
                "orders" 0) as (_ & _ & Hfault).
    apply Hfault. reflexivity.
Defined.

(** ** The latest element and the order of an answer *)

Section LatestElement.
Context {A : Type} (key : A -> Z).

(** The first element of a list that carries the greatest key is what
    the descending sort puts at index 0. *)
Lemma sorted_reverse_first_greatest (before after : list A) (x : A) :
  (forall y, In y before -> key y < key x) ->
  (forall y, In y after -> key y <= key x) ->
  exists rest, sorted_reverse key (before ++ x :: after) = x :: rest.
Proof.
  intros Hbefore Hafter. induction before as [|b before IH].
  - cbn [app sorted_reverse fold_right].
    fold (sorted_reverse key after).
    destruct (sorted_reverse key after) as [|y rest] eqn:Hs.
    + now exists [].
    + destruct (sorted_reverse_head_latest key _ _ _ Hs) as [Hin _].
      cbn [insert_reverse].
      destruct (Z.ltb_spec (key x) (key y)) as [Hlt | _].
      * specialize (Hafter y Hin). lia.
      * now exists (y :: rest).
  - destruct IH as [rest Hrest].
    { intros y Hy. apply Hbefore. now right. }
    cbn [app sorted_reverse fold_right].
    fold (sorted_reverse key (before ++ x :: after)).
    rewrite Hrest. cbn [insert_reverse].
    destruct (Z.ltb_spec (key b) (key x)) as [_ | Hge].
    + now exists (insert_reverse key b rest).
    + specialize (Hbefore b (or_introl eq_refl)). lia.
Qed.

Lemma distinct_keys_inj (l : list A) (a b : A) :
  NoDup (map key l) -> In a l -> In b l -> key a = key b -> a = b.
Proof.
  induction l as [|c l IH]; cbn [map]; intros Hnd Ha Hb Hkey.
  - destruct Ha.
  - apply NoDup_cons_iff in Hnd. destruct Hnd as [Hfresh Hnd].
    destruct Ha as [<- | Ha], Hb as [<- | Hb].
    + reflexivity.
    + exfalso. apply Hfresh. rewrite Hkey. now apply in_map.
    + exfalso. apply Hfresh. rewrite <- Hkey. now apply in_map.
    + now apply IH.
Qed.

(** With pairwise distinct keys, index 0 of the descending sort does not
    depend on the order of the input. *)
Lemma sorted_reverse_head_permutation (l l' : list A) :
  Permutation l l' ->
  NoDup (map key l) ->
  hd_error (sorted_reverse key l) = hd_error (sorted_reverse key l').
Proof.
  intros Hperm Hnd.
  destruct (sorted_reverse key l) as [|x rest] eqn:Hs;
    destruct (sorted_reverse key l') as [|x' rest'] eqn:Hs'.
  - reflexivity.
  - apply sorted_reverse_nil in Hs. subst l.
    apply Permutation_nil in Hperm. subst l'. discriminate.
  - apply sorted_reverse_nil in Hs'. subst l'.
    apply Permutation_sym, Permutation_nil in Hperm. subst l. discriminate.
  - destruct (sorted_reverse_head_latest key _ _ _ Hs) as [Hin Hmax].
    destruct (sorted_reverse_head_latest key _ _ _ Hs') as [Hin' Hmax'].
    cbn [hd_error]. f_equal.
    apply (distinct_keys_inj l); try assumption.
    + apply (Permutation_in _ (Permutation_sym Hperm) Hin').
    + pose proof (Hmax x' (Permutation_in _ (Permutation_sym Hperm) Hin')).
      pose proof (Hmax' x (Permutation_in _ Hperm Hin)). lia.
Qed.
End LatestElement.

(** ** The aurora path, by the latest datapoint *)

Lemma py_int_run (x : pynum) w : py_int x w = (int_of x, w).
Proof. now destruct x as [z | [s | s | | s m e]]. Qed.

Lemma get_rds_cluster_size_aurora_run
  (session : Session) (account_id region_name db_cluster_identifier : string)
  (clock : datetime)
  (response : RDS.DescribeDBClustersResult)
  (cluster : RDS.DBCluster) (others : list RDS.DBCluster) :
  describe_db_clusters session region_name db_cluster_identifier
    = Reply response ->
  RDS.DBClusters response = cluster :: others ->
  String.prefix "aurora-" (RDS.Engine cluster) = true ->
  run (get_rds_cluster_size session account_id region_name
         db_cluster_identifier) clock
  = (match get_metric_statistics session region_name
             (volume_bytes_used_request db_cluster_identifier
                (clock - timedelta_minutes 30) clock (timedelta_minutes 30))
     with
     | Fault message => Raised (ClientError message)
     | Reply statistics =>
         match sorted_reverse CloudWatch.Timestamp
                 (CloudWatch.Datapoints statistics) with
         | [] =>
             Raised (Exception (rds_metric_not_found db_cluster_identifier))
         | datapoint :: _ =>
             match CloudWatch.Maximum datapoint with
             | None => Raised (KeyError "Maximum")
             | Some maximum =>
                 match int_of maximum with
                 | Returned size =>
                     Returned {| account_id := account_id;
                                 region_name := region_name;
                                 resource_key := db_cluster_identifier;
                                 size_bytes := PyInt size |}
                 | Raised exc => Raised exc
                 end
             end
         end
     end,
     [ DescribeDBClusters region_name db_cluster_identifier;
       GetMetricStatistics region_name
         (volume_bytes_used_request db_cluster_identifier
            (clock - timedelta_minutes 30) clock (timedelta_minutes 30)) ]).
Proof.
  intros Hc Hl Hp. unfold run, get_rds_cluster_size.
  rewrite (run_invoke_reply _ _ _ _ _ Hc), Hl, Hp. cbn [negb].
  rewrite run_datetime_now. cbn [wall_clock].
  destruct (get_metric_statistics _ _ _) as [statistics | message] eqn:Hs.
  - rewrite (run_invoke_reply _ _ _ _ _ eq_refl).
    destruct (CloudWatch.Datapoints statistics) as [|d0 ds] eqn:Hd.
    + reflexivity.
    + destruct (sorted_reverse_cons CloudWatch.Timestamp (d0 :: ds))
        as (datapoint & rest & ->); [discriminate|].
      cbn [index0]. unfold bind at 1. cbn [ret].
      destruct (CloudWatch.Maximum datapoint) as [maximum|].
      * cbn [subscript]. unfold bind at 1. cbn [ret].
        unfold bind. rewrite py_int_run.
        now destruct (int_of maximum).
      * reflexivity.
  - rewrite (run_invoke_fault _ _ _ _ _ eq_refl). reflexivity.
Qed.

(** X5. On the aurora path only the latest datapoint is read: the first
    datapoint of the answer that carries the greatest timestamp decides the
    outcome alone.  Without a Maximum it makes the lookup raise a
    [KeyError], with a NaN Maximum a [ValueError], with an infinite one an
    [OverflowError]; with a finite one the lookup returns its truncation,
    whatever the other datapoints carry. *)
Theorem rds_aurora_reads_latest_datapoint_only
  (session : Session) (account_id region_name db_cluster_identifier : string)
  (clock : datetime)
  (response : RDS.DescribeDBClustersResult)
  (cluster : RDS.DBCluster) (others : list RDS.DBCluster)
  (statistics : CloudWatch.GetMetricStatisticsResult)
  (before after : list CloudWatch.Datapoint)
  (datapoint : CloudWatch.Datapoint) :
  describe_db_clusters session region_name db_cluster_identifier
    = Reply response ->
  RDS.DBClusters response = cluster :: others ->
  String.prefix "aurora-" (RDS.Engine cluster) = true ->
  get_metric_statistics session region_name
    (volume_bytes_used_request db_cluster_identifier
       (clock - timedelta_minutes 30) clock (timedelta_minutes 30))
    = Reply statistics ->
  CloudWatch.Datapoints statistics = before ++ datapoint :: after ->
  (forall d, In d before ->
     CloudWatch.Timestamp d < CloudWatch.Timestamp datapoint) ->
  (forall d, In d after ->
     CloudWatch.Timestamp d <= CloudWatch.Timestamp datapoint) ->
  let outcome :=
    result (get_rds_cluster_size session account_id region_name
              db_cluster_identifier) clock in
  (CloudWatch.Maximum datapoint = None ->
   outcome = Raised (KeyError "Maximum"))
  /\ (CloudWatch.Maximum datapoint = Some (PyFloat S754_nan) ->
      outcome = Raised (ValueError "cannot convert float NaN to integer"))
  /\ (forall sign,
        CloudWatch.Maximum datapoint = Some (PyFloat (S754_infinity sign)) ->
        outcome
        = Raised (OverflowError "cannot convert float infinity to integer"))
  /\ (forall maximum,
        CloudWatch.Maximum datapoint = Some maximum ->
        py_finite maximum = true ->
        exists size,
          truncation maximum size
          /\ outcome
             = Returned {| account_id := account_id;
                           region_name := region_name;
                           resource_key := db_cluster_identifier;
                           size_bytes := PyInt size |}).
Proof.
  intros Hc Hl Hp Hs Hsplit Hbefore Hafter outcome.
  destruct (sorted_reverse_first_greatest CloudWatch.Timestamp before after
              datapoint Hbefore Hafter) as [rest Hsorted].
  assert (Hout : outcome =
                 match CloudWatch.Maximum datapoint with
                 | None => Raised (KeyError "Maximum")
                 | Some maximum =>
                     match int_of maximum with
                     | Returned size =>
                         Returned {| account_id := account_id;
                                     region_name := region_name;
                                     resource_key := db_cluster_identifier;
                                     size_bytes := PyInt size |}
                     | Raised exc => Raised exc
                     end
                 end).
  { subst outcome. unfold result.
    rewrite (get_rds_cluster_size_aurora_run _ _ _ _ _ _ _ _ Hc Hl Hp).
    rewrite Hs, Hsplit, Hsorted. reflexivity. }
  clearbody outcome. subst outcome. repeat split.
  - now intros ->.
  - now intros ->.
  - now intros sign ->.
  - intros maximum -> Hfin.
    destruct (py_int_truncation maximum Hfin) as (size & Htrunc & Hint).
    exists size. split; [exact Htrunc|].
    unfold int_of. now rewrite Hint.
Qed.

Lemma rds_aurora_reads_latest_datapoint_only_witness :
  exists size,
    truncation (PyFloat float_1536_75) size
    /\ result (get_rds_cluster_size ragged_aurora_session "acct" "eu-west-1"
                 "db-1") 1800000000
       = Returned {| account_id := "acct"; region_name := "eu-west-1";
                     resource_key := "db-1"; size_bytes := PyInt size |}.
Proof.
  destruct (rds_aurora_reads_latest_datapoint_only ragged_aurora_session
              "acct" "eu-west-1" "db-1" 1800000000
              {| RDS.DBClusters := [aurora_cluster] |} aurora_cluster []
              {| CloudWatch.Datapoints := ragged_datapoints |}
              [ {| CloudWatch.Timestamp := 100;
                   CloudWatch.Maximum := None;
                   CloudWatch.Average := None |} ]
              [ {| CloudWatch.Timestamp := 200;
                   CloudWatch.Maximum := Some (PyFloat S754_nan);
                   CloudWatch.Average := None |} ]
              {| CloudWatch.Timestamp := 300;
                 CloudWatch.Maximum := Some (PyFloat float_1536_75);
                 CloudWatch.Average := None |})
    as (_ & _ & _ & Hfinite).
  - reflexivity.
  - reflexivity.
  - reflexivity.
  - reflexivity.
  - reflexivity.
  - intros d [<- | []]. cbn. lia.
  - intros d [<- | []]. cbn. lia.
  - apply (Hfinite (PyFloat float_1536_75)); reflexivity.
Defined.

(** X6. On the aurora path the outcome does not depend on the order in
    which the provider lists the datapoints, as long as their timestamps
    are pairwise distinct: two answers that are permutations of each other
    give the same outcome. *)
Theorem rds_aurora_order_independent
  (session session' : Session)
  (account_id region_name db_cluster_identifier : string) (clock : datetime)
  (response : RDS.DescribeDBClustersResult)
  (cluster : RDS.DBCluster) (others : list RDS.DBCluster)
  (statistics statistics' : CloudWatch.GetMetricStatisticsResult) :
  describe_db_clusters session region_name db_cluster_identifier
    = Reply response ->
  describe_db_clusters session' region_name db_cluster_identifier
    = Reply response ->
  RDS.DBClusters response = cluster :: others ->
  String.prefix "aurora-" (RDS.Engine cluster) = true ->
  get_metric_statistics session region_name
    (volume_bytes_used_request db_cluster_identifier
       (clock - timedelta_minutes 30) clock (timedelta_minutes 30))
    = Reply statistics ->
  get_metric_statistics session' region_name
    (volume_bytes_used_request db_cluster_identifier
       (clock - timedelta_minutes 30) clock (timedelta_minutes 30))
    = Reply statistics' ->
  Permutation (CloudWatch.Datapoints statistics)
    (CloudWatch.Datapoints statistics') ->
  NoDup (map CloudWatch.Timestamp (CloudWatch.Datapoints statistics)) ->
  result (get_rds_cluster_size session account_id region_name
            db_cluster_identifier) clock
  = result (get_rds_cluster_size session' account_id region_name
              db_cluster_identifier) clock.
Proof.
  intros Hc Hc' Hl Hp Hs Hs' Hperm Hnd. unfold result.
  rewrite (get_rds_cluster_size_aurora_run _ _ _ _ _ _ _ _ Hc Hl Hp).
  rewrite (get_rds_cluster_size_aurora_run _ _ _ _ _ _ _ _ Hc' Hl Hp).
  rewrite Hs, Hs'. cbn [fst].
  pose proof (sorted_reverse_head_permutation CloudWatch.Timestamp _ _
                Hperm Hnd) as Hhead.
  destruct (sorted_reverse CloudWatch.Timestamp
              (CloudWatch.Datapoints statistics)),
    (sorted_reverse CloudWatch.Timestamp
       (CloudWatch.Datapoints statistics'));
    cbn [hd_error] in Hhead; try discriminate; [reflexivity|].
  now injection Hhead as <-.
Qed.

Lemma rds_aurora_order_independent_witness :
  result (get_rds_cluster_size aurora_session "acct" "eu-west-1" "db-1")
    1800000000
  = result (get_rds_cluster_size shuffled_aurora_session "acct" "eu-west-1"
              "db-1") 1800000000.
Proof.
  apply (rds_aurora_order_independent aurora_session shuffled_aurora_session
           "acct" "eu-west-1" "db-1" 1800000000
           {| RDS.DBClusters := [aurora_cluster] |} aurora_cluster []
           {| CloudWatch.Datapoints := aurora_datapoints |}
           {| CloudWatch.Datapoints := rev aurora_datapoints |});
    try reflexivity.
  - apply Permutation_rev.
  - repeat constructor; cbn; intuition discriminate.
Defined.

(** ** Data-warehouse clusters, continued *)

(** X7. The outcome of [get_redshift_cluster_size] does not depend on the
    order in which the provider lists the snapshots, as long as their
    creation times are pairwise distinct: the local sort makes two answers
    that are permutations of each other give the same outcome. *)
Theorem redshift_order_independent
  (session session' : Session)
  (account_id region_name cluster_identifier : string) (clock : datetime)
  (response response' : Redshift.DescribeClusterSnapshotsResult) :
  describe_cluster_snapshots session region_name
    (cluster_snapshots_request cluster_identifier
       (clock - timedelta_days 7)) = Reply response ->
  describe_cluster_snapshots session' region_name
    (cluster_snapshots_request cluster_identifier
       (clock - timedelta_days 7)) = Reply response' ->
  Permutation (Redshift.Snapshots response) (Redshift.Snapshots response') ->
  NoDup (map Redshift.SnapshotCreateTime (Redshift.Snapshots response)) ->
  result (get_redshift_cluster_size session account_id region_name
            cluster_identifier) clock
  = result (get_redshift_cluster_size session' account_id region_name
              cluster_identifier) clock.
Proof.
  intros Hs Hs' Hperm Hnd.
  rewrite (get_redshift_cluster_size_run _ _ _ _ _ _ Hs).
  rewrite (get_redshift_cluster_size_run _ _ _ _ _ _ Hs').
  pose proof (sorted_reverse_head_permutation Redshift.SnapshotCreateTime
                _ _ Hperm Hnd) as Hhead.
  destruct (sorted_reverse Redshift.SnapshotCreateTime
              (Redshift.Snapshots response)),
    (sorted_reverse Redshift.SnapshotCreateTime
       (Redshift.Snapshots response'));
    cbn [hd_error] in Hhead; try discriminate; [reflexivity|].
  now injection Hhead as <-.
Qed.

Lemma redshift_order_independent_witness :
  result (get_redshift_cluster_size warehouse_session "acct" "eu-west-1"
            "dw") seven_days_in
  = result (get_redshift_cluster_size shuffled_warehouse_session "acct"
              "eu-west-1" "dw") seven_days_in.
Proof.
  apply (redshift_order_independent warehouse_session
           shuffled_warehouse_session "acct" "eu-west-1" "dw" seven_days_in
           {| Redshift.Snapshots := warehouse_snapshots |}
           {| Redshift.Snapshots := rev warehouse_snapshots |});
    try reflexivity.
  - apply Permutation_rev.
  - repeat constructor; cbn; intuition discriminate.
Defined.

(** ** Compute volumes, continued *)

(** X8. A fault of the instance query ends [get_ec2_instance_size] with
    that fault before the volume query is issued, and a fault of the volume
    query ends it with that fault after both queries.  What the lookup
    returns follows the answer to the volume query alone, one record per
    volume of that answer: for an instance with no reservation the volume
    query is still issued, with an empty list of ids, and every volume it
    answers with gets a record. *)
Theorem ec2_lookup
  (session : Session) (account_id region_name instance_id : string)
  (clock : datetime) :
  (forall message,
     describe_instances session region_name [instance_id] = Fault message ->
     run (get_ec2_instance_size session account_id region_name instance_id)
       clock
     = (Raised (ClientError message),
        [DescribeInstances region_name [instance_id]]))
  /\ (forall instances message,
        describe_instances session region_name [instance_id]
          = Reply instances ->
        describe_volumes session region_name (instance_volume_ids instances)
          = Fault message ->
        run (get_ec2_instance_size session account_id region_name
               instance_id) clock
        = (Raised (ClientError message),
           [ DescribeInstances region_name [instance_id];
             DescribeVolumes region_name (instance_volume_ids instances) ]))
  /\ (forall instances response,
        describe_instances session region_name [instance_id]
          = Reply instances ->
        describe_volumes session region_name (instance_volume_ids instances)
          = Reply response ->
        exists records,
          result (get_ec2_instance_size session account_id region_name
                    instance_id) clock = Returned records
          /\ map resource_key records
             = map (fun volume =>
                      (instance_id ++ "::" ++ EC2.VolumeId volume)%string)
                 (get_or_empty (EC2.Volumes response)))
  /\ (forall instances response,
        describe_instances session region_name [instance_id]
          = Reply instances ->
        get_or_empty (EC2.Reservations instances) = [] ->
        describe_volumes session region_name [] = Reply response ->
        exists records,
          run (get_ec2_instance_size session account_id region_name
                 instance_id) clock
          = (Returned records,
             [ DescribeInstances region_name [instance_id];
               DescribeVolumes region_name [] ])
          /\ List.length records
             = List.length (get_or_empty (EC2.Volumes response))).
Proof.
  repeat apply conj.
  - intros message Hi. unfold run, get_ec2_instance_size.
    rewrite (run_invoke_fault _ _ _ _ _ Hi). reflexivity.
  - intros instances message Hi Hv. unfold run, get_ec2_instance_size.
    rewrite (run_invoke_reply _ _ _ _ _ Hi).
    rewrite (run_invoke_fault _ _ _ _ _ Hv). reflexivity.
  - intros instances response Hi Hv. eexists. split.
    + unfold result.
      rewrite (get_ec2_instance_size_run _ _ _ _ _ _ _ Hi Hv). reflexivity.
    + rewrite map_map. reflexivity.
  - intros instances response Hi Hempty Hv.
    assert (Hids : instance_volume_ids instances = []).
    { unfold instance_volume_ids. now rewrite Hempty. }
    rewrite <- Hids in Hv. eexists. split.
    + rewrite (get_ec2_instance_size_run _ _ _ _ _ _ _ Hi Hv).
      rewrite Hids. reflexivity.
    + apply length_map.
Qed.

Lemma ec2_lookup_witness :
  exists records,
    run (get_ec2_instance_size unknown_instance_session "acct" "eu-west-1"
           "i-0") 0
    = (Returned records,
       [ DescribeInstances "eu-west-1" ["i-0"];
         DescribeVolumes "eu-west-1" [] ])
    /\ List.length records = 2%nat.
Proof.
  destruct (ec2_lookup unknown_instance_session "acct" "eu-west-1" "i-0" 0)
    as (_ & _ & _ & Hnone).
  apply (Hnone {| EC2.Reservations := None |}
           {| EC2.Volumes := Some i1_volumes |}); reflexivity.
Defined.

(** ** What every lookup returns *)

Lemma for_each_returned_invariant {A S} (P : S -> Prop)
  (body : A -> S -> M S) :
  (forall x s w s' w', P s -> body x s w = (Returned s', w') -> P s') ->
  forall l s w r w',
    P s -> for_each l body s w = (Returned r, w') -> P r.
Proof.
  intros Hbody l. induction l as [|x l IH]; intros s w r w' Hs Hrun.
  - cbn in Hrun. injection Hrun as <- _. exact Hs.
  - cbn [for_each] in Hrun. unfold bind in Hrun.
    destruct (body x s w) as [[s1 | exc] w1] eqn:Hstep; [|discriminate].
    apply (IH _ _ _ _ (Hbody _ _ _ _ _ Hs Hstep) Hrun).
Qed.

Lemma collect_metric_keeps_shape
  (session : Session) (account region bucket : string)
  (start_time end_time : datetime) (period : timedelta)
  (entry : string * list CloudWatch.Dimension)
  (metric_data metric_data' : list SizeRecord) w w' :
  Forall (bucket_record_shape account region bucket) metric_data ->
  collect_metric session account region bucket start_time end_time period
    entry metric_data w = (Returned metric_data', w') ->
  Forall (bucket_record_shape account region bucket) metric_data'.
Proof.
  intros Hshape. destruct entry as [storage_type dimensions].
  unfold collect_metric.
  destruct (get_metric_statistics session region
              (bucket_size_bytes_request dimensions start_time end_time
                 period)) as [statistics | message] eqn:Hs.
  - rewrite (run_invoke_reply _ _ _ _ _ eq_refl).
    destruct (str_in storage_type backup_storage_types) eqn:Hallow.
    + destruct (CloudWatch.Datapoints statistics) as [|datapoint later];
        [discriminate|].
      cbn [index0]. unfold bind at 1, ret at 1.
      destruct (CloudWatch.Average datapoint) as [average|];
        [|discriminate].
      cbn [subscript]. unfold bind, ret. intros [= <- _].
      apply Forall_app. split; [exact Hshape|].
      constructor; [|constructor]. split; [now split|].
      exists storage_type. split; [now apply str_in_In | reflexivity].
    + unfold ret. now intros [= <- _].
  - rewrite (run_invoke_fault _ _ _ _ _ eq_refl). discriminate.
Qed.

(** When [get_bucket_size] returns, the validation has passed, the listing
    has been answered with metrics that all have a storage class, and the
    collection loop has returned the records. *)
Lemma get_bucket_size_returned
  (session : Session) (account_id region_name bucket_name : string)
  (clock : datetime) (records : list SizeRecord) :
  result (get_bucket_size session account_id region_name bucket_name) clock
    = Returned records ->
  exists location pages w',
    get_bucket_location session region_name bucket_name = Reply location
    /\ declared_region location = region_name
    /\ list_metrics_paginate session region_name
         (bucket_size_metrics_request bucket_name) = Reply pages
    /\ forallb has_storage_type (listed_metrics pages) = true
    /\ for_each (map metric_entry (listed_metrics pages))
         (collect_metric session account_id region_name bucket_name
            (clock - timedelta_days 2) clock (timedelta_days 2))
         []
         {| wall_clock := clock;
            trace := [ GetBucketLocation region_name bucket_name;
                       ListMetricsPaginate region_name
                         (bucket_size_metrics_request bucket_name) ] |}
       = (Returned records, w').
Proof.
  unfold result, run. intros Hret.
  destruct (get_bucket_location session region_name bucket_name)
    as [location | message] eqn:Hloc.
  - destruct (String.eqb_spec (declared_region location) region_name)
      as [Hregion | Hother].
    + destruct (list_metrics_paginate session region_name
                  (bucket_size_metrics_request bucket_name))
        as [pages | message] eqn:Hpages.
      * pose proof (get_bucket_size_listed session account_id region_name
                      bucket_name clock location pages Hloc Hregion Hpages)
          as Hg.
        cbv zeta in Hg. rewrite Hg in Hret.
        destruct (forallb has_storage_type (listed_metrics pages)) eqn:Hall;
          [|discriminate].
        match type of Hret with fst (let '(r, w) := ?m in _) = _ =>
          destruct m as [r w'] eqn:Hrun end.
        cbn in Hret. subst r.
        exists location, pages, w'. repeat split; assumption.
      * exfalso. unfold get_bucket_size in Hret. unfold bind at 1 in Hret.
        rewrite validate_bucket_run, Hloc, Hregion, String.eqb_refl in Hret.
        rewrite (run_invoke_fault _ _ _ _ _ Hpages) in Hret. discriminate.
    + exfalso. unfold get_bucket_size in Hret. unfold bind at 1 in Hret.
      rewrite validate_bucket_run, Hloc in Hret.
      apply String.eqb_neq in Hother. rewrite Hother in Hret. discriminate.
  - exfalso. unfold get_bucket_size in Hret. unfold bind at 1 in Hret.
    rewrite validate_bucket_run, Hloc in Hret. discriminate.
Qed.

Lemma bucket_records_shape
  (session : Session) (account_id region_name bucket_name : string)
  (clock : datetime) (records : list SizeRecord) :
  result (get_bucket_size session account_id region_name bucket_name) clock
    = Returned records ->
  Forall (bucket_record_shape account_id region_name bucket_name) records.
Proof.
  intros Hret.
  destruct (get_bucket_size_returned _ _ _ _ _ _ Hret)
    as (location & pages & w' & _ & _ & _ & _ & Hrun).
  apply (for_each_returned_invariant
           (Forall (bucket_record_shape account_id region_name bucket_name))
           _ (fun entry acc w acc' w' Hacc Hstep =>
                collect_metric_keeps_shape _ _ _ _ _ _ _ entry acc acc' w w'
                  Hacc Hstep)
           _ _ _ _ _ (Forall_nil _) Hrun).
Qed.

(** X9. The account and the region are passed through: whatever the
    provider answers, every record a lookup returns carries the account
    identifier and the region name the lookup was given, and a lookup that
    returns a single record keys it with the resource identifier it was
    given. *)
Theorem lookups_tag_records
  (session : Session) (account_id region_name identifier : string)
  (clock : datetime) :
  (forall records,
     result (get_ec2_instance_size session account_id region_name
               identifier) clock = Returned records ->
     Forall (tagged account_id region_name) records)
  /\ (forall record,
        result (get_rds_cluster_size session account_id region_name
                  identifier) clock = Returned record ->
        tagged account_id region_name record
        /\ resource_key record = identifier)
  /\ (forall record,
        result (get_rds_instance_size session account_id region_name
                  identifier) clock = Returned record ->
        tagged account_id region_name record
        /\ resource_key record = identifier)
  /\ (forall record,
        result (get_efs_file_system_size session account_id region_name
                  identifier) clock = Returned record ->
        tagged account_id region_name record
        /\ resource_key record = identifier)
  /\ (forall record,
        result (get_dynamodb_table_size session account_id region_name
                  identifier) clock = Returned record ->
        tagged account_id region_name record
        /\ resource_key record = identifier)
  /\ (forall record,
        result (get_redshift_cluster_size session account_id region_name
                  identifier) clock = Returned record ->
        tagged account_id region_name record
        /\ resource_key record = identifier)
  /\ (forall records,
        result (get_bucket_size session account_id region_name identifier)
          clock = Returned records ->
        Forall (tagged account_id region_name) records).
Proof.
  repeat apply conj.
  - intros records. unfold result, run, get_ec2_instance_size.
    destruct (describe_instances session region_name [identifier])
      as [instances | message] eqn:Hi.
    + rewrite (run_invoke_reply _ _ _ _ _ eq_refl).
      destruct (describe_volumes session region_name
                  (instance_volume_ids instances))
        as [response | message] eqn:Hv.
      * rewrite (run_invoke_reply _ _ _ _ _ eq_refl).
        rewrite for_each_append. cbn. intros [= <-].
        apply Forall_forall. intros record Hin.
        apply in_map_iff in Hin. destruct Hin as (volume & <- & _).
        now split.
      * rewrite (run_invoke_fault _ _ _ _ _ eq_refl). discriminate.
    + rewrite (run_invoke_fault _ _ _ _ _ eq_refl). discriminate.
  - intros record.
    destruct (describe_db_clusters session region_name identifier)
      as [response | message] eqn:Hc.
    + destruct (RDS.DBClusters response) as [|cluster others] eqn:Hl.
      * unfold result, run, get_rds_cluster_size.
        rewrite (run_invoke_reply _ _ _ _ _ Hc), Hl. discriminate.
      * destruct (String.prefix "aurora-" (RDS.Engine cluster)) eqn:Hp.
        -- unfold result.
           rewrite (get_rds_cluster_size_aurora_run _ _ _ _ _ _ _ _
                      Hc Hl Hp).
           cbn [fst].
           destruct (get_metric_statistics _ _ _) as [statistics | message];
             [|discriminate].
           destruct (sorted_reverse _ _) as [|datapoint rest];
             [discriminate|].
           destruct (CloudWatch.Maximum datapoint) as [maximum|];
             [|discriminate].
           destruct (int_of maximum); [|discriminate].
           intros [= <-]. now repeat split.
        -- unfold result, run, get_rds_cluster_size.
           rewrite (run_invoke_reply _ _ _ _ _ Hc), Hl, Hp.
           cbn -[Z.mul]. intros [= <-]. now repeat split.
    + unfold result, run, get_rds_cluster_size.
      rewrite (run_invoke_fault _ _ _ _ _ Hc). discriminate.
  - intros record. unfold result, run, get_rds_instance_size.
    destruct (describe_db_instances session region_name identifier)
      as [response | message] eqn:Hi.
    + rewrite (run_invoke_reply _ _ _ _ _ eq_refl).
      destruct (RDS.DBInstances response); [discriminate|].
      cbn -[Z.mul]. intros [= <-]. now repeat split.
    + rewrite (run_invoke_fault _ _ _ _ _ eq_refl). discriminate.
  - intros record. unfold result, run, get_efs_file_system_size.
    destruct (describe_file_systems session region_name identifier)
      as [response | message] eqn:Hf.
    + rewrite (run_invoke_reply _ _ _ _ _ eq_refl).
      destruct (EFS.FileSystems response); [discriminate|].
      cbn. intros [= <-]. now repeat split.
    + rewrite (run_invoke_fault _ _ _ _ _ eq_refl). discriminate.
  - intros record. unfold result, run, get_dynamodb_table_size.
    destruct (describe_table session region_name identifier)
      as [response | message] eqn:Ht.
    + rewrite (run_invoke_reply _ _ _ _ _ eq_refl).
      cbn. intros [= <-]. now repeat split.
    + rewrite (run_invoke_fault _ _ _ _ _ eq_refl). discriminate.
  - intros record. unfold result, run, get_redshift_cluster_size.
    rewrite run_datetime_now. cbn [wall_clock].
    destruct (describe_cluster_snapshots session region_name _)
      as [response | message] eqn:Hs.
    + rewrite (run_invoke_reply _ _ _ _ _ eq_refl).
      destruct (sorted_reverse _ _); [discriminate|].
      cbn -[py_mul]. intros [= <-]. now repeat split.
    + rewrite (run_invoke_fault _ _ _ _ _ eq_refl). discriminate.
  - intros records Hret.
    apply (Forall_impl _ (fun record Hshape => proj1 Hshape)
             (bucket_records_shape _ _ _ _ _ _ Hret)).
Qed.

Lemma lookups_tag_records_witness :
  Forall (tagged "acct" "eu-west-1")
    [ {| account_id := "acct"; region_name := "eu-west-1";
         resource_key := "photos::StandardStorage";
         size_bytes := PyFloat float_1536_75 |};
      {| account_id := "acct"; region_name := "eu-west-1";
         resource_key := "photos::StandardIAStorage";
         size_bytes := PyInt 4096 |} ].
Proof.
  destruct (lookups_tag_records photos_bucket "acct" "eu-west-1" "photos"
              two_days_in) as (_ & _ & _ & _ & _ & _ & Hbucket).
  apply Hbucket. reflexivity.
Defined.

(** ** Object-storage buckets, continued *)

(** X10. [get_bucket_size] never returns a record for a storage class
    outside the allow-list: whatever the provider answers, every record it
    returns is keyed "{bucket_name}::{storage_type}" for one of the nine
    allow-listed classes. *)
Theorem bucket_records_allow_listed
  (session : Session) (account_id region_name bucket_name : string)
  (clock : datetime) (records : list SizeRecord) :
  result (get_bucket_size session account_id region_name bucket_name) clock
    = Returned records ->
  Forall (fun record =>
            exists storage_type,
              In storage_type backup_storage_types
              /\ resource_key record
                 = (bucket_name ++ "::" ++ storage_type)%string)
    records.
Proof.
  intros Hret.
  apply (Forall_impl _ (fun record Hshape => proj2 Hshape)
           (bucket_records_shape _ _ _ _ _ _ Hret)).
Qed.

Lemma bucket_records_allow_listed_witness :
  Forall (fun record =>
            exists storage_type,
              In storage_type backup_storage_types
              /\ resource_key record
                 = ("photos" ++ "::" ++ storage_type)%string)
    [ {| account_id := "acct"; region_name := "eu-west-1";
         resource_key := "photos::StandardStorage";
         size_bytes := PyFloat float_1536_75 |};
      {| account_id := "acct"; region_name := "eu-west-1";
         resource_key := "photos::StandardIAStorage";
         size_bytes := PyInt 4096 |} ].
Proof.
  apply (bucket_records_allow_listed photos_bucket "acct" "eu-west-1"
           "photos" two_days_in).
  reflexivity.
Defined.

Lemma for_each_app {A S} (l1 l2 : list A) (body : A -> S -> M S) (s : S) w :
  for_each (l1 ++ l2) body s w =
  match for_each l1 body s w with
  | (Returned s', w') => for_each l2 body s' w'
  | (Raised exc, w') => (Raised exc, w')
  end.
Proof.
  revert s w. induction l1 as [|x l1 IH]; intros s w.
  - reflexivity.
  - cbn [app for_each]. unfold bind.
    destruct (body x s w) as [[s1 | exc] w1]; [apply IH | reflexivity].
Qed.

Lemma metric_failure_none (session : Session) (region : string)
  (clock : datetime) (metric : CloudWatch.Metric) :
  metric_failure session region clock metric = None ->
  well_answered session region clock metric.
Proof.
  unfold metric_failure, well_answered, answered.
  destruct (get_metric_statistics session region _)
    as [statistics | message]; [|discriminate].
  intros Hnone. exists statistics. split; [reflexivity|].
  intros Hret. rewrite Hret in Hnone.
  destruct (CloudWatch.Datapoints statistics) as [|datapoint later];
    [discriminate|].
  destruct (CloudWatch.Average datapoint) as [average|] eqn:Ha;
    [|discriminate].
  now exists datapoint, later, average.
Qed.

Lemma collect_metric_failure
  (session : Session) (account region bucket : string) (clock : datetime)
  (metric : CloudWatch.Metric) (exc : exn)
  (metric_data : list SizeRecord) w :
  metric_failure session region clock metric = Some exc ->
  collect_metric session account region bucket
    (clock - timedelta_days 2) clock (timedelta_days 2)
    (metric_entry metric) metric_data w
  = (Raised exc,
     {| wall_clock := wall_clock w;
        trace := trace w ++ [statistics_call region clock metric] |}).
Proof.
  unfold metric_failure, collect_metric, statistics_call.
  rewrite (surjective_pairing (metric_entry metric)).
  rewrite str_in_metric_entry. cbn [snd metric_entry].
  change (bucket_size_bytes_request (CloudWatch.MetricDimensions metric)
            (clock - timedelta_days 2) clock (timedelta_days 2))
    with (statistics_request clock (CloudWatch.MetricDimensions metric)).
  destruct (get_metric_statistics session region _)
    as [statistics | message] eqn:Hs.
  - rewrite (run_invoke_reply _ _ _ _ _ eq_refl).
    destruct (retained metric); [|discriminate].
    destruct (CloudWatch.Datapoints statistics) as [|datapoint later].
    + now intros [= <-].
    + cbn [index0]. unfold bind at 1, ret at 1.
      destruct (CloudWatch.Average datapoint); [discriminate|].
      now intros [= <-].
  - rewrite (run_invoke_fault _ _ _ _ _ eq_refl). now intros [= <-].
Qed.

(** X11. A listed metric without a "StorageType" dimension, on whatever
    page, makes [get_bucket_size] fail with an [IndexError] while the
    listing is read: no statistics query is issued, not even for the
    metrics listed before it. *)
Theorem bucket_metric_without_storage_type
  (session : Session) (account_id region_name bucket_name : string)
  (clock : datetime)
  (location : S3.GetBucketLocationResult)
  (pages : list CloudWatch.ListMetricsPage)
  (metric : CloudWatch.Metric) :
  get_bucket_location session region_name bucket_name = Reply location ->
  declared_region location = region_name ->
  list_metrics_paginate session region_name
    (bucket_size_metrics_request bucket_name) = Reply pages ->
  In metric (listed_metrics pages) ->
  storage_type_values (CloudWatch.MetricDimensions metric) = [] ->
  run (get_bucket_size session account_id region_name bucket_name) clock
  = (Raised (IndexError "list index out of range"),
     [ GetBucketLocation region_name bucket_name;
       ListMetricsPaginate region_name
         (bucket_size_metrics_request bucket_name) ]).
Proof.
  intros Hloc Hregion Hpages Hin Hnone.
  pose proof (get_bucket_size_listed session account_id region_name
                bucket_name clock location pages Hloc Hregion Hpages) as Hg.
  cbv zeta in Hg. unfold run. rewrite Hg.
  destruct (forallb has_storage_type (listed_metrics pages)) eqn:Hall.
  - rewrite forallb_forall in Hall. specialize (Hall metric Hin).
    unfold has_storage_type, metric_storage_type in Hall.
    rewrite Hnone in Hall. discriminate.
  - reflexivity.
Qed.

Lemma bucket_metric_without_storage_type_witness :
  run (get_bucket_size unclassed_bucket "acct" "eu-west-1" "photos")
    two_days_in
  = (Raised (IndexError "list index out of range"),
     [ GetBucketLocation "eu-west-1" "photos";
       ListMetricsPaginate "eu-west-1"
         (bucket_size_metrics_request "photos") ]).
Proof.
  apply (bucket_metric_without_storage_type unclassed_bucket "acct"
           "eu-west-1" "photos" two_days_in
           {| S3.LocationConstraint := Some "eu-west-1" |} unclassed_pages
           {| CloudWatch.MetricDimensions :=
                [dimension "BucketName" "photos"] |}).
  - reflexivity.
  - reflexivity.
  - reflexivity.
  - cbn. right. left. reflexivity.
  - reflexivity.
Defined.

(** X12. Once the validation has passed, errors are not wrapped any more,
    and the lookup returns no partial result.  A fault of the listing is
    raised as it is.  In the collection loop the first listed metric whose
    iteration fails decides the outcome: the fault of its statistics query,
    also when its storage class is not allow-listed, or for an allow-listed
    class the [IndexError] of an empty answer or the [KeyError] of a
    datapoint 0 without Average; the queries issued are those of the
    metrics up to and including that one. *)
Theorem bucket_fails_at_first_failing_metric
  (session : Session) (account_id region_name bucket_name : string)
  (clock : datetime) (location : S3.GetBucketLocationResult) :
  get_bucket_location session region_name bucket_name = Reply location ->
  declared_region location = region_name ->
  (forall message,
     list_metrics_paginate session region_name
       (bucket_size_metrics_request bucket_name) = Fault message ->
     run (get_bucket_size session account_id region_name bucket_name) clock
     = (Raised (ClientError message),
        [ GetBucketLocation region_name bucket_name;
          ListMetricsPaginate region_name
            (bucket_size_metrics_request bucket_name) ]))
  /\ (forall pages before metric after exc,
        list_metrics_paginate session region_name
          (bucket_size_metrics_request bucket_name) = Reply pages ->
        listed_metrics pages = before ++ metric :: after ->
        Forall (fun listed => has_storage_type listed = true)
          (listed_metrics pages) ->
        Forall (fun listed =>
                  metric_failure session region_name clock listed = None)
          before ->
        metric_failure session region_name clock metric = Some exc ->
        run (get_bucket_size session account_id region_name bucket_name)
          clock
        = (Raised exc,
           [ GetBucketLocation region_name bucket_name;
             ListMetricsPaginate region_name
               (bucket_size_metrics_request bucket_name) ]
           ++ map (statistics_call region_name clock)
                (before ++ [metric]))).
Proof.
  intros Hloc Hregion. split.
  - intros message Hpages. unfold run, get_bucket_size. unfold bind at 1.
    rewrite validate_bucket_run, Hloc, Hregion, String.eqb_refl.
    rewrite (run_invoke_fault _ _ _ _ _ Hpages). reflexivity.
  - intros pages before metric after exc Hpages Hsplit Hclass Hbefore Hfail.
    pose proof (get_bucket_size_listed session account_id region_name
                  bucket_name clock location pages Hloc Hregion Hpages)
      as Hg.
    cbv zeta in Hg. unfold run. rewrite Hg.
    assert (Hall : forallb has_storage_type (listed_metrics pages) = true).
    { apply forallb_forall. now apply Forall_forall. }
    rewrite Hall, Hsplit, map_app, for_each_app.
    assert (Hwell : Forall (well_answered session region_name clock) before).
    { apply (Forall_impl _ (metric_failure_none session region_name clock)
               Hbefore). }
    destruct (collect_metrics_returned session account_id region_name
                bucket_name clock before []
                {| wall_clock := clock;
                   trace := [ GetBucketLocation region_name bucket_name;
                              ListMetricsPaginate region_name
                                (bucket_size_metrics_request bucket_name) ]
                |} Hwell) as (records & -> & _).
    cbn [map for_each]. unfold bind.
    rewrite (collect_metric_failure _ _ _ _ _ _ _ _ _ Hfail).
    cbn [trace]. rewrite map_app, <- !app_assoc. reflexivity.
Qed.

Lemma bucket_fails_at_first_failing_metric_witness :
  run (get_bucket_size throttled_bucket "acct" "eu-west-1" "photos")
    two_days_in
  = (Raised (ClientError "Throttling"),
     [ GetBucketLocation "eu-west-1" "photos";
       ListMetricsPaginate "eu-west-1"
         (bucket_size_metrics_request "photos") ]
     ++ map (statistics_call "eu-west-1" two_days_in)
          ([bucket_metric "photos" "StandardStorage"]
           ++ [bucket_metric "photos" "GlacierStorage"])).
Proof.
  destruct (bucket_fails_at_first_failing_metric throttled_bucket "acct"
              "eu-west-1" "photos" two_days_in
              {| S3.LocationConstraint := Some "eu-west-1" |})
    as [_ Hfirst].
  - reflexivity.
  - reflexivity.
  - apply (Hfirst photos_pages
             [bucket_metric "photos" "StandardStorage"]
             (bucket_metric "photos" "GlacierStorage")
             [bucket_metric "photos" "StandardIAStorage"]).
    + reflexivity.
    + reflexivity.
    + repeat constructor.
    + repeat constructor.
    + reflexivity.
Defined.

(** X13. A bucket none of whose listed metrics is of an allow-listed
    storage class, in particular a bucket with no listed metric at all, is
    no error: when the validation passes and the listing and the statistics
    queries are answered, [get_bucket_size] returns the empty list, after
    querying the statistics of every listed metric. *)
Theorem bucket_without_retained_metric
  (session : Session) (account_id region_name bucket_name : string)
  (clock : datetime)
  (location : S3.GetBucketLocationResult)
  (pages : list CloudWatch.ListMetricsPage) :
  get_bucket_location session region_name bucket_name = Reply location ->
  declared_region location = region_name ->
  list_metrics_paginate session region_name
    (bucket_size_metrics_request bucket_name) = Reply pages ->
  Forall (fun metric =>
            has_storage_type metric = true
            /\ retained metric = false
            /\ exists statistics,
                 answered session region_name clock metric statistics)
    (listed_metrics pages) ->
  run (get_bucket_size session account_id region_name bucket_name) clock
  = (Returned [],
     [ GetBucketLocation region_name bucket_name;
       ListMetricsPaginate region_name
         (bucket_size_metrics_request bucket_name) ]
     ++ map (statistics_call region_name clock) (listed_metrics pages)).
Proof.
  intros Hloc Hregion Hpages Hall.
  pose proof (get_bucket_size_listed session account_id region_name
                bucket_name clock location pages Hloc Hregion Hpages) as Hg.
  cbv zeta in Hg. unfold run. rewrite Hg.
  assert (Hclass : forallb has_storage_type (listed_metrics pages) = true).
  { apply forallb_forall. intros metric Hin.
    rewrite Forall_forall in Hall. now destruct (Hall metric Hin). }
  assert (Hwell : Forall (well_answered session region_name clock)
                    (listed_metrics pages)).
  { apply (Forall_impl _ (P := fun metric =>
             has_storage_type metric = true
             /\ retained metric = false
             /\ exists statistics,
                  answered session region_name clock metric statistics));
      [|exact Hall].
    intros metric (_ & Hret & statistics & Hans).
    exists statistics. split; [exact Hans|]. rewrite Hret. discriminate. }
  assert (Hnone : filter retained (listed_metrics pages) = []).
  { clear - Hall. induction Hall as [|metric metrics (_ & Hret & _) _ IH].
    - reflexivity.
    - cbn [filter]. now rewrite Hret. }
  destruct (collect_metrics_returned session account_id region_name
              bucket_name clock (listed_metrics pages) []
              {| wall_clock := clock;
                 trace := [ GetBucketLocation region_name bucket_name;
                            ListMetricsPaginate region_name
                              (bucket_size_metrics_request bucket_name) ] |}
              Hwell) as (records & Hrun & Hrec).
  rewrite Hnone in Hrec. inversion Hrec; subst.
  rewrite Hclass, Hrun. reflexivity.
Qed.

Lemma bucket_without_retained_metric_witness :
  run (get_bucket_size archive_bucket "acct" "us-east-1" "archive")
    two_days_in
  = (Returned [],
     [ GetBucketLocation "us-east-1" "archive";
       ListMetricsPaginate "us-east-1"
         (bucket_size_metrics_request "archive") ]
     ++ map (statistics_call "us-east-1" two_days_in)
          (listed_metrics archive_pages)).
Proof.
  apply (bucket_without_retained_metric archive_bucket "acct" "us-east-1"
           "archive" two_days_in {| S3.LocationConstraint := None |}
           archive_pages).
  - reflexivity.
  - reflexivity.
  - reflexivity.
  - repeat constructor. eexists. reflexivity.
Defined.

(** ** Data-warehouse clusters: the query and the errors *)

(** X14. [get_redshift_cluster_size] issues one snapshot query whatever
    happens, for the cluster and the seven days up to the clock reading,
    asking for creation time descending.  It raises its no-snapshots error
    exactly when the provider answers with no snapshot, and raises the
    provider's fault when the query faults. *)
Theorem redshift_lookup
  (session : Session) (account_id region_name cluster_identifier : string)
  (clock : datetime) :
  let request :=
    {| Redshift.ClusterIdentifier := cluster_identifier;
       Redshift.StartTime := clock - 7 * 86400 * 1000000;
       Redshift.SortingEntities :=
         [{| Redshift.Attribute := "CREATE_TIME";
             Redshift.SortOrder := "DESC" |}] |} in
  let outcome :=
    result (get_redshift_cluster_size session account_id region_name
              cluster_identifier) clock in
  calls (get_redshift_cluster_size session account_id region_name
           cluster_identifier) clock
  = [DescribeClusterSnapshots region_name request]
  /\ (outcome
      = Raised (Exception
                  ("Cluster " ++ cluster_identifier
                   ++ " does not have any snapshots in the last seven days"))
      <-> exists response,
            describe_cluster_snapshots session region_name request
              = Reply response
            /\ Redshift.Snapshots response = [])
  /\ (forall message,
        describe_cluster_snapshots session region_name request
          = Fault message ->
        outcome = Raised (ClientError message)).
Proof.
  intros request outcome. subst outcome.
  unfold calls, result, run, get_redshift_cluster_size.
  rewrite run_datetime_now. cbn [wall_clock].
  change (cluster_snapshots_request cluster_identifier
            (clock - timedelta_days 7)) with request.
  destruct (describe_cluster_snapshots session region_name request)
    as [response | message] eqn:Hs.
  - rewrite (run_invoke_reply _ _ _ _ _ eq_refl).
    destruct (sorted_reverse Redshift.SnapshotCreateTime
                (Redshift.Snapshots response)) as [|last rest] eqn:Hsorted.
    + apply sorted_reverse_nil in Hsorted.
      cbn. repeat split; try discriminate.
      intros _. exists response. now split.
    + cbn -[py_mul]. repeat split; try discriminate.
      intros (response' & [= <-] & Hnil).
      rewrite Hnil in Hsorted. discriminate.
  - rewrite (run_invoke_fault _ _ _ _ _ eq_refl). cbn.
    repeat split; try discriminate.
    + intros (response & Hr & _). discriminate.
    + now intros ? [= <-].
Qed.

Lemma redshift_lookup_witness :
  result (get_redshift_cluster_size
            (redshift_session
               (fun _ _ => Reply {| Redshift.Snapshots := [] |}))
            "acct" "eu-west-1" "dw") seven_days_in
  = Raised (Exception
              "Cluster dw does not have any snapshots in the last seven days").
Proof.
  destruct (redshift_lookup
              (redshift_session
                 (fun _ _ => Reply {| Redshift.Snapshots := [] |}))
              "acct" "eu-west-1" "dw" seven_days_in) as (_ & Hnone & _).
  apply Hnone. exists {| Redshift.Snapshots := [] |}. split; reflexivity.
Defined.

(** ** Object-storage buckets: the validation phase in the lookup *)

Lemma for_each_raised_invariant {A S} (Q : exn -> Prop)
  (body : A -> S -> M S) :
  (forall x s w exc w', body x s w = (Raised exc, w') -> Q exc) ->
  forall l s w exc w', for_each l body s w = (Raised exc, w') -> Q exc.
Proof.
  intros Hbody l. induction l as [|x l IH]; intros s w exc w' Hrun.
  - discriminate.
  - cbn [for_each] in Hrun. unfold bind in Hrun.
    destruct (body x s w) as [[s1 | exc1] w1] eqn:Hstep.
    + apply (IH _ _ _ _ Hrun).
    + injection Hrun as <- _. apply (Hbody _ _ _ _ _ Hstep).
Qed.

(** What an iteration of the collection loop raises is never a bare
    [Exception]. *)
Lemma collect_metric_raises
  (session : Session) (account region bucket : string)
  (start_time end_time : datetime) (period : timedelta)
  (entry : string * list CloudWatch.Dimension)
  (metric_data : list SizeRecord) w exc w' :
  collect_metric session account region bucket start_time end_time period
    entry metric_data w = (Raised exc, w') ->
  forall message, exc <> Exception message.
Proof.
  destruct entry as [storage_type dimensions]. unfold collect_metric.
  destruct (get_metric_statistics session region
              (bucket_size_bytes_request dimensions start_time end_time
                 period)) as [statistics | fault] eqn:Hs.
  - rewrite (run_invoke_reply _ _ _ _ _ eq_refl).
    destruct (str_in storage_type backup_storage_types).
    + destruct (CloudWatch.Datapoints statistics) as [|datapoint later].
      * intros [= <- _]. discriminate.
      * cbn [index0]. unfold bind at 1, ret at 1.
        destruct (CloudWatch.Average datapoint) as [average|].
        -- discriminate.
        -- intros [= <- _]. discriminate.
    + discriminate.
  - rewrite (run_invoke_fault _ _ _ _ _ eq_refl).
    intros [= <- _]. discriminate.
Qed.

(** A declared region equal to the target region takes the lookup past
    the validation phase. *)
Lemma bucket_validation_passed
  (session : Session) (account_id region_name bucket_name : string)
  (clock : datetime) (location : S3.GetBucketLocationResult) :
  get_bucket_location session region_name bucket_name = Reply location ->
  declared_region location = region_name ->
  passes_validation session account_id region_name bucket_name clock.
Proof.
  intros Hloc Hregion. split; [|].
  - unfold result, run.
    rewrite validate_bucket_run, Hloc, Hregion, String.eqb_refl.
    reflexivity.
  - destruct (list_metrics_paginate session region_name
                (bucket_size_metrics_request bucket_name))
      as [pages | fault] eqn:Hpages.
    + pose proof (get_bucket_size_listed session account_id region_name
                    bucket_name clock location pages Hloc Hregion Hpages)
        as Hg.
      cbv zeta in Hg. unfold calls, result, run. rewrite Hg.
      destruct (forallb has_storage_type (listed_metrics pages)).
      * match goal with |- context [let '(r, w) := ?m in _] =>
          destruct m as [r w'] eqn:Hrun end.
        destruct (collect_metrics_trace _ _ _ _ _ _ _ _ _ _ Hrun)
          as (n & Htrace & _).
        cbn [fst snd]. split.
        -- eexists. rewrite Htrace. reflexivity.
        -- intros message ->.
           apply (for_each_raised_invariant
                    (fun exc => forall message, exc <> Exception message)
                    _ (fun entry acc w exc w1 Hstep =>
                         collect_metric_raises _ _ _ _ _ _ _ entry acc w exc
                           w1 Hstep)
                    _ _ _ _ _ Hrun message eq_refl).
      * cbn. split; [now exists [] | discriminate].
    + assert (Hrun :
        get_bucket_size session account_id region_name bucket_name
          {| wall_clock := clock; trace := [] |}
        = (Raised (ClientError fault),
           {| wall_clock := clock;
              trace := [ GetBucketLocation region_name bucket_name;
                         ListMetricsPaginate region_name
                           (bucket_size_metrics_request bucket_name) ] |})).
      { unfold get_bucket_size. unfold bind at 1.
        rewrite validate_bucket_run, Hloc, Hregion, String.eqb_refl.
        rewrite (run_invoke_fault _ _ _ _ _ Hpages). reflexivity. }
      unfold calls, result, run. rewrite Hrun. cbn.
      split; [now exists [] | discriminate].
Qed.

(** A declared region other than the target region ends the lookup in
    the validation phase. *)
Lemma bucket_validation_failed
  (session : Session) (account_id region_name bucket_name : string)
  (clock : datetime) (location : S3.GetBucketLocationResult) :
  get_bucket_location session region_name bucket_name = Reply location ->
  declared_region location <> region_name ->
  fails_validation session account_id region_name bucket_name clock.
Proof.
  intros Hloc Hother. unfold fails_validation, run, get_bucket_size.
  unfold bind at 1. rewrite validate_bucket_run, Hloc.
  apply String.eqb_neq in Hother. rewrite Hother. reflexivity.
Qed.

(** C6. The region a bucket declares is its location constraint, an
    empty or absent constraint being read as "us-east-1", and
    [get_bucket_size] compares it with the target region in its validation
    phase.  Against a bucket with an empty or absent constraint the target
    region "us-east-1" passes and any other target fails; against a bucket
    with a constraint the target region equal to it passes and any other
    target fails.  Passing, the lookup goes on to list the metrics;
    failing, it raises the wrapped region-mismatch error after the location
    query alone. *)
Theorem bucket_default_region
  (session : Session) (account_id region_name bucket_name : string)
  (clock : datetime) (response : S3.GetBucketLocationResult) :
  get_bucket_location session region_name bucket_name = Reply response ->
  (S3.LocationConstraint response = None
   \/ S3.LocationConstraint response = Some "" ->
   (region_name = "us-east-1" ->
    passes_validation session account_id region_name bucket_name clock)
   /\ (region_name <> "us-east-1" ->
       fails_validation session account_id region_name bucket_name clock))
  /\ (forall declared,
        S3.LocationConstraint response = Some declared ->
        declared <> "" ->
        (declared = region_name ->
         passes_validation session account_id region_name bucket_name clock)
        /\ (declared <> region_name ->
            fails_validation session account_id region_name bucket_name
              clock)).
Proof.
  intros Hloc. split.
  - intros Hempty.
    assert (Hdef : declared_region response = "us-east-1").
    { unfold declared_region. destruct Hempty as [-> | ->]; reflexivity. }
    split.
    + intros Hregion. apply (bucket_validation_passed _ _ _ _ _ _ Hloc).
      now rewrite Hdef.
    + intros Hother. apply (bucket_validation_failed _ _ _ _ _ _ Hloc).
      rewrite Hdef. intros Heq. now apply Hother.
  - intros declared Hsome Hfull.
    assert (Hdecl : declared_region response = declared).
    { unfold declared_region. rewrite Hsome.
      destruct declared; [contradiction | reflexivity]. }
    split.
    + intros Hregion. apply (bucket_validation_passed _ _ _ _ _ _ Hloc).
      now rewrite Hdecl.
    + intros Hother. apply (bucket_validation_failed _ _ _ _ _ _ Hloc).
      now rewrite Hdecl.
Qed.

Lemma bucket_default_region_witness :
  passes_validation default_region_bucket "acct" "us-east-1" "logs" 0
  /\ fails_validation default_region_bucket "acct" "eu-west-1" "logs" 0
  /\ passes_validation photos_bucket "acct" "eu-west-1" "photos" two_days_in
  /\ fails_validation photos_bucket "acct" "us-east-1" "photos" two_days_in.
Proof.
  split; [|split; [|split]].
  - destruct (bucket_default_region default_region_bucket "acct"
                "us-east-1" "logs" 0 {| S3.LocationConstraint := None |}
                eq_refl) as [Hdefault _].
    destruct (Hdefault (or_introl eq_refl)) as [Hpass _].
    apply Hpass. reflexivity.
  - destruct (bucket_default_region default_region_bucket "acct"
                "eu-west-1" "logs" 0 {| S3.LocationConstraint := None |}
                eq_refl) as [Hdefault _].
    destruct (Hdefault (or_introl eq_refl)) as [_ Hfail].
    apply Hfail. discriminate.
  - destruct (bucket_default_region photos_bucket "acct" "eu-west-1"
                "photos" two_days_in
                {| S3.LocationConstraint := Some "eu-west-1" |} eq_refl)
      as [_ Hdeclared].
    destruct (Hdeclared "eu-west-1" eq_refl) as [Hpass _]; [discriminate|].
    apply Hpass. reflexivity.
  - destruct (bucket_default_region photos_bucket "acct" "us-east-1"
                "photos" two_days_in
                {| S3.LocationConstraint := Some "eu-west-1" |} eq_refl)
      as [_ Hdeclared].
    destruct (Hdeclared "eu-west-1" eq_refl) as [_ Hfail]; [discriminate|].
    apply Hfail. discriminate.
Defined.

(** ** Object-storage buckets: the statistics queries, exactly *)

Lemma collect_metric_success
  (session : Session) (account region bucket : string) (clock : datetime)
  (metric : CloudWatch.Metric) (metric_data : list SizeRecord) w :
  metric_failure session region clock metric = None ->
  exists metric_data',
    collect_metric session account region bucket
      (clock - timedelta_days 2) clock (timedelta_days 2)
      (metric_entry metric) metric_data w
    = (Returned metric_data',
       {| wall_clock := wall_clock w;
          trace := trace w ++ [statistics_call region clock metric] |}).
Proof.
  unfold metric_failure, collect_metric, statistics_call.
  rewrite (surjective_pairing (metric_entry metric)).
  rewrite str_in_metric_entry. cbn [snd metric_entry].
  change (bucket_size_bytes_request (CloudWatch.MetricDimensions metric)
            (clock - timedelta_days 2) clock (timedelta_days 2))
    with (statistics_request clock (CloudWatch.MetricDimensions metric)).
  destruct (get_metric_statistics session region _)
    as [statistics | fault] eqn:Hs; [|discriminate].
  rewrite (run_invoke_reply _ _ _ _ _ eq_refl).
  destruct (retained metric).
  - destruct (CloudWatch.Datapoints statistics) as [|datapoint later];
      [discriminate|].
    cbn [index0]. unfold bind at 1, ret at 1.
    destruct (CloudWatch.Average datapoint) as [average|]; [|discriminate].
    intros _. eexists. reflexivity.
  - intros _. eexists. reflexivity.
Qed.

(** The trace of the collection loop, whatever the provider answers. *)
Lemma collect_metrics_queried
  (session : Session) (account region bucket : string) (clock : datetime)
  (metrics : list CloudWatch.Metric) (metric_data : list SizeRecord) w :
  trace (snd (for_each (map metric_entry metrics)
                (collect_metric session account region bucket
                   (clock - timedelta_days 2) clock (timedelta_days 2))
                metric_data w))
  = trace w
    ++ map (statistics_call region clock)
         (queried_metrics session region clock metrics).
Proof.
  revert metric_data w.
  induction metrics as [|metric metrics IH]; intros metric_data w.
  - cbn. now rewrite app_nil_r.
  - cbn [map for_each queried_metrics]. unfold bind.
    destruct (metric_failure session region clock metric) as [exc|] eqn:Hf.
    + rewrite (collect_metric_failure _ _ _ _ _ _ _ _ _ Hf). reflexivity.
    + destruct (collect_metric_success session account region bucket clock
                  metric metric_data w Hf) as [metric_data' ->].
      rewrite IH. cbn [trace]. now rewrite <- app_assoc.
Qed.

(** C10, amended. When the validation passes, the listing is answered
    and its metrics have a storage class, the statistics queries of
    [get_bucket_size] are exactly those of the listed metrics, in listing
    order and whatever their storage class, up to and including the first
    metric whose iteration raises.  If no iteration raises, every listed
    metric is queried and the lookup returns the records of the
    allow-listed ones: the allow-list only decides, after each query,
    whether a record is appended.  If one raises, the lookup raises its
    error after the queries up to and including that metric. *)
Theorem bucket_statistics_for_every_listed_metric
  (session : Session) (account_id region_name bucket_name : string)
  (clock : datetime)
  (location : S3.GetBucketLocationResult)
  (pages : list CloudWatch.ListMetricsPage) :
  get_bucket_location session region_name bucket_name = Reply location ->
  declared_region location = region_name ->
  list_metrics_paginate session region_name
    (bucket_size_metrics_request bucket_name) = Reply pages ->
  Forall (fun metric => has_storage_type metric = true)
    (listed_metrics pages) ->
  calls (get_bucket_size session account_id region_name bucket_name) clock
  = [ GetBucketLocation region_name bucket_name;
      ListMetricsPaginate region_name
        (bucket_size_metrics_request bucket_name) ]
    ++ map (statistics_call region_name clock)
         (queried_metrics session region_name clock (listed_metrics pages))
  /\ (Forall (fun metric =>
                metric_failure session region_name clock metric = None)
        (listed_metrics pages) ->
      exists records,
        run (get_bucket_size session account_id region_name bucket_name)
          clock
        = (Returned records,
           [ GetBucketLocation region_name bucket_name;
             ListMetricsPaginate region_name
               (bucket_size_metrics_request bucket_name) ]
           ++ map (statistics_call region_name clock)
                (listed_metrics pages))
        /\ Forall2
             (record_of session account_id region_name bucket_name clock)
             (filter retained (listed_metrics pages)) records)
  /\ (forall before metric after exc,
        listed_metrics pages = before ++ metric :: after ->
        Forall (fun listed =>
                  metric_failure session region_name clock listed = None)
          before ->
        metric_failure session region_name clock metric = Some exc ->
        run (get_bucket_size session account_id region_name bucket_name)
          clock
        = (Raised exc,
           [ GetBucketLocation region_name bucket_name;
             ListMetricsPaginate region_name
               (bucket_size_metrics_request bucket_name) ]
           ++ map (statistics_call region_name clock)
                (before ++ [metric]))).
Proof.
  intros Hloc Hregion Hpages Hclass.
  pose proof (get_bucket_size_listed session account_id region_name
                bucket_name clock location pages Hloc Hregion Hpages) as Hg.
  cbv zeta in Hg.
  assert (Hall : forallb has_storage_type (listed_metrics pages) = true).
  { apply forallb_forall. now apply Forall_forall. }
  rewrite Hall in Hg. repeat apply conj.
  - unfold calls, run. rewrite Hg.
    pose proof (collect_metrics_queried session account_id region_name
                  bucket_name clock (listed_metrics pages) []
                  {| wall_clock := clock;
                     trace := [ GetBucketLocation region_name bucket_name;
                                ListMetricsPaginate region_name
                                  (bucket_size_metrics_request bucket_name) ]
                  |}) as Htrace.
    destruct (for_each _ _ _ _) as [r w']. exact Htrace.
  - intros Hfine.
    assert (Hwell : Forall (well_answered session region_name clock)
                      (listed_metrics pages)).
    { apply (Forall_impl _ (metric_failure_none session region_name clock)
               Hfine). }
    destruct (collect_metrics_returned session account_id region_name
                bucket_name clock (listed_metrics pages) []
                {| wall_clock := clock;
                   trace := [ GetBucketLocation region_name bucket_name;
                              ListMetricsPaginate region_name
                                (bucket_size_metrics_request bucket_name) ]
                |} Hwell) as (records & Hrun & Hrec).
    exists records. split; [|exact Hrec].
    unfold run. rewrite Hg, Hrun. reflexivity.
  - intros before metric after exc Hsplit Hbefore Hfail.
    unfold run. rewrite Hg, Hsplit, map_app, for_each_app.
    assert (Hwell : Forall (well_answered session region_name clock) before).
    { apply (Forall_impl _ (metric_failure_none session region_name clock)
               Hbefore). }
    destruct (collect_metrics_returned session account_id region_name
                bucket_name clock before []
                {| wall_clock := clock;
                   trace := [ GetBucketLocation region_name bucket_name;
                              ListMetricsPaginate region_name
                                (bucket_size_metrics_request bucket_name) ]
                |} Hwell) as (records & -> & _).
    cbn [map for_each]. unfold bind.
    rewrite (collect_metric_failure _ _ _ _ _ _ _ _ _ Hfail).
    cbn [trace]. rewrite map_app, <- !app_assoc. reflexivity.
Qed.

Lemma bucket_statistics_for_every_listed_metric_witness :
  (exists records,
     run (get_bucket_size photos_bucket "acct" "eu-west-1" "photos")
       two_days_in
     = (Returned records,
        [ GetBucketLocation "eu-west-1" "photos";
          ListMetricsPaginate "eu-west-1"
            (bucket_size_metrics_request "photos") ]
        ++ map (statistics_call "eu-west-1" two_days_in)
             [ bucket_metric "photos" "StandardStorage";
               bucket_metric "photos" "GlacierStorage";
               bucket_metric "photos" "StandardIAStorage" ])
     /\ List.length records = 2%nat)
  /\ run (get_bucket_size throttled_bucket "acct" "eu-west-1" "photos")
       two_days_in
     = (Raised (ClientError "Throttling"),
        [ GetBucketLocation "eu-west-1" "photos";
          ListMetricsPaginate "eu-west-1"
            (bucket_size_metrics_request "photos") ]
        ++ map (statistics_call "eu-west-1" two_days_in)
             [ bucket_metric "photos" "StandardStorage";
               bucket_metric "photos" "GlacierStorage" ]).
Proof.
  split.
  - destruct (bucket_statistics_for_every_listed_metric photos_bucket "acct"
                "eu-west-1" "photos" two_days_in
                {| S3.LocationConstraint := Some "eu-west-1" |} photos_pages)
      as (_ & Hall & _).
    + reflexivity.
    + reflexivity.
    + reflexivity.
    + repeat constructor.
    + destruct Hall as (records & Hrun & Hrec).
      * repeat constructor.
      * exists records. split; [exact Hrun|].
        symmetry. exact (Forall2_length Hrec).
  - destruct (bucket_statistics_for_every_listed_metric throttled_bucket
                "acct" "eu-west-1" "photos" two_days_in
                {| S3.LocationConstraint := Some "eu-west-1" |} photos_pages)
      as (_ & _ & Hfirst).
    + reflexivity.
    + reflexivity.
    + reflexivity.
    + repeat constructor.
    + apply (Hfirst [bucket_metric "photos" "StandardStorage"]
               (bucket_metric "photos" "GlacierStorage")
               [bucket_metric "photos" "StandardIAStorage"]).
      * reflexivity.
      * repeat constructor.
      * reflexivity.
Defined.
